(** * The transaction heartbeater interceptor (package kv, [txnHeartbeater])

    A shallow embedding of the [txnHeartbeater] interceptor: the begin
    transaction injection done by [SendLocked], the epoch hook, the heartbeat
    loop, a single heartbeat attempt and the asynchronous abort.

    The interceptor runs under the coordinator's mutex.  Every method below
    is embedded as a function from the state it finds to the state it
    leaves.  The two senders, [wrapped] and [gatekeeper], are collaborators:
    they are variables of the development and every batch the interceptor
    hands to them is recorded in a log.  The mutex is released while a
    sender waits for its response: [heartbeat_among] embeds a heartbeat
    with what the other critical sections do during its send, and the
    operation traces of [run] interleave the rounds of the loop with the
    other methods. *)

From Stdlib Require Import String ZArith List Bool Lia.
Import ListNotations.

Local Open Scope string_scope.
Local Open Scope list_scope.
Local Open Scope Z_scope.

(** ** roachpb: the messages the interceptor looks at *)

(** A [roachpb.Key] is a byte slice; [None] is the nil slice. *)
Definition Key := option string.

Definition len_Key (k : Key) : Z :=
  match k with
  | None => 0
  | Some s => Z.of_nat (String.length s)
  end.

Definition Timestamp := Z.

Inductive TransactionStatus := PENDING | COMMITTED | ABORTED.

Definition TransactionStatus_eqb (a b : TransactionStatus) : bool :=
  match a, b with
  | PENDING, PENDING | COMMITTED, COMMITTED | ABORTED, ABORTED => true
  | _, _ => false
  end.

Record Transaction := mkTransaction {
  txn_Key : Key;
  txn_Epoch : Z;
  txn_Status : TransactionStatus;
  txn_Writing : bool
}.

Definition set_txn_Key (k : Key) (t : Transaction) : Transaction :=
  mkTransaction k (txn_Epoch t) (txn_Status t) (txn_Writing t).

Definition set_txn_Status (s : TransactionStatus) (t : Transaction) : Transaction :=
  mkTransaction (txn_Key t) (txn_Epoch t) s (txn_Writing t).

Definition set_txn_Writing (b : bool) (t : Transaction) : Transaction :=
  mkTransaction (txn_Key t) (txn_Epoch t) (txn_Status t) b.

(** Modelled from the spec: [Transaction.Clone] (package roachpb is not part
    of the sources) makes a snapshot of the record.  Values are immutable
    here, so the snapshot is the record itself. *)
Definition Clone (t : Transaction) : Transaction := t.

Record RequestHeader := mkRequestHeader { hdr_Key : Key }.

(** The request union.  The three transaction requests the interceptor
    builds or inspects, and the point and range requests of a client
    batch. *)
Inductive Request :=
| GetRequest (h : RequestHeader)
| ScanRequest (h : RequestHeader)
| PutRequest (h : RequestHeader) (value : string)
| ConditionalPutRequest (h : RequestHeader) (value : string)
| IncrementRequest (h : RequestHeader) (increment : Z)
| DeleteRequest (h : RequestHeader)
| DeleteRangeRequest (h : RequestHeader)
| BeginTransactionRequest (h : RequestHeader)
| EndTransactionRequest (h : RequestHeader) (Commit Poison : bool)
| HeartbeatTxnRequest (h : RequestHeader) (Now : Timestamp).

Definition Header (r : Request) : RequestHeader :=
  match r with
  | GetRequest h | ScanRequest h | PutRequest h _ | ConditionalPutRequest h _
  | IncrementRequest h _ | DeleteRequest h | DeleteRangeRequest h
  | BeginTransactionRequest h | EndTransactionRequest h _ _
  | HeartbeatTxnRequest h _ => h
  end.

(** [Method().String()] of a request. *)
Definition Method (r : Request) : string :=
  match r with
  | GetRequest _ => "Get"
  | ScanRequest _ => "Scan"
  | PutRequest _ _ => "Put"
  | ConditionalPutRequest _ _ => "ConditionalPut"
  | IncrementRequest _ _ => "Increment"
  | DeleteRequest _ => "Delete"
  | DeleteRangeRequest _ => "DeleteRange"
  | BeginTransactionRequest _ => "BeginTransaction"
  | EndTransactionRequest _ _ _ => "EndTransaction"
  | HeartbeatTxnRequest _ _ => "HeartbeatTxn"
  end.

(** The type assertion of [args] to an end-transaction request. *)
Definition isEndTransactionRequest (r : Request) : bool :=
  match r with
  | EndTransactionRequest _ _ _ => true
  | _ => false
  end.

(** Modelled from the spec: [roachpb.IsTransactionWrite] (package roachpb is
    not part of the sources) tells whether a request performs a transactional
    write.  The writes of a client batch do; reads do not, and neither do the
    requests that only manage the transaction record: a batch holding only an
    end-transaction request has no write present. *)
Definition IsTransactionWrite (r : Request) : bool :=
  match r with
  | PutRequest _ _ | ConditionalPutRequest _ _ | IncrementRequest _ _
  | DeleteRequest _ | DeleteRangeRequest _ => true
  | GetRequest _ | ScanRequest _ | BeginTransactionRequest _
  | EndTransactionRequest _ _ _ | HeartbeatTxnRequest _ _ => false
  end.

(** A batch request: the header's transaction and the requests.  The
    coordinator installs a snapshot of its transaction in every batch before
    the interceptor stack is entered, so [ba_Txn] is always present here.
    [ba.Txn] is a pointer in the source, and [SendLocked] dereferences it
    without a check in a qualifying write: a batch without a transaction,
    on which that dereference panics, is outside the embedding. *)
Record BatchRequest := mkBatchRequest {
  ba_Txn : Transaction;
  ba_Requests : list Request
}.

(** Modelled from the spec: [BatchRequest.IsSingleEndTransactionRequest]
    (package roachpb is not part of the sources): the batch is exactly one
    end-transaction request. *)
Definition IsSingleEndTransactionRequest (ba : BatchRequest) : bool :=
  match ba_Requests ba with
  | [EndTransactionRequest _ _ _] => true
  | _ => false
  end.

(** Modelled from the spec: [BatchRequest.GetArg(roachpb.EndTransaction)]
    (package roachpb is not part of the sources) finds the terminal
    end-transaction request of the batch, which is its last request. *)
Definition GetArg_EndTransaction (ba : BatchRequest) : option Request :=
  match last (map Some (ba_Requests ba)) None with
  | Some r => if isEndTransactionRequest r then Some r else None
  | None => None
  end.

Inductive Response :=
| HeartbeatTxnResponse (Txn : option Transaction)
| OtherResponse (method : string).

(** A batch response.  [br_Responses] is a slice: [None] is nil. *)
Record BatchResponse := mkBatchResponse {
  br_Txn : option Transaction;
  br_Responses : option (list Response)
}.

Inductive TransactionStatusError_Reason :=
| REASON_UNKNOWN
| REASON_TXN_NOT_FOUND.

Inductive ErrorDetail :=
| TransactionStatusError (Msg : string) (Reason : TransactionStatusError_Reason)
| TransactionAbortedError
| TransactionRetryError
| NodeUnavailableError
| OtherError (name : string).

(** [roachpb.Error]: the message, the detail, the transaction the error
    carries and the position in the batch of the request that failed
    ([Index.Index], an int32; [None] is a nil [Index]). *)
Record Error := mkError {
  err_Message : string;
  err_Detail : option ErrorDetail;
  err_Txn : option Transaction;
  err_Index : option Z
}.

Definition NewErrorf (msg : string) : Error := mkError msg None None None.

(** A Go [error] value as far as [roachpb.NewError] tells them apart. *)
Inductive GoError :=
| DetailError (d : ErrorDetail)
| PlainError (msg : string).

Definition NewError (err : GoError) : Error :=
  match err with
  | DetailError d => mkError "" (Some d) None None
  | PlainError msg => mkError msg None None None
  end.

Definition set_err_Index (i : option Z) (pErr : Error) : Error :=
  mkError (err_Message pErr) (err_Detail pErr) (err_Txn pErr) i.

(** Go's conversion [int32(x)] of an [int]. *)
Definition int32 (x : Z) : Z := (x + 2 ^ 31) mod 2 ^ 32 - 2 ^ 31.

(** ** The interceptor's state and its surroundings *)

Record Settings := mkSettings {
  (** [st.Version.IsActive(cluster.VersionLazyTxnRecord)] *)
  VersionLazyTxnRecord_IsActive : bool
}.

(** A channel is known by its number; [make] draws a fresh one. *)
Definition Chan := nat.

Record txnHeartbeater := mkTxnHeartbeater {
  st : Settings;
  eagerRecord : bool;
  mu_txnEnd : option Chan;
  mu_txn : Transaction;
  mu_finalErr : option Error;
  mu_needBeginTxn : bool
}.

Definition set_txnEnd (c : option Chan) (h : txnHeartbeater) : txnHeartbeater :=
  mkTxnHeartbeater (st h) (eagerRecord h) c (mu_txn h) (mu_finalErr h) (mu_needBeginTxn h).

Definition set_txn (t : Transaction) (h : txnHeartbeater) : txnHeartbeater :=
  mkTxnHeartbeater (st h) (eagerRecord h) (mu_txnEnd h) t (mu_finalErr h) (mu_needBeginTxn h).

Definition set_finalErr (f : option Error) (h : txnHeartbeater) : txnHeartbeater :=
  mkTxnHeartbeater (st h) (eagerRecord h) (mu_txnEnd h) (mu_txn h) f (mu_needBeginTxn h).

Definition set_needBeginTxn (b : bool) (h : txnHeartbeater) : txnHeartbeater :=
  mkTxnHeartbeater (st h) (eagerRecord h) (mu_txnEnd h) (mu_txn h) (mu_finalErr h) b.

(** The tasks the interceptor hands to the stopper. *)
Inductive AsyncTask :=
| HeartbeatLoopTask                      (* "kv.TxnCoordSender: heartbeat loop" *)
| AbortTxnTask (ba : BatchRequest).      (* "txnHeartbeater: aborting txn" *)

(** What surrounds the interceptor: the batches each sender has received
    (latest first), the number of calls of [asyncAbortCallbackLocked], the
    tasks the stopper has accepted (oldest first), whether the stopper is
    quiescing, the clock, and the channels made and closed so far. *)
Record Env := mkEnv {
  wrappedLog : list BatchRequest;
  gatekeeperLog : list BatchRequest;
  asyncAbortCalls : nat;
  asyncTasks : list AsyncTask;
  quiescing : bool;
  clock : Timestamp;
  nextChan : Chan;
  closedChans : list Chan
}.

Definition log_wrapped (ba : BatchRequest) (e : Env) : Env :=
  mkEnv (ba :: wrappedLog e) (gatekeeperLog e) (asyncAbortCalls e) (asyncTasks e)
        (quiescing e) (clock e) (nextChan e) (closedChans e).

Definition log_gatekeeper (ba : BatchRequest) (e : Env) : Env :=
  mkEnv (wrappedLog e) (ba :: gatekeeperLog e) (asyncAbortCalls e) (asyncTasks e)
        (quiescing e) (clock e) (nextChan e) (closedChans e).

(** A call of [asyncAbortCallbackLocked].  The callback is the
    coordinator's and is not part of the sources: its calls are counted,
    and what it does to the coordinator once it is told is not embedded. *)
Definition call_asyncAbortCallbackLocked (e : Env) : Env :=
  mkEnv (wrappedLog e) (gatekeeperLog e) (S (asyncAbortCalls e)) (asyncTasks e)
        (quiescing e) (clock e) (nextChan e) (closedChans e).

Definition add_task (t : AsyncTask) (e : Env) : Env :=
  mkEnv (wrappedLog e) (gatekeeperLog e) (asyncAbortCalls e) (asyncTasks e ++ [t])
        (quiescing e) (clock e) (nextChan e) (closedChans e).

Definition set_quiescing (b : bool) (e : Env) : Env :=
  mkEnv (wrappedLog e) (gatekeeperLog e) (asyncAbortCalls e) (asyncTasks e)
        b (clock e) (nextChan e) (closedChans e).

(** [make(chan struct{})] *)
Definition make_chan (e : Env) : Chan * Env :=
  (nextChan e,
   mkEnv (wrappedLog e) (gatekeeperLog e) (asyncAbortCalls e) (asyncTasks e)
         (quiescing e) (clock e) (S (nextChan e)) (closedChans e)).

(** [close(c)] *)
Definition close_chan (c : Chan) (e : Env) : Env :=
  mkEnv (wrappedLog e) (gatekeeperLog e) (asyncAbortCalls e) (asyncTasks e)
        (quiescing e) (clock e) (nextChan e) (c :: closedChans e).

Definition is_closed (c : Chan) (e : Env) : bool :=
  existsb (Nat.eqb c) (closedChans e).

(** Modelled from the spec: the error of a stopper that is shutting down
    (package stop is not part of the sources). *)
Definition ErrUnavailable : GoError := DetailError NodeUnavailableError.

(** Modelled from the spec: [stop.Stopper.RunAsyncTask] (package stop is not
    part of the sources) schedules the task and fails only when the stopper
    is shutting down, in which case the task never runs. *)
Definition RunAsyncTask (t : AsyncTask) (e : Env) : option GoError * Env :=
  if quiescing e then (Some ErrUnavailable, e) else (None, add_task t e).

(** The result of a method: it returns, or the process stops in [log.Fatal],
    or the Go runtime panics. *)
Inductive Outcome (A : Type) : Type :=
| Done (a : A) (h : txnHeartbeater) (e : Env)
| Fatal (msg : string)
| Panic (msg : string).

Arguments Done {A} a h e.
Arguments Fatal {A} msg.
Arguments Panic {A} msg.

(** What a [lockedSender] returns. *)
Definition SendResult : Type := option BatchResponse * option Error.

(** ** firstWriteIndex *)

(** The loop of [firstWriteIndex]: [len] is [len(ba.Requests)], [i] the
    index of the head of [reqs]. *)
Fixpoint firstWriteIndex_loop (len i : Z) (reqs : list Request) : Z * option Error :=
  match reqs with
  | [] => (-1, None)
  | args :: rest =>
      if (i <? len - 1) && isEndTransactionRequest args
      then (-1, Some (NewErrorf (Method args ++ " sent as non-terminal call")%string))
      else if IsTransactionWrite args
           then (i, None)
           else firstWriteIndex_loop len (i + 1) rest
  end.

Definition firstWriteIndex (ba : BatchRequest) : Z * option Error :=
  firstWriteIndex_loop (Z.of_nat (length (ba_Requests ba))) 0 (ba_Requests ba).

(** ** The interceptor *)

Section Interceptor.

(** The next sender in the stack and the gatekeeper.  A sender sees the
    batches it has received before (latest first) and the batch it is
    given, and answers with a response and an error. *)
Variable wrapped : list BatchRequest -> BatchRequest -> SendResult.
Variable gatekeeper : list BatchRequest -> BatchRequest -> SendResult.

(** [Transaction.Update] of package roachpb, which is not part of the
    sources: the merge of a snapshot (possibly nil) into the record. *)
Variable Update : Transaction -> option Transaction -> Transaction.

(** A send through either sender: the batch is logged and the answer is
    the sender's.  The mutex is released while the sender waits for the
    response; a send is embedded with nothing running in the meantime, but
    in [heartbeat_among]. *)
Definition wrapped_SendLocked (ba : BatchRequest) (e : Env) : SendResult * Env :=
  (wrapped (wrappedLog e) ba, log_wrapped ba e).

Definition gatekeeper_SendLocked (ba : BatchRequest) (e : Env) : SendResult * Env :=
  (gatekeeper (gatekeeperLog e) ba, log_gatekeeper ba e).

(** [ba.IsSingleEndTransactionRequest() && !ba.Requests[0]...Commit] *)
Definition singleRollback (ba : BatchRequest) : bool :=
  IsSingleEndTransactionRequest ba &&
  match ba_Requests ba with
  | EndTransactionRequest _ Commit _ :: _ => negb Commit
  | _ => false
  end.

(** The new request slice of [SendLocked]: the requests before the first
    write, the begin-transaction request, the requests from the first write
    on. *)
Definition injectBeginTxn (firstWriteIdx : Z) (bt : Request) (oldRequests : list Request)
  : list Request :=
  firstn (Z.to_nat firstWriteIdx) oldRequests
  ++ bt :: skipn (Z.to_nat firstWriteIdx) oldRequests.

(** [br.Responses = append(br.Responses[:firstWriteIdx],
    br.Responses[firstWriteIdx+1:]...)] when [br] and [br.Responses] are not
    nil; [None] when the slice expression is out of range. *)
Definition removeBeginTxnResponse (firstWriteIdx : Z) (br : option BatchResponse)
  : option (option BatchResponse) :=
  match br with
  | None => Some None
  | Some b =>
      match br_Responses b with
      | None => Some br
      | Some rs =>
          if firstWriteIdx + 1 <=? Z.of_nat (length rs)
          then Some (Some (mkBatchResponse (br_Txn b)
                 (Some (firstn (Z.to_nat firstWriteIdx) rs
                        ++ skipn (Z.to_nat (firstWriteIdx + 1)) rs))))
          else None
      end
  end.

(** The case where the inserted begin transaction confused an indexed
    error.  [idx - 1] is computed only for an [idx] above another int32, so
    the subtraction does not wrap. *)
Definition adjustErrorIndex (firstWriteIdx : Z) (pErr : option Error) : option Error :=
  match pErr with
  | None => None
  | Some err =>
      match err_Index err with
      | None => pErr
      | Some idx =>
          if idx =? int32 firstWriteIdx
          then Some (set_err_Index None err)
          else if idx >? int32 firstWriteIdx
               then Some (set_err_Index (Some (idx - 1)) err)
               else pErr
      end
  end.

(** The bookkeeping of [SendLocked] for a batch that needs a begin
    transaction: [needBeginTxn] is cleared, the record and the batch's copy
    are marked as writing, the anchor key is set from the first write when
    the record has none, and the begin-transaction request is inserted when
    the record is eager or lazy records are not active.  The result is the
    new state, the batch to forward and [addedBeginTxn]; [None] when the
    index expression is out of range. *)
Definition prepareBeginTxn (firstWriteIdx : Z) (ba : BatchRequest) (h : txnHeartbeater)
  : option (txnHeartbeater * BatchRequest * bool) :=
  let h := set_needBeginTxn false h in
  let h := set_txn (set_txn_Writing true (mu_txn h)) h in
  let baTxn := set_txn_Writing true (ba_Txn ba) in
  let anchored :=
    if len_Key (txn_Key (mu_txn h)) =? 0
    then match nth_error (ba_Requests ba) (Z.to_nat firstWriteIdx) with
         | Some r =>
             let anchor := hdr_Key (Header r) in
             Some (set_txn (set_txn_Key anchor (mu_txn h)) h, set_txn_Key anchor baTxn)
         | None => None
         end
    else Some (h, baTxn) in
  match anchored with
  | None => None
  | Some (h, baTxn) =>
      if eagerRecord h || negb (VersionLazyTxnRecord_IsActive (st h))
      then
        let bt := BeginTransactionRequest (mkRequestHeader (txn_Key (mu_txn h))) in
        Some (h, mkBatchRequest baTxn (injectBeginTxn firstWriteIdx bt (ba_Requests ba)), true)
      else Some (h, mkBatchRequest baTxn (ba_Requests ba), false)
  end.

Definition startHeartbeatLoopLocked (h : txnHeartbeater) (e : Env)
  : Outcome (option GoError) :=
  match mu_txnEnd h with
  | Some _ => Fatal "attempting to start a second heartbeat loop "
  | None =>
      let '(c, e) := make_chan e in
      let h := set_txnEnd (Some c) h in
      let '(err, e) := RunAsyncTask HeartbeatLoopTask e in
      Done err h e
  end.

(** The end of [SendLocked]: forward the batch through the wrapped sender
    and, if a begin transaction request was inserted, remove it. *)
Definition forwardBatch (addedBeginTxn : bool) (firstWriteIdx : Z)
    (ba : BatchRequest) (h : txnHeartbeater) (e : Env) : Outcome SendResult :=
  let '((br, pErr), e) := wrapped_SendLocked ba e in
  if addedBeginTxn
  then match removeBeginTxnResponse firstWriteIdx br with
       | None => Panic "slice bounds out of range"
       | Some br => Done (br, adjustErrorIndex firstWriteIdx pErr) h e
       end
  else Done (br, pErr) h e.

Definition isSome {A : Type} (o : option A) : bool :=
  match o with Some _ => true | None => false end.

Definition SendLocked (ba : BatchRequest) (h : txnHeartbeater) (e : Env)
  : Outcome SendResult :=
  (* If finalErr is set, we reject everything but rollbacks. *)
  if isSome (mu_finalErr h) && negb (singleRollback ba)
  then Done (None, mu_finalErr h) h e
  else
    let '(firstWriteIdx, pErr) := firstWriteIndex ba in
    match pErr with
    | Some _ => Done (None, pErr) h e
    | None =>
        let haveTxnWrite := negb (firstWriteIdx =? -1) in
        let haveEndTxn := isSome (GetArg_EndTransaction ba) in
        let needBeginTxn := haveTxnWrite && mu_needBeginTxn h in
        if needBeginTxn
        then
          match prepareBeginTxn firstWriteIdx ba h with
          | None => Panic "index out of range"
          | Some (h, ba, addedBeginTxn) =>
              (* Start the heartbeat loop. *)
              if negb (isSome (mu_txnEnd h)) && negb haveEndTxn
              then match startHeartbeatLoopLocked h e with
                   | Done (Some err) h e =>
                       let h := set_finalErr (Some (NewError err)) h in
                       Done (None, mu_finalErr h) h e
                   | Done None h e => forwardBatch addedBeginTxn firstWriteIdx ba h e
                   | Fatal msg => Fatal msg
                   | Panic msg => Panic msg
                   end
              else forwardBatch addedBeginTxn firstWriteIdx ba h e
          end
        else forwardBatch false firstWriteIdx ba h e
    end.

Definition epochBumpedLocked (h : txnHeartbeater) : txnHeartbeater :=
  set_needBeginTxn true h.

Definition closeLocked (h : txnHeartbeater) (e : Env) : txnHeartbeater * Env :=
  match mu_txnEnd h with
  | None => (h, e)
  | Some c => (set_txnEnd None h, close_chan c e)
  end.

(** [init] as far as this record goes: it installs the settings and the
    transaction record and sets [needBeginTxn].  The stopper, the clock and
    the senders, which it installs too, are the surroundings and the
    variables here.  It assigns nothing to [txnEnd], [finalErr] or
    [eagerRecord]. *)
Definition init (txn : Transaction) (st0 : Settings) (h : txnHeartbeater)
  : txnHeartbeater :=
  mkTxnHeartbeater st0 (eagerRecord h) (mu_txnEnd h) txn (mu_finalErr h) true.

(** ** Abort and heartbeat *)

Definition abortTxnAsyncLocked (h : txnHeartbeater) (e : Env) : Outcome unit :=
  if negb (TransactionStatus_eqb (txn_Status (mu_txn h)) ABORTED)
  then Fatal "abortTxnAsyncLocked called for non-aborted txn"
  else
    let e := call_asyncAbortCallbackLocked e in
    let txn := Clone (mu_txn h) in
    (* Construct a batch with an EndTransaction request. *)
    let ba := mkBatchRequest txn [EndTransactionRequest (mkRequestHeader None) false true] in
    (* A refusal of the stopper is logged and nothing else. *)
    let '(_, e) := RunAsyncTask (AbortTxnTask ba) e in
    Done tt h e.

(** The body of the task scheduled by [abortTxnAsyncLocked]: the abort goes
    through the wrapped sender, and its error is only logged. *)
Definition runAbortTxnTask (ba : BatchRequest) (h : txnHeartbeater) (e : Env)
  : txnHeartbeater * Env :=
  let '(_, e) := wrapped_SendLocked ba e in (h, e).

(** The end of [heartbeat]: update our txn with the one received. *)
Definition heartbeatUpdate (respTxn : option Transaction)
    (h : txnHeartbeater) (e : Env) : Outcome bool :=
  let h := set_txn (Update (mu_txn h) respTxn) h in
  if negb (TransactionStatus_eqb (txn_Status (mu_txn h)) PENDING)
  then
    if TransactionStatus_eqb (txn_Status (mu_txn h)) ABORTED
    then match abortTxnAsyncLocked h e with
         | Done _ h e => Done false h e
         | Fatal msg => Fatal msg
         | Panic msg => Panic msg
         end
    else Done false h e
  else Done true h e.

(** The batch of a heartbeat: one heartbeat request at the anchor key, with
    the clock's reading, under a clone of the record. *)
Definition heartbeatBatch (h : txnHeartbeater) (e : Env) : BatchRequest :=
  let txn := Clone (mu_txn h) in
  mkBatchRequest txn [HeartbeatTxnRequest (mkRequestHeader (txn_Key txn)) (clock e)].

Definition heartbeat (h : txnHeartbeater) (e : Env) : Outcome bool :=
  (* If the txn is no longer pending, there's nothing for us to heartbeat. *)
  if negb (TransactionStatus_eqb (txn_Status (mu_txn h)) PENDING)
  then
    if isSome (mu_txnEnd h)
    then Fatal "txn committed or aborted but heartbeat loop hasn't been signaled to stop"
    else Done false h e
  else
    let txn := Clone (mu_txn h) in
    match txn_Key txn with
    | None => Fatal "attempting to heartbeat txn without anchor key"
    | Some _ =>
        let ba := heartbeatBatch h e in
        let '((br, pErr), e) := gatekeeper_SendLocked ba e in
        match pErr with
        | Some err =>
            match err_Detail err with
            | Some (TransactionStatusError _ REASON_TXN_NOT_FOUND) => Done true h e
            | Some TransactionAbortedError =>
                let h := set_txn (set_txn_Status ABORTED (mu_txn h)) h in
                match abortTxnAsyncLocked h e with
                | Done _ h e => Done false h e
                | Fatal msg => Fatal msg
                | Panic msg => Panic msg
                end
            | _ => heartbeatUpdate (err_Txn err) h e
            end
        | None =>
            match br with
            | None => Panic "nil pointer dereference"
            | Some b =>
                match br_Responses b with
                | Some (HeartbeatTxnResponse respTxn :: _) => heartbeatUpdate respTxn h e
                | Some (_ :: _) => Panic "interface conversion"
                | _ => Panic "index out of range"
                end
            end
        end
    end.

(** ** A heartbeat among other critical sections *)

(** The mutex is not held throughout [heartbeat]: inside the send, the
    sender at the bottom of the stack unlocks until the response is there,
    and other critical sections run.  [heartbeat] above is the method with
    nothing running during its send.  In [heartbeat_among], [meanwhile] is
    what has been done to the interceptor and to its surroundings between
    the send and the moment the mutex is held again. *)

(** What [heartbeat] does with the answer of the gatekeeper. *)
Definition heartbeat_received (r : SendResult) (h : txnHeartbeater) (e : Env)
  : Outcome bool :=
  let '(br, pErr) := r in
  match pErr with
  | Some err =>
      match err_Detail err with
      | Some (TransactionStatusError _ REASON_TXN_NOT_FOUND) => Done true h e
      | Some TransactionAbortedError =>
          let h := set_txn (set_txn_Status ABORTED (mu_txn h)) h in
          match abortTxnAsyncLocked h e with
          | Done _ h e => Done false h e
          | Fatal msg => Fatal msg
          | Panic msg => Panic msg
          end
      | _ => heartbeatUpdate (err_Txn err) h e
      end
  | None =>
      match br with
      | None => Panic "nil pointer dereference"
      | Some b =>
          match br_Responses b with
          | Some (HeartbeatTxnResponse respTxn :: _) => heartbeatUpdate respTxn h e
          | Some (_ :: _) => Panic "interface conversion"
          | _ => Panic "index out of range"
          end
      end
  end.

Definition heartbeat_among (meanwhile : txnHeartbeater * Env -> txnHeartbeater * Env)
    (h : txnHeartbeater) (e : Env) : Outcome bool :=
  (* If the txn is no longer pending, there's nothing for us to heartbeat. *)
  if negb (TransactionStatus_eqb (txn_Status (mu_txn h)) PENDING)
  then
    if isSome (mu_txnEnd h)
    then Fatal "txn committed or aborted but heartbeat loop hasn't been signaled to stop"
    else Done false h e
  else
    let txn := Clone (mu_txn h) in
    match txn_Key txn with
    | None => Fatal "attempting to heartbeat txn without anchor key"
    | Some _ =>
        let ba := heartbeatBatch h e in
        let '(r, e) := gatekeeper_SendLocked ba e in
        let '(h, e) := meanwhile (h, e) in
        heartbeat_received r h e
    end.

(** ** The heartbeat loop *)

(** What wakes the [select] of the loop. *)
Inductive LoopEvent :=
| Tick            (* <-tickChan *)
| CloserClosed    (* <-closer *)
| ShouldQuiesce.  (* <-h.stopper.ShouldQuiesce() *)

(** The deferred function of [heartbeatLoop]. *)
Definition heartbeatLoop_deferred (finalErr : option Error) (h : txnHeartbeater)
  : txnHeartbeater :=
  let h := match finalErr with
           | Some _ => set_finalErr finalErr h
           | None => h
           end in
  match mu_txnEnd h with
  | Some _ => set_txnEnd None h
  | None => h
  end.

(** Where the loop stands after an event: still in its [select], with the
    channel it read at its start, or returned. *)
Inductive LoopState :=
| Looping (closer : Chan)
| Returned.

(** One round of the [select].  An event whose channel is not ready leaves
    the loop waiting. *)
Definition heartbeatLoop_select (closer : Chan) (ev : LoopEvent)
    (h : txnHeartbeater) (e : Env) : Outcome LoopState :=
  match ev with
  | Tick =>
      match heartbeat h e with
      | Done true h e => Done (Looping closer) h e
      | Done false h e =>
          Done Returned
            (heartbeatLoop_deferred (Some (NewErrorf "heartbeat failed fatally")) h) e
      | Fatal msg => Fatal msg
      | Panic msg => Panic msg
      end
  | CloserClosed =>
      if is_closed closer e
      then Done Returned
             (heartbeatLoop_deferred (Some (NewErrorf "txnHeartbeater already closed")) h) e
      else Done (Looping closer) h e
  | ShouldQuiesce =>
      if quiescing e
      then Done Returned
             (heartbeatLoop_deferred (Some (NewErrorf "node already quiescing")) h) e
      else Done (Looping closer) h e
  end.

(** The rounds of the loop over the events [evs], one after another with
    nothing in between.  The loop holds the mutex inside [heartbeat] and
    the deferred function only: [run] below takes single rounds
    ([OpLoopSelect]) among the other operations. *)
Fixpoint heartbeatLoop_for (closer : Chan) (evs : list LoopEvent)
    (h : txnHeartbeater) (e : Env) : Outcome LoopState :=
  match evs with
  | [] => Done (Looping closer) h e
  | ev :: evs =>
      match heartbeatLoop_select closer ev h e with
      | Done (Looping closer) h e => heartbeatLoop_for closer evs h e
      | r => r
      end
  end.

(** [heartbeatLoop] run on the events [evs]. *)
Definition heartbeatLoop (evs : list LoopEvent) (h : txnHeartbeater) (e : Env)
  : Outcome LoopState :=
  match mu_txnEnd h with
  | None => Done Returned (heartbeatLoop_deferred None h) e
  | Some closer => heartbeatLoop_for closer evs h e
  end.

(** ** The interceptor in use *)

(** What can happen to an interceptor, one critical section at a time: the
    coordinator sends a batch, bumps the epoch or closes the interceptor;
    the heartbeat loop starts and runs over some events, or takes one more
    round of its [select]; an abort task runs; the stopper starts to
    quiesce. *)
Inductive Op :=
| OpSendLocked (ba : BatchRequest)
| OpEpochBumpedLocked
| OpCloseLocked
| OpHeartbeatLoop (evs : list LoopEvent)
| OpLoopSelect (closer : Chan) (ev : LoopEvent)
| OpAbortTxnTask (ba : BatchRequest)
| OpQuiesce.

Definition outcome_state {A : Type} (r : Outcome A) : option (txnHeartbeater * Env) :=
  match r with
  | Done _ h e => Some (h, e)
  | Fatal _ | Panic _ => None
  end.

(** One operation; [None] when the process stops. *)
Definition step (op : Op) (s : txnHeartbeater * Env) : option (txnHeartbeater * Env) :=
  let '(h, e) := s in
  match op with
  | OpSendLocked ba => outcome_state (SendLocked ba h e)
  | OpEpochBumpedLocked => Some (epochBumpedLocked h, e)
  | OpCloseLocked => Some (closeLocked h e)
  | OpHeartbeatLoop evs => outcome_state (heartbeatLoop evs h e)
  | OpLoopSelect closer ev => outcome_state (heartbeatLoop_select closer ev h e)
  | OpAbortTxnTask ba => Some (runAbortTxnTask ba h e)
  | OpQuiesce => Some (h, set_quiescing true e)
  end.

Fixpoint run (ops : list Op) (s : txnHeartbeater * Env) : option (txnHeartbeater * Env) :=
  match ops with
  | [] => Some s
  | op :: ops =>
      match step op s with
      | Some s => run ops s
      | None => None
      end
  end.

Definition isEpochBump (op : Op) : bool :=
  match op with
  | OpEpochBumpedLocked => true
  | _ => false
  end.

(** ** What a heartbeat can observe *)

(** The answer of the gatekeeper shows the transaction aborted: the error
    is a transaction-aborted error; or it is another error that is not
    swallowed, and the merge of the transaction it carries gives an aborted
    record; or the call succeeded and the merge of the transaction of the
    heartbeat response gives an aborted record. *)
Inductive ObservesAbort (txn : Transaction) : SendResult -> Prop :=
| ObservesAbortedError (br : option BatchResponse) (pErr : Error) :
    err_Detail pErr = Some TransactionAbortedError ->
    ObservesAbort txn (br, Some pErr)
| ObservesAbortedInError (br : option BatchResponse) (pErr : Error) :
    (forall msg, err_Detail pErr <> Some (TransactionStatusError msg REASON_TXN_NOT_FOUND)) ->
    err_Detail pErr <> Some TransactionAbortedError ->
    txn_Status (Update txn (err_Txn pErr)) = ABORTED ->
    ObservesAbort txn (br, Some pErr)
| ObservesAbortedInResponse (b : BatchResponse) (respTxn : option Transaction)
    (rs : list Response) :
    br_Responses b = Some (HeartbeatTxnResponse respTxn :: rs) ->
    txn_Status (Update txn respTxn) = ABORTED ->
    ObservesAbort txn (Some b, None).

(** The batch of the asynchronous abort: an end-transaction request with
    commit=false and poison=true. *)
Definition isRollbackBatch (ba : BatchRequest) : Prop :=
  exists hd, ba_Requests ba = [EndTransactionRequest hd false true].


End Interceptor.

(** What a heartbeat that found the transaction aborted returns, the record
    being [ABORTED] already: the callback is called, the rollback is handed
    to the stopper, and the heartbeat answers false. *)
Definition abortOutcome (h : txnHeartbeater) (e : Env) : Outcome bool :=
  Done false h
    (if quiescing e
     then call_asyncAbortCallbackLocked e
     else add_task
            (AbortTxnTask
               (mkBatchRequest (mu_txn h)
                  [EndTransactionRequest (mkRequestHeader None) false true]))
            (call_asyncAbortCallbackLocked e)).


(** * Vocabulary of the further properties *)

(** A request that is not a transactional write; one that is not an
    end-transaction request. *)
Definition notWrite (r : Request) : bool := negb (IsTransactionWrite r).
Definition notEnd (r : Request) : bool := negb (isEndTransactionRequest r).

(** The error of the scan. *)
Definition errNonTerminal : Error :=
  NewErrorf "EndTransaction sent as non-terminal call".

(** Where request [j] of a batch sits once a request has been inserted at
    [i]. *)
Definition shifted (i j : nat) : nat := if (j <? i)%nat then j else S j.

(** The rollback that [abortTxnAsyncLocked] builds for a record. *)
Definition rollbackOf (txn : Transaction) : BatchRequest :=
  mkBatchRequest txn [EndTransactionRequest (mkRequestHeader None) false true].

(** The errors the heartbeat loop leaves in [finalErr]. *)
Definition loopErrors : list Error :=
  [NewErrorf "heartbeat failed fatally";
   NewErrorf "txnHeartbeater already closed";
   NewErrorf "node already quiescing"].

(** The ticks among the events of the loop. *)
Definition isTick (ev : LoopEvent) : bool :=
  match ev with
  | Tick => true
  | _ => false
  end.

Definition isAbortTask (t : AsyncTask) : bool :=
  match t with
  | AbortTxnTask _ => true
  | HeartbeatLoopTask => false
  end.

(** The abort tasks the stopper holds are in order: each carries the
    rollback of an aborted record, and there are no more of them than
    calls of the abort callback. *)
Definition abortTasksOK (e : Env) : Prop :=
  (forall ba, In (AbortTxnTask ba) (asyncTasks e) ->
              exists txn, ba = rollbackOf txn /\ txn_Status txn = ABORTED) /\
  (length (filter isAbortTask (asyncTasks e)) <= asyncAbortCalls e)%nat.

(** A heartbeat batch: one heartbeat request, at the anchor key of the
    pending snapshot it is sent under. *)
Definition isHeartbeatBatch (ba : BatchRequest) : Prop :=
  txn_Status (ba_Txn ba) = PENDING /\
  exists (k : string) (now : Timestamp),
    txn_Key (ba_Txn ba) = Some k /\
    ba_Requests ba = [HeartbeatTxnRequest (mkRequestHeader (Some k)) now].

(** The ticks an operation takes. *)
Definition ticksOf (op : Op) : nat :=
  match op with
  | OpHeartbeatLoop evs => length (filter isTick evs)
  | OpLoopSelect _ Tick => 1
  | _ => 0
  end.

(** From [e] to [e'] the interceptor has handed the gatekeeper at most [n]
    batches, heartbeat batches all. *)
Definition heartbeatsSent (n : nat) (e e' : Env) : Prop :=
  exists sent : list BatchRequest,
    gatekeeperLog e' = sent ++ gatekeeperLog e /\
    Forall isHeartbeatBatch sent /\
    (length sent <= n)%nat.

(** The answer of the gatekeeper to the heartbeat of [h] is the error of a
    transaction record that was not found. *)
Definition answeredNotFound (gatekeeper : list BatchRequest -> BatchRequest -> SendResult)
    (h : txnHeartbeater) (e : Env) : Prop :=
  exists (br : option BatchResponse) (err : Error) (msg : string),
    gatekeeper (gatekeeperLog e) (heartbeatBatch h e) = (br, Some err) /\
    err_Detail err = Some (TransactionStatusError msg REASON_TXN_NOT_FOUND).

(** * Sample data

    A fresh interceptor, quiet surroundings, a few batches and senders, used
    to run the interceptor on concrete inputs. *)

Definition hdr (k : string) : RequestHeader := mkRequestHeader (Some k).

Definition txn0 : Transaction := mkTransaction None 0 PENDING false.

(** The record once it has an anchor key. *)
Definition txn1 : Transaction := mkTransaction (Some "k1") 0 PENDING true.

(** An eager interceptor as [init] leaves it. *)
Definition h_init : txnHeartbeater :=
  mkTxnHeartbeater (mkSettings true) true None txn0 None true.

(** The same with lazy transaction records: no begin transaction is sent. *)
Definition h_lazy : txnHeartbeater :=
  mkTxnHeartbeater (mkSettings true) false None txn0 None true.

(** An interceptor whose loop has ended with an error. *)
Definition h_failed : txnHeartbeater :=
  mkTxnHeartbeater (mkSettings true) true None txn1
    (Some (NewErrorf "heartbeat failed fatally")) true.

(** An interceptor with a running loop and an anchored, pending record. *)
Definition h_running : txnHeartbeater :=
  mkTxnHeartbeater (mkSettings true) true (Some 0%nat) txn1 None false.

Definition e_init : Env := mkEnv [] [] 0%nat [] false 100 0%nat [].

Definition e_running : Env :=
  mkEnv [] [] 0%nat [HeartbeatLoopTask] false 100 1%nat [].

(** The surroundings while the stopper is quiescing. *)
Definition e_quiescing : Env :=
  mkEnv [] [] 0%nat [HeartbeatLoopTask] true 100 1%nat [].

Definition ba_writes : BatchRequest :=
  mkBatchRequest txn0 [PutRequest (hdr "k1") "a"; PutRequest (hdr "k2") "b"].

Definition ba_read_write : BatchRequest :=
  mkBatchRequest txn0 [GetRequest (hdr "k0"); PutRequest (hdr "k1") "a"; GetRequest (hdr "k2")].

Definition ba_put : BatchRequest :=
  mkBatchRequest txn0 [PutRequest (hdr "k1") "a"].

Definition ba_commit : BatchRequest :=
  mkBatchRequest txn1 [EndTransactionRequest (mkRequestHeader None) true false].

Definition ba_rollback : BatchRequest :=
  mkBatchRequest txn1 [EndTransactionRequest (mkRequestHeader None) false false].

(** A batch with an end-transaction request between a write and a read. *)
Definition ba_write_end_read : BatchRequest :=
  mkBatchRequest txn0
    [PutRequest (hdr "k1") "a";
     EndTransactionRequest (mkRequestHeader None) true false;
     GetRequest (hdr "k2")].

(** [ba_writes] as an eager interceptor forwards it, and the surroundings
    after that call. *)
Definition ba_writes_forwarded : BatchRequest :=
  mkBatchRequest txn1
    [BeginTransactionRequest (hdr "k1");
     PutRequest (hdr "k1") "a"; PutRequest (hdr "k2") "b"].

Definition e_after_writes : Env :=
  mkEnv [ba_writes_forwarded] [] 0%nat [HeartbeatLoopTask] false 100 1%nat [].


(** A batch of reads, and one with an end-transaction request ahead of a
    write. *)
Definition ba_reads : BatchRequest :=
  mkBatchRequest txn1 [GetRequest (hdr "k0"); ScanRequest (hdr "k1")].

Definition ba_end_write : BatchRequest :=
  mkBatchRequest txn0
    [EndTransactionRequest (mkRequestHeader None) true false; PutRequest (hdr "k1") "a"].

(** What the wrapped sender [sender_ok] answers to [ba_writes_forwarded],
    less the response to the begin transaction. *)
Definition r_writes : SendResult :=
  (Some (mkBatchResponse None (Some [OtherResponse "Put"; OtherResponse "Put"])), None).

(** The interceptor and the surroundings after a loop start that the
    stopper refused. *)
Definition h_refused : txnHeartbeater :=
  mkTxnHeartbeater (mkSettings true) true (Some 0%nat) txn1
    (Some (NewError ErrUnavailable)) false.

Definition e_refused : Env := mkEnv [] [] 0%nat [] true 100 1%nat [].

Definition r_refused : SendResult := (None, Some (NewError ErrUnavailable)).

Definition e_init_quiescing : Env := set_quiescing true e_init.

(** The surroundings of a running loop after one heartbeat. *)
Definition e_one_heartbeat : Env :=
  log_gatekeeper (heartbeatBatch h_running e_running) e_running.

(** What may happen while a heartbeat waits for its answer: a response to
    the client marks the record aborted; or the coordinator closes the
    interceptor. *)
Definition meanwhile_aborted (s : txnHeartbeater * Env) : txnHeartbeater * Env :=
  (set_txn (set_txn_Status ABORTED (mu_txn (fst s))) (fst s), snd s).

Definition meanwhile_closed (s : txnHeartbeater * Env) : txnHeartbeater * Env :=
  match mu_txnEnd (fst s) with
  | None => s
  | Some c => (set_txnEnd None (fst s), close_chan c (snd s))
  end.

(** A fresh eager interceptor sends two writes, its loop ticks, the
    coordinator closes the interceptor, and the loop ticks once more before
    it sees its channel closed. *)
Definition ops_write_tick_close_tick : list Op :=
  [OpSendLocked ba_writes; OpLoopSelect 0%nat Tick; OpCloseLocked; OpLoopSelect 0%nat Tick].

Definition h_closed : txnHeartbeater :=
  mkTxnHeartbeater (mkSettings true) true None txn1 None false.

Definition e_ticked_closed_ticked : Env :=
  mkEnv [ba_writes_forwarded]
    [heartbeatBatch h_running e_running; heartbeatBatch h_running e_running]
    0%nat [HeartbeatLoopTask] false 100 1%nat [0%nat].


(** The record once aborted; the interceptor after a heartbeat has found
    it aborted, and after the loop has returned for that; the surroundings
    then. *)
Definition txn_aborted : Transaction := mkTransaction (Some "k1") 0 ABORTED true.

Definition h_aborted : txnHeartbeater :=
  mkTxnHeartbeater (mkSettings true) true (Some 0%nat) txn_aborted None false.

Definition h_loop_failed : txnHeartbeater :=
  mkTxnHeartbeater (mkSettings true) true None txn_aborted
    (Some (NewErrorf "heartbeat failed fatally")) false.

Definition e_aborted : Env :=
  mkEnv [] [heartbeatBatch h_running e_running] 1%nat
    [HeartbeatLoopTask; AbortTxnTask (rollbackOf txn_aborted)] false 100 1%nat [].

(** The same when the coordinator has closed the interceptor while the
    heartbeat waited for its answer. *)
Definition h_closed_aborted : txnHeartbeater :=
  mkTxnHeartbeater (mkSettings true) true None txn_aborted None false.

Definition e_closed_aborted : Env :=
  mkEnv [] [heartbeatBatch h_running e_running] 1%nat
    [HeartbeatLoopTask; AbortTxnTask (rollbackOf txn_aborted)] false 100 1%nat [0%nat].


(** A failed interceptor rolls back, bumps its epoch and sees the stopper
    quiesce. *)
Definition e_rolled_back : Env := set_quiescing true (log_wrapped ba_rollback e_init).

Definition ops_rollback_bump_quiesce : list Op :=
  [OpSendLocked ba_rollback; OpEpochBumpedLocked; OpQuiesce].

(** A sender that answers every request of the batch. *)
Definition sender_ok : list BatchRequest -> BatchRequest -> SendResult :=
  fun _ ba =>
    (Some (mkBatchResponse None
             (Some (map (fun r => OtherResponse (Method r)) (ba_Requests ba)))),
     None).

(** A sender that fails with an error at the request of index [idx]. *)
Definition sender_fails_at (idx : Z) : list BatchRequest -> BatchRequest -> SendResult :=
  fun _ _ => (None, Some (mkError "boom" (Some TransactionRetryError) None (Some idx))).

(** A gatekeeper that finds no transaction record. *)
Definition gatekeeper_not_found : list BatchRequest -> BatchRequest -> SendResult :=
  fun _ _ =>
    (None,
     Some (mkError "" (Some (TransactionStatusError "not found" REASON_TXN_NOT_FOUND))
             None None)).

(** A gatekeeper that finds the transaction aborted. *)
Definition gatekeeper_aborted : list BatchRequest -> BatchRequest -> SendResult :=
  fun _ _ => (None, Some (mkError "" (Some TransactionAbortedError) None None)).

(** A merge that takes the status of the snapshot, when there is one. *)
Definition update_status (t : Transaction) (o : option Transaction) : Transaction :=
  match o with
  | Some t' => set_txn_Status (txn_Status t') t
  | None => t
  end.


(** * Properties *)

(** The premises of a claim at a concrete input hold by computation. *)
Ltac premise := first [reflexivity | discriminate | intros; reflexivity].
Ltac premises := repeat match goal with |- _ /\ _ => split; [premise|] end.

Section Properties.

Variable wrapped : list BatchRequest -> BatchRequest -> SendResult.
Variable gatekeeper : list BatchRequest -> BatchRequest -> SendResult.
Variable Update : Transaction -> option Transaction -> Transaction.

(** ** The scan for the first write *)

Lemma firstWriteIndex_loop_range (len : Z) (reqs : list Request) :
  forall i j pErr,
    firstWriteIndex_loop len i reqs = (j, pErr) ->
    j = -1 \/ (pErr = None /\ i <= j < i + Z.of_nat (length reqs)).
Proof.
  induction reqs as [|args rest IH]; intros i j pErr H; simpl in H.
  - left. congruence.
  - destruct ((i <? len - 1) && isEndTransactionRequest args).
    + left. congruence.
    + destruct (IsTransactionWrite args).
      * right. inversion H; subst. split; [reflexivity|].
        rewrite length_cons. lia.
      * destruct (IH _ _ _ H) as [Hj | [Hp Hj]]; [now left | right].
        split; [assumption|]. rewrite length_cons. lia.
Qed.

Lemma firstWriteIndex_loop_found (len : Z) (reqs : list Request) :
  forall i j pErr,
    0 <= i ->
    firstWriteIndex_loop len i reqs = (j, pErr) ->
    j <> -1 ->
    exists w, nth_error reqs (Z.to_nat (j - i)) = Some w /\ IsTransactionWrite w = true.
Proof.
  induction reqs as [|args rest IH]; intros i j pErr Hi H Hj; simpl in H.
  - congruence.
  - destruct ((i <? len - 1) && isEndTransactionRequest args); [congruence|].
    destruct (IsTransactionWrite args) eqn:Hw.
    + inversion H; subst. replace (j - j) with 0 by lia. exists args. now split.
    + destruct (firstWriteIndex_loop_range _ _ _ _ _ H) as [Hm | [_ Hr]]; [contradiction|].
      destruct (IH (i + 1) j pErr ltac:(lia) H Hj) as [w [Hn Hwr]].
      exists w. split; [|assumption].
      replace (Z.to_nat (j - i)) with (S (Z.to_nat (j - (i + 1)))) by lia.
      exact Hn.
Qed.

(** A write found by [firstWriteIndex] is a request of the batch. *)
Lemma firstWriteIndex_found (ba : BatchRequest) (i : Z) (pErr : option Error) :
  firstWriteIndex ba = (i, pErr) ->
  i <> -1 ->
  pErr = None /\ 0 <= i < Z.of_nat (length (ba_Requests ba)) /\
  exists w, nth_error (ba_Requests ba) (Z.to_nat i) = Some w /\ IsTransactionWrite w = true.
Proof.
  unfold firstWriteIndex. intros H Hi.
  destruct (firstWriteIndex_loop_range _ _ _ _ _ H) as [Hm | [Hp Hr]]; [contradiction|].
  split; [assumption|]. split; [lia|].
  destruct (firstWriteIndex_loop_found _ _ _ _ _ (Z.le_refl 0) H Hi) as [w Hw].
  rewrite Z.sub_0_r in Hw. now exists w.
Qed.

(** Without a transactional write the scan finds none; it fails only on an
    end-transaction request that is not last. *)
Lemma firstWriteIndex_loop_no_write (len : Z) (reqs : list Request) :
  forall i,
    forallb (fun r => negb (IsTransactionWrite r)) reqs = true ->
    fst (firstWriteIndex_loop len i reqs) = -1.
Proof.
  induction reqs as [|args rest IH]; intros i H; simpl in *; [reflexivity|].
  apply andb_prop in H. destruct H as [Ha Hr].
  destruct ((i <? len - 1) && isEndTransactionRequest args); [reflexivity|].
  apply negb_true_iff in Ha. rewrite Ha. now apply IH.
Qed.

Lemma firstWriteIndex_loop_first (len : Z) (reqs : list Request) :
  forall i j pErr,
    0 <= i ->
    firstWriteIndex_loop len i reqs = (j, pErr) ->
    j <> -1 ->
    forallb (fun r => negb (IsTransactionWrite r)) (firstn (Z.to_nat (j - i)) reqs) = true.
Proof.
  induction reqs as [|args rest IH]; intros i j pErr Hi H Hj; simpl in H.
  - now rewrite firstn_nil.
  - destruct ((i <? len - 1) && isEndTransactionRequest args); [congruence|].
    destruct (IsTransactionWrite args) eqn:Hw.
    + inversion H; subst. replace (j - j) with 0 by lia. reflexivity.
    + destruct (firstWriteIndex_loop_range _ _ _ _ _ H) as [Hm | [_ Hr]]; [contradiction|].
      replace (Z.to_nat (j - i)) with (S (Z.to_nat (j - (i + 1)))) by lia.
      simpl. rewrite Hw. simpl. apply (IH (i + 1) j pErr); [lia | assumption | assumption].
Qed.

(** The scan answers -1 without an error only for a batch without a
    transactional write. *)
Lemma firstWriteIndex_loop_none (len : Z) (reqs : list Request) :
  forall i,
    0 <= i ->
    firstWriteIndex_loop len i reqs = (-1, None) ->
    filter IsTransactionWrite reqs = [].
Proof.
  induction reqs as [|args rest IH]; intros i Hi H; simpl in *; [reflexivity|].
  destruct ((i <? len - 1) && isEndTransactionRequest args); [discriminate|].
  destruct (IsTransactionWrite args).
  - inversion H. lia.
  - apply (IH (i + 1)); [lia | assumption].
Qed.

(** ** Forwarding *)

Lemma forwardBatch_plain (i : Z) (ba : BatchRequest) (h : txnHeartbeater) (e : Env) :
  forwardBatch wrapped false i ba h e
  = Done (wrapped (wrappedLog e) ba) h (log_wrapped ba e).
Proof.
  unfold forwardBatch, wrapped_SendLocked.
  destruct (wrapped (wrappedLog e) ba) as [br pErr]. reflexivity.
Qed.

(** Whatever [forwardBatch] does, it leaves the interceptor as it is and
    only adds the batch to the log of the wrapped sender. *)
Lemma forwardBatch_state (added : bool) (i : Z) (ba : BatchRequest)
    (h h' : txnHeartbeater) (e e' : Env) (r : SendResult) :
  forwardBatch wrapped added i ba h e = Done r h' e' ->
  h' = h /\ e' = log_wrapped ba e.
Proof.
  unfold forwardBatch, wrapped_SendLocked.
  destruct (wrapped (wrappedLog e) ba) as [br pErr].
  destruct added.
  - destruct (removeBeginTxnResponse i br); intros H; inversion H; now subst.
  - intros H; inversion H; now subst.
Qed.

(** A call that is not stopped by [finalErr], whose scan finds no write or
    whose interceptor needs no begin transaction, forwards the batch as it
    is. *)
Lemma SendLocked_plain (ba : BatchRequest) (h : txnHeartbeater) (e : Env) (i : Z) :
  isSome (mu_finalErr h) && negb (singleRollback ba) = false ->
  firstWriteIndex ba = (i, None) ->
  negb (i =? -1) && mu_needBeginTxn h = false ->
  SendLocked wrapped ba h e = Done (wrapped (wrappedLog e) ba) h (log_wrapped ba e).
Proof.
  intros Hfe Hfw Hn. unfold SendLocked. rewrite Hfe, Hfw, Hn.
  apply forwardBatch_plain.
Qed.

Lemma singleRollback_iff (ba : BatchRequest) :
  singleRollback ba = true <->
  exists hd p, ba_Requests ba = [EndTransactionRequest hd false p].
Proof.
  unfold singleRollback, IsSingleEndTransactionRequest.
  destruct (ba_Requests ba) as [|r rest]; simpl.
  - split; [discriminate | intros [hd [p H]]; discriminate].
  - destruct r; simpl;
      try (split; [try discriminate; destruct rest; discriminate
                  | intros [hd [p H]]; discriminate]).
    destruct rest; simpl.
    + destruct Commit; simpl.
      * split; [discriminate | intros [hd [p H]]; discriminate].
      * split; [intros _; now exists h, Poison | reflexivity].
    + split; [discriminate | intros [hd [p H]]; discriminate].
Qed.

(** ** A call that needs a begin transaction *)

Lemma injectBeginTxn_length (i : Z) (bt : Request) (reqs : list Request) :
  length (injectBeginTxn i bt reqs) = S (length reqs).
Proof.
  unfold injectBeginTxn.
  rewrite length_app, length_cons, Nat.add_succ_r, <- length_app, firstn_skipn.
  reflexivity.
Qed.

(** What [prepareBeginTxn] leaves: the flag is cleared, the record is
    marked as writing, its other fields but the key are kept, and the batch
    has the begin-transaction request at the first write exactly when the
    record is eager or lazy records are not active. *)
Lemma prepareBeginTxn_spec (i : Z) (ba : BatchRequest) (h : txnHeartbeater) (w : Request) :
  nth_error (ba_Requests ba) (Z.to_nat i) = Some w ->
  exists h1 fwd,
    prepareBeginTxn i ba h
    = Some (h1, fwd, eagerRecord h || negb (VersionLazyTxnRecord_IsActive (st h))) /\
    mu_needBeginTxn h1 = false /\
    mu_txnEnd h1 = mu_txnEnd h /\
    mu_finalErr h1 = mu_finalErr h /\
    eagerRecord h1 = eagerRecord h /\
    st h1 = st h /\
    txn_Writing (mu_txn h1) = true /\
    txn_Status (mu_txn h1) = txn_Status (mu_txn h) /\
    txn_Key (mu_txn h1)
    = (if len_Key (txn_Key (mu_txn h)) =? 0 then hdr_Key (Header w)
       else txn_Key (mu_txn h)) /\
    txn_Writing (ba_Txn fwd) = true /\
    ba_Requests fwd
    = (if eagerRecord h || negb (VersionLazyTxnRecord_IsActive (st h))
       then injectBeginTxn i
              (BeginTransactionRequest (mkRequestHeader (txn_Key (mu_txn h1))))
              (ba_Requests ba)
       else ba_Requests ba).
Proof.
  intros Hw. unfold prepareBeginTxn. simpl. rewrite Hw.
  destruct (len_Key (txn_Key (mu_txn h)) =? 0); simpl;
    destruct (eagerRecord h || negb (VersionLazyTxnRecord_IsActive (st h)));
    simpl; eexists; eexists; repeat split.
Qed.

(** A call that passes the [finalErr] check, finds a first write at [i]
    and needs a begin transaction: after the bookkeeping it starts the
    loop if none runs and the batch has no terminal end-transaction
    request, and then forwards the prepared batch. *)
Lemma SendLocked_needBeginTxn (ba : BatchRequest) (h : txnHeartbeater) (e : Env)
    (i : Z) (h1 : txnHeartbeater) (fwd : BatchRequest) (added : bool) :
  mu_finalErr h = None ->
  mu_needBeginTxn h = true ->
  firstWriteIndex ba = (i, None) ->
  i <> -1 ->
  prepareBeginTxn i ba h = Some (h1, fwd, added) ->
  mu_txnEnd h1 = mu_txnEnd h ->
  SendLocked wrapped ba h e
  = if negb (isSome (mu_txnEnd h)) && negb (isSome (GetArg_EndTransaction ba))
    then if quiescing e
         then Done (None, Some (NewError ErrUnavailable))
                (set_finalErr (Some (NewError ErrUnavailable))
                   (set_txnEnd (Some (nextChan e)) h1))
                (snd (make_chan e))
         else forwardBatch wrapped added i fwd
                (set_txnEnd (Some (nextChan e)) h1)
                (add_task HeartbeatLoopTask (snd (make_chan e)))
    else forwardBatch wrapped added i fwd h1 e.
Proof.
  intros Hfe Hn Hfw Hi Hp Hte. unfold SendLocked.
  rewrite Hfe, Hfw, Hn, Hp. simpl.
  destruct (Z.eqb_spec i (-1)) as [Heq | _]; [contradiction|]. simpl.
  rewrite Hte.
  destruct (mu_txnEnd h) as [c|] eqn:Hc; simpl; [reflexivity|].
  destruct (isSome (GetArg_EndTransaction ba)); simpl; [reflexivity|].
  unfold startHeartbeatLoopLocked. rewrite Hte. simpl.
  unfold RunAsyncTask. simpl.
  destruct (quiescing e); reflexivity.
Qed.

(** ** The claims *)

(** C10. The epoch-bump hook sets [needBeginTxn] to true whatever it was,
    and leaves everything else of the interceptor as it was: [finalErr],
    the marker of the running loop [txnEnd], the transaction record, and
    the settings. *)
Theorem C10_epochBumpedLocked_frame (h : txnHeartbeater) :
  mu_needBeginTxn (epochBumpedLocked h) = true /\
  mu_finalErr (epochBumpedLocked h) = mu_finalErr h /\
  mu_txnEnd (epochBumpedLocked h) = mu_txnEnd h /\
  mu_txn (epochBumpedLocked h) = mu_txn h /\
  eagerRecord (epochBumpedLocked h) = eagerRecord h /\
  st (epochBumpedLocked h) = st h.
Proof. repeat split. Qed.

(** C1. While [finalErr] is set, a batch that is a single end-transaction
    request with commit=false is forwarded to the wrapped sender, whose
    answer is returned; every other batch is rejected with [finalErr] and
    nothing is forwarded: the interceptor and the logs stay as they are. *)
Theorem C1_finalErr_rejects_all_but_rollback
    (ba : BatchRequest) (h : txnHeartbeater) (e : Env) (fe : Error) :
  mu_finalErr h = Some fe ->
  ((exists hd p, ba_Requests ba = [EndTransactionRequest hd false p]) ->
   SendLocked wrapped ba h e
   = Done (wrapped (wrappedLog e) ba) h (log_wrapped ba e)) /\
  ((forall hd p, ba_Requests ba <> [EndTransactionRequest hd false p]) ->
   SendLocked wrapped ba h e = Done (None, Some fe) h e).
Proof.
  intros Hfe. split.
  - intros Hrb. pose proof (proj2 (singleRollback_iff ba) Hrb) as Hs.
    destruct Hrb as [hd [p Hreq]].
    apply SendLocked_plain with (i := -1).
    + rewrite Hs. apply andb_false_r.
    + unfold firstWriteIndex. rewrite Hreq. reflexivity.
    + reflexivity.
  - intros Hnot. unfold SendLocked.
    destruct (singleRollback ba) eqn:Hs.
    + apply singleRollback_iff in Hs. destruct Hs as [hd [p Hreq]].
      now destruct (Hnot hd p).
    + rewrite Hfe. reflexivity.
Qed.

(** Removing the response of the begin transaction from a response with
    one slot per forwarded request leaves one slot per original request. *)
Lemma removeBeginTxnResponse_length (i : Z) (b : BatchResponse)
    (rs : list Response) (n : nat) :
  0 <= i < Z.of_nat n ->
  br_Responses b = Some rs ->
  length rs = S n ->
  exists rs',
    removeBeginTxnResponse i (Some b)
    = Some (Some (mkBatchResponse (br_Txn b) (Some rs'))) /\
    length rs' = n.
Proof.
  intros Hi Hrs Hlen. unfold removeBeginTxnResponse. rewrite Hrs.
  destruct (Z.leb_spec (i + 1) (Z.of_nat (length rs))) as [_ | Hlt]; [|lia].
  eexists. split; [reflexivity|].
  rewrite length_app, length_firstn, length_skipn. lia.
Qed.

(** C3 (amended). A batch with exactly one transactional write, sent while
    [finalErr] is unset and [needBeginTxn] is true, that passes the scan of
    [firstWriteIndex] (no end-transaction request ahead of the write), on an
    interceptor that is eager or runs without lazy records, and whose
    heartbeat loop, if it has to be started, is accepted by the stopper:
    the batch forwarded to the wrapped sender is the original with one
    begin-transaction request at the anchor key spliced in just before the
    first write, so it has exactly one more request; and when the wrapped
    sender answers with one response slot per forwarded request, the
    response returned has exactly the original number of slots. *)
Theorem C3_single_write_one_begin_marker
    (ba : BatchRequest) (h : txnHeartbeater) (e : Env) (i : Z) :
  mu_finalErr h = None ->
  mu_needBeginTxn h = true ->
  length (filter IsTransactionWrite (ba_Requests ba)) = 1%nat ->
  firstWriteIndex ba = (i, None) ->
  eagerRecord h || negb (VersionLazyTxnRecord_IsActive (st h)) = true ->
  (mu_txnEnd h = None -> GetArg_EndTransaction ba = None -> quiescing e = false) ->
  exists (w : Request) (h1 : txnHeartbeater) (e1 : Env) (fwd : BatchRequest),
    nth_error (ba_Requests ba) (Z.to_nat i) = Some w /\
    IsTransactionWrite w = true /\
    forallb (fun r => negb (IsTransactionWrite r))
      (firstn (Z.to_nat i) (ba_Requests ba)) = true /\
    SendLocked wrapped ba h e = forwardBatch wrapped true i fwd h1 e1 /\
    wrappedLog e1 = wrappedLog e /\
    txn_Key (mu_txn h1)
    = (if len_Key (txn_Key (mu_txn h)) =? 0 then hdr_Key (Header w)
       else txn_Key (mu_txn h)) /\
    ba_Requests fwd
    = firstn (Z.to_nat i) (ba_Requests ba)
      ++ BeginTransactionRequest (mkRequestHeader (txn_Key (mu_txn h1)))
         :: skipn (Z.to_nat i) (ba_Requests ba) /\
    length (ba_Requests fwd) = S (length (ba_Requests ba)) /\
    (forall r h' e',
       SendLocked wrapped ba h e = Done r h' e' ->
       h' = h1 /\ wrappedLog e' = fwd :: wrappedLog e) /\
    forall b rs pErr,
      wrapped (wrappedLog e) fwd = (Some b, pErr) ->
      br_Responses b = Some rs ->
      length rs = length (ba_Requests fwd) ->
      exists b' rs' pErr',
        SendLocked wrapped ba h e = Done (Some b', pErr') h1 (log_wrapped fwd e1) /\
        br_Responses b' = Some rs' /\
        length rs' = length (ba_Requests ba).
Proof.
  intros Hfe Hn Hone Hfw Heager Hloop.
  assert (Hi : i <> -1).
  { intros ->. unfold firstWriteIndex in Hfw.
    rewrite (firstWriteIndex_loop_none _ _ 0 (Z.le_refl 0) Hfw) in Hone.
    discriminate. }
  destruct (firstWriteIndex_found _ _ _ Hfw Hi) as [_ [Hrange [w [Hw Hww]]]].
  pose proof (firstWriteIndex_loop_first _ _ _ _ _ (Z.le_refl 0) Hfw Hi) as Hfirst.
  rewrite Z.sub_0_r in Hfirst.
  destruct (prepareBeginTxn_spec i ba h w Hw)
    as [h1 [fwd [Hp [_ [Hte [_ [_ [_ [_ [_ [Hkey [_ Hreqs]]]]]]]]]]]].
  rewrite Heager in Hp, Hreqs.
  pose proof (SendLocked_needBeginTxn ba h e i h1 fwd true Hfe Hn Hfw Hi Hp Hte) as Hsend.
  assert (Hlen : length (ba_Requests fwd) = S (length (ba_Requests ba))).
  { rewrite Hreqs. apply injectBeginTxn_length. }
  assert (Hresp : forall h2 e2 b rs pErr,
             wrappedLog e2 = wrappedLog e ->
             wrapped (wrappedLog e) fwd = (Some b, pErr) ->
             br_Responses b = Some rs ->
             length rs = length (ba_Requests fwd) ->
             exists b' rs' pErr',
               forwardBatch wrapped true i fwd h2 e2
               = Done (Some b', pErr') h2 (log_wrapped fwd e2) /\
               br_Responses b' = Some rs' /\
               length rs' = length (ba_Requests ba)).
  { intros h2 e2 b rs pErr Hlog Hr Hrs Hl.
    rewrite Hlen in Hl.
    destruct (removeBeginTxnResponse_length i b rs _ Hrange Hrs Hl) as [rs' [Hrm Hl']].
    unfold forwardBatch, wrapped_SendLocked. rewrite Hlog, Hr, Hrm.
    eexists. exists rs'. eexists. split; [reflexivity|]. now split. }
  destruct (negb (isSome (mu_txnEnd h)) && negb (isSome (GetArg_EndTransaction ba)))
    eqn:Hstart.
  - apply andb_prop in Hstart. destruct Hstart as [Hte0 Hend0].
    assert (Hq : quiescing e = false).
    { apply Hloop.
      - destruct (mu_txnEnd h); [discriminate | reflexivity].
      - destruct (GetArg_EndTransaction ba); [discriminate | reflexivity]. }
    rewrite Hq in Hsend.
    exists w, (set_txnEnd (Some (nextChan e)) h1),
      (add_task HeartbeatLoopTask (snd (make_chan e))), fwd.
    repeat (split; [assumption || reflexivity|]).
    split.
    + intros r h' e' Hdone. rewrite Hsend in Hdone.
      apply forwardBatch_state in Hdone. destruct Hdone as [-> ->]. now split.
    + intros b rs pErr Hr Hrs Hl. rewrite Hsend.
      now apply (Hresp _ _ b rs pErr).
  - exists w, h1, e, fwd.
    repeat (split; [assumption || reflexivity|]).
    split.
    + intros r h' e' Hdone. rewrite Hsend in Hdone.
      apply forwardBatch_state in Hdone. destruct Hdone as [-> ->]. now split.
    + intros b rs pErr Hr Hrs Hl. rewrite Hsend.
      now apply (Hresp _ _ b rs pErr).
Qed.

Lemma injectBeginTxn_nth (i : Z) (bt : Request) (reqs : list Request) :
  0 <= i <= Z.of_nat (length reqs) ->
  nth_error (injectBeginTxn i bt reqs) (Z.to_nat i) = Some bt.
Proof.
  intros Hi. unfold injectBeginTxn.
  rewrite nth_error_app2; rewrite length_firstn, Nat.min_l by lia; [|lia].
  now rewrite Nat.sub_diag.
Qed.

Lemma int32_small (x : Z) : - 2 ^ 31 <= x < 2 ^ 31 -> int32 x = x.
Proof.
  intros Hx. unfold int32. rewrite Z.mod_small; lia.
Qed.

(** C4. A call in which the begin-transaction request was inserted at
    position [i] (the call passes the [finalErr] check, the scan finds the
    first write at [i], [needBeginTxn] is set, the record is eager or lazy
    records are not active, and the loop, if needed, starts), on a batch
    whose length fits an int32: when the wrapped sender returns an error
    with index [idx], together with no response or with one slot per
    forwarded request, the error returned has no index if [idx] is [i],
    index [idx - 1] if [idx] is after [i], and index [idx] if it is before
    [i]; the rest of the error is unchanged. *)
Theorem C4_error_index_adjusted
    (ba : BatchRequest) (h : txnHeartbeater) (e : Env) (i : Z) :
  mu_finalErr h = None ->
  mu_needBeginTxn h = true ->
  firstWriteIndex ba = (i, None) ->
  i <> -1 ->
  eagerRecord h || negb (VersionLazyTxnRecord_IsActive (st h)) = true ->
  (mu_txnEnd h = None -> GetArg_EndTransaction ba = None -> quiescing e = false) ->
  Z.of_nat (length (ba_Requests ba)) <= 2 ^ 31 ->
  exists (h1 : txnHeartbeater) (e1 : Env) (fwd : BatchRequest),
    SendLocked wrapped ba h e = forwardBatch wrapped true i fwd h1 e1 /\
    wrappedLog e1 = wrappedLog e /\
    nth_error (ba_Requests fwd) (Z.to_nat i)
    = Some (BeginTransactionRequest (mkRequestHeader (txn_Key (mu_txn h1)))) /\
    forall br pErr idx,
      wrapped (wrappedLog e) fwd = (br, Some pErr) ->
      err_Index pErr = Some idx ->
      (forall b rs, br = Some b -> br_Responses b = Some rs ->
                    length rs = length (ba_Requests fwd)) ->
      exists br' pErr',
        SendLocked wrapped ba h e = Done (br', Some pErr') h1 (log_wrapped fwd e1) /\
        (idx = i -> err_Index pErr' = None) /\
        (i < idx -> err_Index pErr' = Some (idx - 1)) /\
        (idx < i -> err_Index pErr' = Some idx) /\
        err_Message pErr' = err_Message pErr /\
        err_Detail pErr' = err_Detail pErr /\
        err_Txn pErr' = err_Txn pErr.
Proof.
  intros Hfe Hn Hfw Hi Heager Hloop Hsize.
  destruct (firstWriteIndex_found _ _ _ Hfw Hi) as [_ [Hrange [w [Hw Hww]]]].
  destruct (prepareBeginTxn_spec i ba h w Hw)
    as [h1 [fwd [Hp [_ [Hte [_ [_ [_ [_ [_ [Hkey [_ Hreqs]]]]]]]]]]]].
  rewrite Heager in Hp, Hreqs.
  pose proof (SendLocked_needBeginTxn ba h e i h1 fwd true Hfe Hn Hfw Hi Hp Hte) as Hsend.
  assert (Hlen : length (ba_Requests fwd) = S (length (ba_Requests ba))).
  { rewrite Hreqs. apply injectBeginTxn_length. }
  assert (Hnth : nth_error (ba_Requests fwd) (Z.to_nat i)
                 = Some (BeginTransactionRequest (mkRequestHeader (txn_Key (mu_txn h1))))).
  { rewrite Hreqs. apply injectBeginTxn_nth. lia. }
  assert (Hi32 : int32 i = i) by (apply int32_small; lia).
  assert (Herr : forall h2 e2 br pErr idx,
             wrappedLog e2 = wrappedLog e ->
             wrapped (wrappedLog e) fwd = (br, Some pErr) ->
             err_Index pErr = Some idx ->
             (forall b rs, br = Some b -> br_Responses b = Some rs ->
                           length rs = length (ba_Requests fwd)) ->
             exists br' pErr',
               forwardBatch wrapped true i fwd h2 e2
               = Done (br', Some pErr') h2 (log_wrapped fwd e2) /\
               (idx = i -> err_Index pErr' = None) /\
               (i < idx -> err_Index pErr' = Some (idx - 1)) /\
               (idx < i -> err_Index pErr' = Some idx) /\
               err_Message pErr' = err_Message pErr /\
               err_Detail pErr' = err_Detail pErr /\
               err_Txn pErr' = err_Txn pErr).
  { intros h2 e2 br pErr idx Hlog Hr Hidx Hfit.
    assert (Hrm : exists br', removeBeginTxnResponse i br = Some br').
    { destruct br as [b|]; [|now exists None].
      destruct (br_Responses b) as [rs|] eqn:Hrs.
      - pose proof (Hfit b rs eq_refl Hrs) as Hl. rewrite Hlen in Hl.
        destruct (removeBeginTxnResponse_length i b rs _ Hrange Hrs Hl) as [rs' [Hrm _]].
        eexists. exact Hrm.
      - exists (Some b). unfold removeBeginTxnResponse. now rewrite Hrs. }
    destruct Hrm as [br' Hrm].
    unfold forwardBatch, wrapped_SendLocked. rewrite Hlog, Hr, Hrm.
    unfold adjustErrorIndex. rewrite Hidx, Hi32.
    destruct (Z.eqb_spec idx i) as [Heq | Hne].
    - eexists. eexists. split; [reflexivity|]. simpl.
      repeat split; try reflexivity; intros; lia.
    - destruct (Z.gtb_spec idx i) as [Hgt | Hle].
      + eexists. eexists. split; [reflexivity|]. simpl.
        repeat split; try reflexivity; intros; lia.
      + eexists. eexists. split; [reflexivity|].
        repeat split; try reflexivity; intros; try lia. assumption. }
  destruct (negb (isSome (mu_txnEnd h)) && negb (isSome (GetArg_EndTransaction ba)))
    eqn:Hstart.
  - apply andb_prop in Hstart. destruct Hstart as [Hte0 Hend0].
    assert (Hq : quiescing e = false).
    { apply Hloop.
      - destruct (mu_txnEnd h); [discriminate | reflexivity].
      - destruct (GetArg_EndTransaction ba); [discriminate | reflexivity]. }
    rewrite Hq in Hsend.
    exists (set_txnEnd (Some (nextChan e)) h1),
      (add_task HeartbeatLoopTask (snd (make_chan e))), fwd.
    repeat (split; [assumption || reflexivity|]).
    intros br pErr idx Hr Hidx Hfit. rewrite Hsend.
    now apply (Herr _ _ br pErr idx).
  - exists h1, e, fwd.
    repeat (split; [assumption || reflexivity|]).
    intros br pErr idx Hr Hidx Hfit. rewrite Hsend.
    now apply (Herr _ _ br pErr idx).
Qed.

(** The terminal end-transaction request that [SendLocked] asks [GetArg]
    for is an end-transaction request in the last position of the batch. *)
Lemma GetArg_EndTransaction_last (ba : BatchRequest) :
  GetArg_EndTransaction ba <> None <->
  exists pre hd c p, ba_Requests ba = pre ++ [EndTransactionRequest hd c p].
Proof.
  unfold GetArg_EndTransaction.
  destruct (ba_Requests ba) as [|r0 rest] using rev_ind.
  - simpl. split; [congruence|].
    intros [pre [hd [c [p H]]]]. destruct pre; discriminate.
  - rewrite map_app. simpl. rewrite last_last. split.
    + destruct r0; simpl; try congruence. intros _. now exists rest, h, Commit, Poison.
    + intros [pre [hd [c [p H]]]]. apply app_inj_tail in H. destruct H as [_ ->].
      simpl. congruence.
Qed.


(** The start of the loop in a call that processes a qualifying write (it
    passes the [finalErr] check, the scan finds a first write,
    [needBeginTxn] is set), read off the guard of [SendLocked]: if no loop
    is active and [GetArg] finds no end-transaction request (the last
    request is not one, see [GetArg_EndTransaction_last]), the loop is
    started before the batch is forwarded when the stopper accepts the
    task, and when the stopper refuses it [finalErr] is set to that error,
    the call returns it and the wrapped sender receives nothing; if a loop
    is active or the batch ends with an end-transaction request, no loop is
    started and the batch is forwarded. *)
Lemma SendLocked_loop_start
    (ba : BatchRequest) (h : txnHeartbeater) (e : Env) (i : Z) :
  mu_finalErr h = None ->
  mu_needBeginTxn h = true ->
  firstWriteIndex ba = (i, None) ->
  i <> -1 ->
  exists (h1 : txnHeartbeater) (fwd : BatchRequest) (added : bool),
    prepareBeginTxn i ba h = Some (h1, fwd, added) /\
    mu_txnEnd h1 = mu_txnEnd h /\
    (mu_txnEnd h = None -> GetArg_EndTransaction ba = None -> quiescing e = false ->
     exists h2 e2,
       SendLocked wrapped ba h e = forwardBatch wrapped added i fwd h2 e2 /\
       mu_txnEnd h2 = Some (nextChan e) /\
       asyncTasks e2 = asyncTasks e ++ [HeartbeatLoopTask] /\
       wrappedLog e2 = wrappedLog e) /\
    (mu_txnEnd h = None -> GetArg_EndTransaction ba = None -> quiescing e = true ->
     exists h2 e2,
       SendLocked wrapped ba h e = Done (None, Some (NewError ErrUnavailable)) h2 e2 /\
       mu_finalErr h2 = Some (NewError ErrUnavailable) /\
       asyncTasks e2 = asyncTasks e /\
       wrappedLog e2 = wrappedLog e) /\
    (mu_txnEnd h <> None \/ GetArg_EndTransaction ba <> None ->
     SendLocked wrapped ba h e = forwardBatch wrapped added i fwd h1 e).
Proof.
  intros Hfe Hn Hfw Hi.
  destruct (firstWriteIndex_found _ _ _ Hfw Hi) as [_ [Hrange [w [Hw Hww]]]].
  destruct (prepareBeginTxn_spec i ba h w Hw) as [h1 [fwd [Hp [_ [Hte _]]]]].
  exists h1, fwd, (eagerRecord h || negb (VersionLazyTxnRecord_IsActive (st h))).
  pose proof (SendLocked_needBeginTxn ba h e i h1 fwd _ Hfe Hn Hfw Hi Hp Hte) as Hsend.
  split; [assumption|]. split; [assumption|]. repeat split.
  - intros Hnil Hend Hq. rewrite Hnil, Hend, Hq in Hsend. simpl in Hsend.
    eexists. eexists. split; [exact Hsend|]. repeat split.
  - intros Hnil Hend Hq. rewrite Hnil, Hend, Hq in Hsend. simpl in Hsend.
    eexists. eexists. split; [exact Hsend|]. repeat split.
  - intros [Hact | Hend].
    + destruct (mu_txnEnd h); [exact Hsend | contradiction].
    + destruct (GetArg_EndTransaction ba); [|contradiction].
      rewrite andb_false_r in Hsend. exact Hsend.
Qed.


(** ** Heartbeats *)

Lemma abortTxnAsyncLocked_aborted (h : txnHeartbeater) (e : Env) :
  txn_Status (mu_txn h) = ABORTED ->
  abortTxnAsyncLocked h e
  = Done tt h
      (if quiescing e
       then call_asyncAbortCallbackLocked e
       else add_task
              (AbortTxnTask
                 (mkBatchRequest (mu_txn h)
                    [EndTransactionRequest (mkRequestHeader None) false true]))
              (call_asyncAbortCallbackLocked e)).
Proof.
  intros Hs. unfold abortTxnAsyncLocked, RunAsyncTask, Clone. rewrite Hs. simpl.
  destruct (quiescing e); reflexivity.
Qed.

(** A heartbeat whose record is pending and has an anchor key sends the
    heartbeat batch to the gatekeeper. *)
Lemma heartbeat_sends (h : txnHeartbeater) (e : Env) (k : string) :
  txn_Status (mu_txn h) = PENDING ->
  txn_Key (mu_txn h) = Some k ->
  heartbeat gatekeeper Update h e
  = let ba := heartbeatBatch h e in
    let e1 := log_gatekeeper ba e in
    match gatekeeper (gatekeeperLog e) ba with
    | (br, Some err) =>
        match err_Detail err with
        | Some (TransactionStatusError _ REASON_TXN_NOT_FOUND) => Done true h e1
        | Some TransactionAbortedError =>
            let h := set_txn (set_txn_Status ABORTED (mu_txn h)) h in
            match abortTxnAsyncLocked h e1 with
            | Done _ h e => Done false h e
            | Fatal msg => Fatal msg
            | Panic msg => Panic msg
            end
        | _ => heartbeatUpdate Update (err_Txn err) h e1
        end
    | (br, None) =>
        match br with
        | None => Panic "nil pointer dereference"
        | Some b =>
            match br_Responses b with
            | Some (HeartbeatTxnResponse respTxn :: _) => heartbeatUpdate Update respTxn h e1
            | Some (_ :: _) => Panic "interface conversion"
            | _ => Panic "index out of range"
            end
        end
    end.
Proof.
  intros Hs Hk. unfold heartbeat, gatekeeper_SendLocked, Clone.
  rewrite Hs, Hk. simpl.
  destruct (gatekeeper (gatekeeperLog e) (heartbeatBatch h e)) as [br [err|]]; reflexivity.
Qed.

(** No heartbeat touches [needBeginTxn]. *)
Lemma abortTxnAsyncLocked_state (h h' : txnHeartbeater) (e e' : Env) (u : unit) :
  abortTxnAsyncLocked h e = Done u h' e' -> h' = h.
Proof.
  unfold abortTxnAsyncLocked.
  destruct (negb (TransactionStatus_eqb (txn_Status (mu_txn h)) ABORTED)); [discriminate|].
  destruct (RunAsyncTask _ _) as [err e1]. intros H. now inversion H.
Qed.

Lemma heartbeatUpdate_needBeginTxn (respTxn : option Transaction)
    (h h' : txnHeartbeater) (e e' : Env) (b : bool) :
  heartbeatUpdate Update respTxn h e = Done b h' e' ->
  mu_needBeginTxn h' = mu_needBeginTxn h.
Proof.
  unfold heartbeatUpdate.
  set (h1 := set_txn (Update (mu_txn h) respTxn) h).
  destruct (negb (TransactionStatus_eqb (txn_Status (mu_txn h1)) PENDING)).
  - destruct (TransactionStatus_eqb (txn_Status (mu_txn h1)) ABORTED).
    + destruct (abortTxnAsyncLocked h1 e) as [u h2 e2| |] eqn:Ha; try discriminate.
      apply abortTxnAsyncLocked_state in Ha. intros H. inversion H; subst. reflexivity.
    + intros H. inversion H; subst. reflexivity.
  - intros H. inversion H; subst. reflexivity.
Qed.

Lemma heartbeat_needBeginTxn (h h' : txnHeartbeater) (e e' : Env) (b : bool) :
  heartbeat gatekeeper Update h e = Done b h' e' ->
  mu_needBeginTxn h' = mu_needBeginTxn h.
Proof.
  unfold heartbeat.
  destruct (negb (TransactionStatus_eqb (txn_Status (mu_txn h)) PENDING)).
  - destruct (isSome (mu_txnEnd h)); [discriminate|].
    intros H. now inversion H.
  - destruct (txn_Key (Clone (mu_txn h))); [|discriminate].
    destruct (gatekeeper_SendLocked gatekeeper (heartbeatBatch h e) e) as [[br pErr] e1].
    destruct pErr as [err|].
    + destruct (err_Detail err) as [[msg [|]| | | |name]|];
        try (apply heartbeatUpdate_needBeginTxn).
      * intros H. now inversion H.
      * destruct (abortTxnAsyncLocked _ e1) as [u h2 e2| |] eqn:Ha; try discriminate.
        apply abortTxnAsyncLocked_state in Ha. intros H. inversion H; subst. reflexivity.
    + destruct br as [bresp|]; [|discriminate].
      destruct (br_Responses bresp) as [[|[respTxn|m] rest]|]; try discriminate.
      apply heartbeatUpdate_needBeginTxn.
Qed.

(** C6. A heartbeat of a pending record with an anchor key, whose
    gatekeeper send returns a transaction-status error with reason
    "transaction record not found", returns true (keep heartbeating) and
    leaves the interceptor as it is, so [finalErr] is not set; the tick of
    the loop that made the attempt leaves the loop in its [select], ready
    for the next events. *)
Theorem C6_record_not_found_is_swallowed
    (h : txnHeartbeater) (e : Env) (k : string)
    (br : option BatchResponse) (pErr : Error) (msg : string) :
  txn_Status (mu_txn h) = PENDING ->
  txn_Key (mu_txn h) = Some k ->
  gatekeeper (gatekeeperLog e) (heartbeatBatch h e) = (br, Some pErr) ->
  err_Detail pErr = Some (TransactionStatusError msg REASON_TXN_NOT_FOUND) ->
  heartbeat gatekeeper Update h e
  = Done true h (log_gatekeeper (heartbeatBatch h e) e) /\
  (forall closer,
     heartbeatLoop_select gatekeeper Update closer Tick h e
     = Done (Looping closer) h (log_gatekeeper (heartbeatBatch h e) e)) /\
  (forall closer evs,
     heartbeatLoop_for gatekeeper Update closer (Tick :: evs) h e
     = heartbeatLoop_for gatekeeper Update closer evs h
         (log_gatekeeper (heartbeatBatch h e) e)).
Proof.
  intros Hs Hk Hg Hd.
  assert (Hhb : heartbeat gatekeeper Update h e
                = Done true h (log_gatekeeper (heartbeatBatch h e) e)).
  { rewrite (heartbeat_sends h e k Hs Hk). simpl. rewrite Hg, Hd. reflexivity. }
  split; [exact Hhb|]. split.
  - intros closer. unfold heartbeatLoop_select. now rewrite Hhb.
  - intros closer evs. simpl. now rewrite Hhb.
Qed.

Lemma heartbeatUpdate_aborted (respTxn : option Transaction)
    (h : txnHeartbeater) (e : Env) :
  txn_Status (Update (mu_txn h) respTxn) = ABORTED ->
  heartbeatUpdate Update respTxn h e
  = abortOutcome (set_txn (Update (mu_txn h) respTxn) h) e.
Proof.
  intros Hs. unfold heartbeatUpdate, abortOutcome. simpl. rewrite Hs. simpl.
  rewrite abortTxnAsyncLocked_aborted by exact Hs. reflexivity.
Qed.

Lemma heartbeat_observes_abort (h : txnHeartbeater) (e : Env) (k : string) :
  txn_Status (mu_txn h) = PENDING ->
  txn_Key (mu_txn h) = Some k ->
  ObservesAbort Update (mu_txn h) (gatekeeper (gatekeeperLog e) (heartbeatBatch h e)) ->
  exists txn',
    txn_Status txn' = ABORTED /\
    heartbeat gatekeeper Update h e
    = abortOutcome (set_txn txn' h) (log_gatekeeper (heartbeatBatch h e) e).
Proof.
  intros Hs Hk Hobs. rewrite (heartbeat_sends h e k Hs Hk). simpl.
  inversion Hobs as [br pErr Hd Heq | br pErr Hnf Hna Hu Heq | b respTxn rs Hrs Hu Heq].
  - rewrite Hd. exists (set_txn_Status ABORTED (mu_txn h)). split; [reflexivity|].
    rewrite abortTxnAsyncLocked_aborted by reflexivity. reflexivity.
  - exists (Update (mu_txn h) (err_Txn pErr)). split; [assumption|].
    destruct (err_Detail pErr) as [[msg [|]| | | |name]|];
      try (now apply heartbeatUpdate_aborted).
    + now destruct (Hnf msg).
    + now destruct Hna.
  - rewrite Hrs. exists (Update (mu_txn h) respTxn). split; [assumption|].
    now apply heartbeatUpdate_aborted.
Qed.

(** C2 (amended). A heartbeat of a pending record with an anchor key that
    observes the transaction aborted (a transaction-aborted error from the
    gatekeeper, or a merged snapshot with status ABORTED) leaves the record
    ABORTED, returns false, calls [asyncAbortCallbackLocked] exactly once
    and sends nothing more through the gatekeeper.  When the stopper
    accepts the task, a rollback (end-transaction with commit=false and
    poison=true, under the aborted record) is scheduled, and running it
    sends the rollback through the wrapped sender and not the gatekeeper;
    when the stopper is quiescing no task is scheduled. *)
Theorem C2_abort_observed_by_heartbeat
    (h : txnHeartbeater) (e : Env) (k : string) :
  txn_Status (mu_txn h) = PENDING ->
  txn_Key (mu_txn h) = Some k ->
  ObservesAbort Update (mu_txn h) (gatekeeper (gatekeeperLog e) (heartbeatBatch h e)) ->
  exists (h' : txnHeartbeater) (e' : Env) (rollback : BatchRequest),
    heartbeat gatekeeper Update h e = Done false h' e' /\
    txn_Status (mu_txn h') = ABORTED /\
    asyncAbortCalls e' = S (asyncAbortCalls e) /\
    gatekeeperLog e' = heartbeatBatch h e :: gatekeeperLog e /\
    wrappedLog e' = wrappedLog e /\
    isRollbackBatch rollback /\
    ba_Txn rollback = mu_txn h' /\
    (quiescing e = false ->
     asyncTasks e' = asyncTasks e ++ [AbortTxnTask rollback] /\
     wrappedLog (snd (runAbortTxnTask wrapped rollback h' e'))
     = rollback :: wrappedLog e /\
     gatekeeperLog (snd (runAbortTxnTask wrapped rollback h' e')) = gatekeeperLog e') /\
    (quiescing e = true -> asyncTasks e' = asyncTasks e).
Proof.
  intros Hs Hk Hobs.
  destruct (heartbeat_observes_abort h e k Hs Hk Hobs) as [txn' [Hab Hhb]].
  unfold abortOutcome in Hhb. simpl in Hhb.
  assert (Hrb : isRollbackBatch
                  (mkBatchRequest txn'
                     [EndTransactionRequest (mkRequestHeader None) false true])).
  { now exists (mkRequestHeader None). }
  exists (set_txn txn' h).
  destruct (quiescing e) eqn:Hq.
  - eexists.
    exists (mkBatchRequest txn' [EndTransactionRequest (mkRequestHeader None) false true]).
    split; [exact Hhb|].
    repeat (split; [assumption || reflexivity|]).
    split; [intros Hc; discriminate Hc | intros _; reflexivity].
  - eexists.
    exists (mkBatchRequest txn' [EndTransactionRequest (mkRequestHeader None) false true]).
    split; [exact Hhb|].
    repeat (split; [assumption || reflexivity|]).
    split; [|intros Hc; discriminate Hc].
    intros _. repeat split.
Qed.

(** ** Within one epoch *)

(** With [needBeginTxn] cleared, a call forwards the batch as it is or
    rejects it, and leaves the interceptor as it is. *)
Lemma SendLocked_without_begin (ba : BatchRequest) (h : txnHeartbeater) (e : Env) :
  mu_needBeginTxn h = false ->
  SendLocked wrapped ba h e = Done (wrapped (wrappedLog e) ba) h (log_wrapped ba e) \/
  exists pErr, SendLocked wrapped ba h e = Done (None, Some pErr) h e.
Proof.
  intros Hn. unfold SendLocked.
  destruct (isSome (mu_finalErr h) && negb (singleRollback ba)) eqn:Hrej.
  - right. destruct (mu_finalErr h) as [fe|]; [|discriminate]. now exists fe.
  - destruct (firstWriteIndex ba) as [i [err|]].
    + right. now exists err.
    + left. rewrite Hn, andb_false_r. apply forwardBatch_plain.
Qed.

Lemma heartbeatLoop_deferred_needBeginTxn (f : option Error) (h : txnHeartbeater) :
  mu_needBeginTxn (heartbeatLoop_deferred f h) = mu_needBeginTxn h.
Proof.
  unfold heartbeatLoop_deferred.
  destruct f; simpl; destruct (mu_txnEnd h); reflexivity.
Qed.

Lemma heartbeatLoop_select_needBeginTxn (closer : Chan) (ev : LoopEvent)
    (h h' : txnHeartbeater) (e e' : Env) (s : LoopState) :
  heartbeatLoop_select gatekeeper Update closer ev h e = Done s h' e' ->
  mu_needBeginTxn h' = mu_needBeginTxn h.
Proof.
  unfold heartbeatLoop_select. destruct ev.
  - destruct (heartbeat gatekeeper Update h e) as [b h1 e1| |] eqn:Hhb; try discriminate.
    apply heartbeat_needBeginTxn in Hhb.
    destruct b; intros H; inversion H; subst;
      [|rewrite heartbeatLoop_deferred_needBeginTxn]; exact Hhb.
  - destruct (is_closed closer e); intros H; inversion H; subst;
      [apply heartbeatLoop_deferred_needBeginTxn | reflexivity].
  - destruct (quiescing e); intros H; inversion H; subst;
      [apply heartbeatLoop_deferred_needBeginTxn | reflexivity].
Qed.

Lemma heartbeatLoop_for_needBeginTxn (evs : list LoopEvent) :
  forall (closer : Chan) (h h' : txnHeartbeater) (e e' : Env) (s : LoopState),
    heartbeatLoop_for gatekeeper Update closer evs h e = Done s h' e' ->
    mu_needBeginTxn h' = mu_needBeginTxn h.
Proof.
  induction evs as [|ev evs IH]; intros closer h h' e e' s H; simpl in H.
  - now inversion H.
  - destruct (heartbeatLoop_select gatekeeper Update closer ev h e)
      as [s1 h1 e1| |] eqn:Hsel; try discriminate.
    apply heartbeatLoop_select_needBeginTxn in Hsel.
    destruct s1 as [c|].
    + rewrite <- Hsel. eapply IH. exact H.
    + inversion H; subst. exact Hsel.
Qed.

(** Short of an epoch bump, no operation sets [needBeginTxn] again. *)
Lemma step_needBeginTxn (op : Op) (s s' : txnHeartbeater * Env) :
  isEpochBump op = false ->
  step wrapped gatekeeper Update op s = Some s' ->
  mu_needBeginTxn (fst s) = false ->
  mu_needBeginTxn (fst s') = false.
Proof.
  destruct s as [h e]. destruct s' as [h' e']. simpl.
  intros Hop Hstep Hn. destruct op; simpl in Hstep; try discriminate.
  - destruct (SendLocked_without_begin ba h e Hn) as [Hs | [pErr Hs]];
      rewrite Hs in Hstep; simpl in Hstep; inversion Hstep; subst; exact Hn.
  - unfold closeLocked in Hstep. destruct (mu_txnEnd h);
      inversion Hstep; subst; exact Hn.
  - unfold heartbeatLoop in Hstep. destruct (mu_txnEnd h) as [closer|].
    + destruct (heartbeatLoop_for gatekeeper Update closer evs h e)
        as [st0 h1 e1| |] eqn:Hl; try discriminate.
      apply heartbeatLoop_for_needBeginTxn in Hl.
      simpl in Hstep. inversion Hstep; subst. congruence.
    + simpl in Hstep. inversion Hstep; subst.
      now rewrite heartbeatLoop_deferred_needBeginTxn.
  - destruct (heartbeatLoop_select gatekeeper Update closer ev h e)
      as [st0 h1 e1| |] eqn:Hl; try discriminate.
    apply heartbeatLoop_select_needBeginTxn in Hl.
    simpl in Hstep. inversion Hstep; subst. congruence.
  - inversion Hstep; subst. exact Hn.
  - inversion Hstep; subst. exact Hn.
Qed.

Lemma run_needBeginTxn (ops : list Op) :
  forall s s',
    forallb (fun op => negb (isEpochBump op)) ops = true ->
    run wrapped gatekeeper Update ops s = Some s' ->
    mu_needBeginTxn (fst s) = false ->
    mu_needBeginTxn (fst s') = false.
Proof.
  induction ops as [|op ops IH]; intros s s' Hops Hrun Hn; simpl in *.
  - now inversion Hrun; subst.
  - apply andb_prop in Hops. destruct Hops as [Hop Hops].
    apply negb_true_iff in Hop.
    destruct (step wrapped gatekeeper Update op s) as [s1|] eqn:Hstep; [|discriminate].
    apply (IH s1 s' Hops Hrun).
    now apply (step_needBeginTxn op s s1).
Qed.

(** C7. After a call that processes a qualifying write (it passes the
    [finalErr] check, the scan finds a first write, [needBeginTxn] is set)
    and returns, [needBeginTxn] is false; and after any later operations
    other than an epoch bump it is still false, and a call with any batch
    forwards that very batch, with no begin-transaction request added, or
    rejects it. *)
Theorem C7_begin_sent_once_per_epoch
    (ba : BatchRequest) (h h1 : txnHeartbeater) (e e1 : Env) (i : Z) (r : SendResult) :
  mu_finalErr h = None ->
  mu_needBeginTxn h = true ->
  firstWriteIndex ba = (i, None) ->
  i <> -1 ->
  SendLocked wrapped ba h e = Done r h1 e1 ->
  mu_needBeginTxn h1 = false /\
  forall (ops : list Op) (h2 : txnHeartbeater) (e2 : Env) (ba' : BatchRequest),
    forallb (fun op => negb (isEpochBump op)) ops = true ->
    run wrapped gatekeeper Update ops (h1, e1) = Some (h2, e2) ->
    mu_needBeginTxn h2 = false /\
    (SendLocked wrapped ba' h2 e2
     = Done (wrapped (wrappedLog e2) ba') h2 (log_wrapped ba' e2) \/
     exists pErr, SendLocked wrapped ba' h2 e2 = Done (None, Some pErr) h2 e2).
Proof.
  intros Hfe Hn Hfw Hi Hsend.
  assert (Hn1 : mu_needBeginTxn h1 = false).
  { destruct (firstWriteIndex_found _ _ _ Hfw Hi) as [_ [Hrange [w [Hw Hww]]]].
    destruct (prepareBeginTxn_spec i ba h w Hw) as [hp [fwd [Hp [Hnp [Hte _]]]]].
    rewrite (SendLocked_needBeginTxn ba h e i hp fwd _ Hfe Hn Hfw Hi Hp Hte) in Hsend.
    destruct (negb (isSome (mu_txnEnd h)) && negb (isSome (GetArg_EndTransaction ba))).
    - destruct (quiescing e).
      + inversion Hsend; subst. exact Hnp.
      + apply forwardBatch_state in Hsend. destruct Hsend as [-> _]. exact Hnp.
    - apply forwardBatch_state in Hsend. destruct Hsend as [-> _]. exact Hnp. }
  split; [exact Hn1|].
  intros ops h2 e2 ba' Hops Hrun.
  pose proof (run_needBeginTxn ops (h1, e1) (h2, e2) Hops Hrun Hn1) as Hn2.
  simpl in Hn2. split; [exact Hn2|].
  now apply SendLocked_without_begin.
Qed.

(** ** The terminal end-transaction request *)

(** An end-transaction request that is not last, with no transactional
    write ahead of it, makes the scan fail. *)
Lemma firstWriteIndex_loop_nonterminal (pre post : list Request)
    (hd : RequestHeader) (c p : bool) :
  post <> [] ->
  forall len i,
    forallb (fun r => negb (IsTransactionWrite r)) pre = true ->
    len = i + Z.of_nat (length (pre ++ EndTransactionRequest hd c p :: post)) ->
    firstWriteIndex_loop len i (pre ++ EndTransactionRequest hd c p :: post)
    = (-1, Some (NewErrorf "EndTransaction sent as non-terminal call")).
Proof.
  intros Hpost. induction pre as [|a pre IH]; intros len i Hpre Hlen; simpl in *.
  - destruct post as [|q post]; [contradiction|]. simpl in Hlen.
    destruct (Z.ltb_spec i (len - 1)) as [_ | Hge]; [reflexivity | lia].
  - apply andb_prop in Hpre. destruct Hpre as [Ha Hpre].
    apply negb_true_iff in Ha. rewrite length_app in Hlen. simpl in Hlen.
    destruct (Z.ltb_spec i (len - 1)) as [_ | Hge]; [|lia].
    destruct a; simpl in *; try discriminate; try reflexivity;
      apply IH; try assumption; rewrite length_app; simpl; lia.
Qed.

(** While [finalErr] is unset, a batch with an end-transaction request
    that is not last and no transactional write ahead of it is failed with
    the structural error and not forwarded. *)
Lemma SendLocked_nonterminal_EndTransaction
    (ba : BatchRequest) (h : txnHeartbeater) (e : Env)
    (pre post : list Request) (hd : RequestHeader) (c p : bool) :
  mu_finalErr h = None ->
  ba_Requests ba = pre ++ EndTransactionRequest hd c p :: post ->
  post <> [] ->
  forallb (fun r => negb (IsTransactionWrite r)) pre = true ->
  SendLocked wrapped ba h e
  = Done (None, Some (NewErrorf "EndTransaction sent as non-terminal call")) h e.
Proof.
  intros Hfe Hreq Hpost Hpre. unfold SendLocked, firstWriteIndex.
  rewrite Hfe, Hreq. simpl.
  rewrite (firstWriteIndex_loop_nonterminal pre post hd c p Hpost _ 0 Hpre) by lia.
  reflexivity.
Qed.

(** C5. The batch [Put; EndTransaction; Get], sent to a fresh interceptor
    with lazy transaction records, is not failed: the scan stops at the
    write and never sees the end-transaction request that follows it.  The
    batch is forwarded to the wrapped sender with the end-transaction
    request in the middle, the heartbeat loop is started, and the answer of
    the wrapped sender is returned. *)
Theorem C5_nonterminal_EndTransaction_after_write_forwarded :
  firstWriteIndex ba_write_end_read = (0, None) /\
  SendLocked wrapped ba_write_end_read h_lazy e_init
  = Done
      (wrapped []
         (mkBatchRequest txn1
            [PutRequest (hdr "k1") "a";
             EndTransactionRequest (mkRequestHeader None) true false;
             GetRequest (hdr "k2")]))
      (mkTxnHeartbeater (mkSettings true) false (Some 0%nat) txn1 None false)
      (mkEnv
         [mkBatchRequest txn1
            [PutRequest (hdr "k1") "a";
             EndTransactionRequest (mkRequestHeader None) true false;
             GetRequest (hdr "k2")]]
         [] 0%nat [HeartbeatLoopTask] false 100 1%nat []).
Proof.
  split; [reflexivity|].
  unfold SendLocked. simpl. unfold forwardBatch, wrapped_SendLocked. simpl.
  destruct (wrapped [] _) as [br pErr]. reflexivity.
Qed.

(** C9 (amended). While [finalErr] is unset, a batch whose only request is
    an end-transaction request with commit=true is forwarded to the wrapped
    sender as it is, whatever [needBeginTxn] says: no begin transaction is
    added, the interceptor is left as it was and the answer of the wrapped
    sender is returned. *)
Theorem C9_single_commit_forwarded_unchanged
    (ba : BatchRequest) (h : txnHeartbeater) (e : Env) (hd : RequestHeader) (p : bool) :
  mu_finalErr h = None ->
  ba_Requests ba = [EndTransactionRequest hd true p] ->
  SendLocked wrapped ba h e = Done (wrapped (wrappedLog e) ba) h (log_wrapped ba e).
Proof.
  intros Hfe Hreq. apply SendLocked_plain with (i := -1).
  - now rewrite Hfe.
  - unfold firstWriteIndex. rewrite Hreq. reflexivity.
  - reflexivity.
Qed.

End Properties.


(** * Further properties of the interceptor *)

Section MoreProperties.

Variable wrapped : list BatchRequest -> BatchRequest -> SendResult.
Variable gatekeeper : list BatchRequest -> BatchRequest -> SendResult.
Variable Update : Transaction -> option Transaction -> Transaction.

(** ** The three answers of the scan *)

(** What the loop of [firstWriteIndex] answers, by cases: no write and no
    misplaced end-transaction request; a first write, with neither a write
    nor an end-transaction request ahead of it; or an end-transaction
    request that is not last, with no write ahead of it. *)
Lemma firstWriteIndex_loop_cases (reqs : list Request) :
  forall len i,
    len = i + Z.of_nat (length reqs) ->
    0 <= i ->
    match firstWriteIndex_loop len i reqs with
    | (j, None) =>
        (j = -1 /\ forallb notWrite reqs = true /\
         forallb notEnd (removelast reqs) = true) \/
        (exists pre w post,
            reqs = pre ++ w :: post /\ j = i + Z.of_nat (length pre) /\
            IsTransactionWrite w = true /\
            forallb notWrite pre = true /\ forallb notEnd pre = true)
    | (j, Some err) =>
        j = -1 /\ err = errNonTerminal /\
        exists pre hd c p post,
          reqs = pre ++ EndTransactionRequest hd c p :: post /\ post <> [] /\
          forallb notWrite pre = true
    end.
Proof.
  induction reqs as [|a rest IH]; intros len i Hlen Hi.
  - simpl. left. repeat split.
  - cbn [firstWriteIndex_loop].
    destruct ((i <? len - 1) && isEndTransactionRequest a) eqn:Hend.
    + apply andb_prop in Hend. destruct Hend as [Hlt Hisend].
      apply Z.ltb_lt in Hlt.
      destruct a; try discriminate. simpl.
      split; [reflexivity|]. split; [reflexivity|].
      exists [], h, Commit, Poison, rest. simpl. repeat split.
      intros ->. simpl in Hlen. lia.
    + destruct (IsTransactionWrite a) eqn:Hw.
      * right. exists [], a, rest. simpl. repeat split; [lia | assumption].
      * assert (Hlen' : len = (i + 1) + Z.of_nat (length rest)).
        { rewrite length_cons in Hlen. lia. }
        specialize (IH len (i + 1) Hlen' ltac:(lia)).
        assert (Hna : rest <> [] -> notEnd a = true).
        { intros Hne. unfold notEnd. destruct (isEndTransactionRequest a); [|reflexivity].
          rewrite andb_true_r in Hend. apply Z.ltb_ge in Hend.
          destruct rest; [contradiction|]. rewrite length_cons in Hlen'. lia. }
        destruct (firstWriteIndex_loop len (i + 1) rest) as [j [err|]].
        -- destruct IH as [Hj [He [pre [hd [c [p [post [Hr [Hp Hpre]]]]]]]]].
           split; [assumption|]. split; [assumption|].
           exists (a :: pre), hd, c, p, post. rewrite Hr. simpl.
           repeat split; [assumption|]. unfold notWrite at 1. rewrite Hw. exact Hpre.
        -- destruct IH as [[Hj [Hnw Hne]] | [pre [w [post [Hr [Hj [Hww [Hnw Hne]]]]]]]].
           ++ left. split; [assumption|]. split.
              ** simpl. unfold notWrite at 1. rewrite Hw. exact Hnw.
              ** destruct rest as [|b rest']; [reflexivity|].
                 change (removelast (a :: b :: rest')) with (a :: removelast (b :: rest')).
                 simpl forallb. rewrite Hna by discriminate. exact Hne.
           ++ right. exists (a :: pre), w, post. rewrite Hr. simpl.
              repeat split.
              ** rewrite length_cons in *. lia.
              ** assumption.
              ** unfold notWrite at 1. rewrite Hw. exact Hnw.
              ** rewrite Hna; [exact Hne|]. rewrite Hr. now destruct pre.
Qed.

Lemma firstWriteIndex_cases (ba : BatchRequest) :
  match firstWriteIndex ba with
  | (j, None) =>
      (j = -1 /\ forallb notWrite (ba_Requests ba) = true /\
       forallb notEnd (removelast (ba_Requests ba)) = true) \/
      (exists pre w post,
          ba_Requests ba = pre ++ w :: post /\ j = Z.of_nat (length pre) /\
          IsTransactionWrite w = true /\
          forallb notWrite pre = true /\ forallb notEnd pre = true)
  | (j, Some err) =>
      j = -1 /\ err = errNonTerminal /\
      exists pre hd c p post,
        ba_Requests ba = pre ++ EndTransactionRequest hd c p :: post /\ post <> [] /\
        forallb notWrite pre = true
  end.
Proof.
  unfold firstWriteIndex.
  apply (firstWriteIndex_loop_cases (ba_Requests ba)); lia.
Qed.

Lemma forallb_notWrite_app_write (pre post : list Request) (w : Request) :
  IsTransactionWrite w = true ->
  forallb notWrite (pre ++ w :: post) = false.
Proof.
  intros Hw. rewrite forallb_app. simpl. unfold notWrite at 2. rewrite Hw.
  simpl. apply andb_false_r.
Qed.

Lemma forallb_notEnd_removelast_end (pre post : list Request)
    (hd : RequestHeader) (c p : bool) :
  post <> [] ->
  forallb notEnd (removelast (pre ++ EndTransactionRequest hd c p :: post)) = false.
Proof.
  intros Hpost. rewrite removelast_app by discriminate.
  rewrite forallb_app.
  destruct post as [|q post]; [contradiction|].
  change (removelast (EndTransactionRequest hd c p :: q :: post))
    with (EndTransactionRequest hd c p :: removelast (q :: post)).
  simpl. apply andb_false_r.
Qed.

(** X1. When [firstWriteIndex] answers an index other than -1, it answers
    no error, the index is in range, the request there is a transactional
    write, and no request ahead of it is a transactional write or an
    end-transaction request: it is the first write of the batch. *)
Theorem X1_firstWriteIndex_is_first_write (ba : BatchRequest) :
  let i := fst (firstWriteIndex ba) in
  i = -1 \/
  (snd (firstWriteIndex ba) = None /\
   0 <= i < Z.of_nat (length (ba_Requests ba)) /\
   (exists w, nth_error (ba_Requests ba) (Z.to_nat i) = Some w /\
              IsTransactionWrite w = true) /\
   forallb notWrite (firstn (Z.to_nat i) (ba_Requests ba)) = true /\
   forallb notEnd (firstn (Z.to_nat i) (ba_Requests ba)) = true).
Proof.
  pose proof (firstWriteIndex_cases ba) as H.
  destruct (firstWriteIndex ba) as [j [err|]]; simpl.
  - left. tauto.
  - destruct H as [[Hj _] | [pre [w [post [Hr [Hj [Hw [Hnw Hne]]]]]]]]; [now left | right].
    split; [reflexivity|]. rewrite Hr, Hj, Nat2Z.id. repeat split.
    + lia.
    + rewrite length_app, length_cons. lia.
    + exists w. split; [|assumption].
      rewrite nth_error_app2 by lia. now rewrite Nat.sub_diag.
    + rewrite firstn_app, Nat.sub_diag, firstn_all, app_nil_r. exact Hnw.
    + rewrite firstn_app, Nat.sub_diag, firstn_all, app_nil_r. exact Hne.
Qed.

(** X2. [firstWriteIndex] fails exactly on the batches in which an
    end-transaction request that is not the last request has no
    transactional write ahead of it; it then answers index -1 and the error
    "EndTransaction sent as non-terminal call". *)
Theorem X2_firstWriteIndex_error_iff (ba : BatchRequest) :
  (snd (firstWriteIndex ba) <> None <->
   exists pre hd c p post,
     ba_Requests ba = pre ++ EndTransactionRequest hd c p :: post /\ post <> [] /\
     forallb notWrite pre = true) /\
  (snd (firstWriteIndex ba) <> None ->
   firstWriteIndex ba = (-1, Some errNonTerminal)).
Proof.
  pose proof (firstWriteIndex_cases ba) as H. split; [split|].
  - destruct (firstWriteIndex ba) as [j [err|]]; simpl; [tauto | congruence].
  - intros [pre [hd [c [p [post [Hr [Hpost Hpre]]]]]]].
    unfold firstWriteIndex. rewrite Hr.
    rewrite (firstWriteIndex_loop_nonterminal pre post hd c p Hpost _ 0 Hpre) by lia.
    discriminate.
  - destruct (firstWriteIndex ba) as [j [err|]]; simpl; [|congruence].
    destruct H as [-> [-> _]]. reflexivity.
Qed.

Lemma firstWriteIndex_none_of_clean (ba : BatchRequest) :
  forallb notWrite (ba_Requests ba) = true ->
  forallb notEnd (removelast (ba_Requests ba)) = true ->
  firstWriteIndex ba = (-1, None).
Proof.
  intros Hnw Hne. pose proof (firstWriteIndex_cases ba) as H.
  destruct (firstWriteIndex ba) as [j [err|]].
  - destruct H as [_ [_ [pre [hd [c [p [post [Hr [Hpost _]]]]]]]]].
    rewrite Hr, forallb_notEnd_removelast_end in Hne by assumption. discriminate.
  - destruct H as [[-> _] | [pre [w [post [Hr [_ [Hw _]]]]]]]; [reflexivity|].
    rewrite Hr, forallb_notWrite_app_write in Hnw by assumption. discriminate.
Qed.

(** X3. [firstWriteIndex] answers -1 without an error exactly on the
    batches that hold no transactional write and no end-transaction request
    other than, possibly, the last request; the empty batch is one. *)
Theorem X3_firstWriteIndex_none_iff (ba : BatchRequest) :
  firstWriteIndex ba = (-1, None) <->
  forallb notWrite (ba_Requests ba) = true /\
  forallb notEnd (removelast (ba_Requests ba)) = true.
Proof.
  split.
  - intros Heq. pose proof (firstWriteIndex_cases ba) as H. rewrite Heq in H.
    destruct H as [[_ H] | [pre [w [post [_ [Hj _]]]]]]; [exact H | lia].
  - intros [Hnw Hne]. now apply firstWriteIndex_none_of_clean.
Qed.

(** ** Every call of SendLocked *)

Lemma prepareBeginTxn_epoch (i : Z) (ba : BatchRequest) (h h1 : txnHeartbeater)
    (fwd : BatchRequest) (added : bool) :
  prepareBeginTxn i ba h = Some (h1, fwd, added) ->
  txn_Epoch (mu_txn h1) = txn_Epoch (mu_txn h) /\
  (txn_Key (ba_Txn fwd) = txn_Key (mu_txn h1) \/ txn_Key (ba_Txn fwd) = txn_Key (ba_Txn ba)).
Proof.
  unfold prepareBeginTxn. simpl.
  destruct (len_Key (txn_Key (mu_txn h)) =? 0).
  - destruct (nth_error (ba_Requests ba) (Z.to_nat i)) as [r|]; [|discriminate].
    simpl. destruct (eagerRecord h || negb (VersionLazyTxnRecord_IsActive (st h)));
      intros H; inversion H; subst; simpl; split; auto.
  - simpl. destruct (eagerRecord h || negb (VersionLazyTxnRecord_IsActive (st h)));
      intros H; inversion H; subst; simpl; split; auto.
Qed.

(** The four ways of a call: rejected by [finalErr]; failed by the scan;
    forwarded as it is; or, for a qualifying write, prepared and then
    refused by the stopper or forwarded. *)
Lemma SendLocked_cases (ba : BatchRequest) (h : txnHeartbeater) (e : Env) :
  (mu_finalErr h <> None /\ singleRollback ba = false /\
   SendLocked wrapped ba h e = Done (None, mu_finalErr h) h e) \/
  (firstWriteIndex ba = (-1, Some errNonTerminal) /\
   SendLocked wrapped ba h e = Done (None, Some errNonTerminal) h e) \/
  (SendLocked wrapped ba h e = Done (wrapped (wrappedLog e) ba) h (log_wrapped ba e)) \/
  (exists i w h1 fwd,
      mu_finalErr h = None /\ mu_needBeginTxn h = true /\
      firstWriteIndex ba = (i, None) /\ i <> -1 /\
      0 <= i < Z.of_nat (length (ba_Requests ba)) /\
      nth_error (ba_Requests ba) (Z.to_nat i) = Some w /\
      IsTransactionWrite w = true /\
      prepareBeginTxn i ba h
      = Some (h1, fwd, eagerRecord h || negb (VersionLazyTxnRecord_IsActive (st h))) /\
      SendLocked wrapped ba h e
      = if negb (isSome (mu_txnEnd h)) && negb (isSome (GetArg_EndTransaction ba))
        then if quiescing e
             then Done (None, Some (NewError ErrUnavailable))
                    (set_finalErr (Some (NewError ErrUnavailable))
                       (set_txnEnd (Some (nextChan e)) h1))
                    (snd (make_chan e))
             else forwardBatch wrapped
                    (eagerRecord h || negb (VersionLazyTxnRecord_IsActive (st h)))
                    i fwd (set_txnEnd (Some (nextChan e)) h1)
                    (add_task HeartbeatLoopTask (snd (make_chan e)))
        else forwardBatch wrapped
               (eagerRecord h || negb (VersionLazyTxnRecord_IsActive (st h)))
               i fwd h1 e).
Proof.
  destruct (isSome (mu_finalErr h) && negb (singleRollback ba)) eqn:Hrej.
  - left. apply andb_prop in Hrej. destruct Hrej as [Hfe Hsr].
    apply negb_true_iff in Hsr.
    split; [destruct (mu_finalErr h); [discriminate | discriminate]|].
    split; [assumption|].
    unfold SendLocked. now rewrite Hsr, Hfe.
  - right.
    pose proof (firstWriteIndex_cases ba) as Hc.
    destruct (firstWriteIndex ba) as [i [err|]] eqn:Hfw.
    + left. destruct Hc as [-> [-> _]]. split; [reflexivity|].
      unfold SendLocked. now rewrite Hrej, Hfw.
    + right.
      destruct (negb (i =? -1) && mu_needBeginTxn h) eqn:Hneed.
      * right. apply andb_prop in Hneed. destruct Hneed as [Hi Hn].
        apply negb_true_iff, Z.eqb_neq in Hi.
        assert (Hfe : mu_finalErr h = None).
        { destruct (mu_finalErr h) as [fe|] eqn:Hfe; [|reflexivity].
          simpl in Hrej. apply negb_false_iff in Hrej.
          apply singleRollback_iff in Hrej. destruct Hrej as [hd [p Hr]].
          unfold firstWriteIndex in Hfw. rewrite Hr in Hfw. simpl in Hfw.
          inversion Hfw. lia. }
        destruct (firstWriteIndex_found _ _ _ Hfw Hi) as [_ [Hrange [w [Hw Hww]]]].
        destruct (prepareBeginTxn_spec i ba h w Hw) as [h1 [fwd [Hp [_ [Hte _]]]]].
        exists i, w, h1, fwd.
        split; [exact Hfe|]. split; [exact Hn|]. split; [reflexivity|].
        split; [exact Hi|]. split; [exact Hrange|]. split; [exact Hw|].
        split; [exact Hww|]. split; [exact Hp|].
        exact (SendLocked_needBeginTxn wrapped ba h e i h1 fwd _ Hfe Hn Hfw Hi Hp Hte).
      * left. now apply SendLocked_plain with (i := i).
Qed.

Lemma forwardBatch_outcome (added : bool) (i : Z) (ba : BatchRequest)
    (h : txnHeartbeater) (e : Env) :
  (exists r, forwardBatch wrapped added i ba h e = Done r h (log_wrapped ba e)) \/
  (forwardBatch wrapped added i ba h e = Panic "slice bounds out of range" /\
   added = true /\
   removeBeginTxnResponse i (fst (wrapped (wrappedLog e) ba)) = None).
Proof.
  unfold forwardBatch, wrapped_SendLocked.
  destruct (wrapped (wrappedLog e) ba) as [br pErr]. simpl.
  destruct added.
  - destruct (removeBeginTxnResponse i br) as [br'|].
    + left. eexists. reflexivity.
    + right. repeat split.
  - left. eexists. reflexivity.
Qed.

(** A call that returns has taken one of these ways: it rejected the batch
    and changed nothing; it forwarded the batch as it is; or it prepared a
    qualifying write and then was refused by the stopper, or started the
    loop and forwarded, or forwarded without starting a loop. *)
Lemma SendLocked_done_cases (ba : BatchRequest) (h h' : txnHeartbeater)
    (e e' : Env) (r : SendResult) :
  SendLocked wrapped ba h e = Done r h' e' ->
  (h' = h /\ e' = e /\ exists err, r = (None, Some err)) \/
  (h' = h /\ e' = log_wrapped ba e /\ r = wrapped (wrappedLog e) ba) \/
  (exists i w h1 fwd,
      mu_finalErr h = None /\ mu_needBeginTxn h = true /\
      firstWriteIndex ba = (i, None) /\
      0 <= i < Z.of_nat (length (ba_Requests ba)) /\
      nth_error (ba_Requests ba) (Z.to_nat i) = Some w /\
      prepareBeginTxn i ba h
      = Some (h1, fwd, eagerRecord h || negb (VersionLazyTxnRecord_IsActive (st h))) /\
      ((mu_txnEnd h = None /\ GetArg_EndTransaction ba = None /\ quiescing e = true /\
        h' = set_finalErr (Some (NewError ErrUnavailable))
               (set_txnEnd (Some (nextChan e)) h1) /\
        e' = snd (make_chan e) /\
        r = (None, Some (NewError ErrUnavailable))) \/
       (mu_txnEnd h = None /\ GetArg_EndTransaction ba = None /\ quiescing e = false /\
        h' = set_txnEnd (Some (nextChan e)) h1 /\
        e' = log_wrapped fwd (add_task HeartbeatLoopTask (snd (make_chan e)))) \/
       ((mu_txnEnd h <> None \/ GetArg_EndTransaction ba <> None) /\
        h' = h1 /\ e' = log_wrapped fwd e))).
Proof.
  intros Hdone.
  destruct (SendLocked_cases ba h e)
    as [[Hfe [_ H]] | [[_ H] | [H | [i [w [h1 [fwd
         [Hfe [Hn [Hfw [Hi [Hrange [Hw [Hww [Hp H]]]]]]]]]]]]]]];
    rewrite H in Hdone.
  - left. inversion Hdone; subst.
    destruct (mu_finalErr h') as [fe|]; [|contradiction].
    repeat split. now exists fe.
  - left. inversion Hdone; subst. repeat split. now exists errNonTerminal.
  - right. left. inversion Hdone; subst. repeat split.
  - right. right. exists i, w, h1, fwd.
    repeat (split; [assumption|]).
    destruct (mu_txnEnd h) as [c|] eqn:Hte; simpl in Hdone.
    + right. right. apply forwardBatch_state in Hdone. destruct Hdone as [-> ->].
      split; [left; discriminate | now split].
    + destruct (GetArg_EndTransaction ba) as [q|] eqn:Hend; simpl in Hdone.
      * right. right. apply forwardBatch_state in Hdone. destruct Hdone as [-> ->].
        split; [right; discriminate | now split].
      * destruct (quiescing e) eqn:Hq.
        -- left. inversion Hdone; subst. repeat split.
           unfold make_chan. simpl. now rewrite Hq.
        -- right. left. apply forwardBatch_state in Hdone. destruct Hdone as [-> ->].
           repeat split; unfold make_chan; simpl; now rewrite ?Hq.
Qed.

(** X4. A batch in which an end-transaction request that is not last has
    no transactional write ahead of it is never forwarded, in whatever
    state the interceptor is: the call returns no response and an error,
    [finalErr] when it is set and the structural error otherwise, and
    changes nothing. *)
Theorem X4_nonterminal_EndTransaction_never_forwarded
    (ba : BatchRequest) (h : txnHeartbeater) (e : Env)
    (pre post : list Request) (hd : RequestHeader) (c p : bool) :
  ba_Requests ba = pre ++ EndTransactionRequest hd c p :: post ->
  post <> [] ->
  forallb notWrite pre = true ->
  SendLocked wrapped ba h e
  = Done (None,
          Some (match mu_finalErr h with
                | Some fe => fe
                | None => errNonTerminal
                end)) h e.
Proof.
  intros Hr Hpost Hpre.
  assert (Hsr : singleRollback ba = false).
  { destruct (singleRollback ba) eqn:Hs; [|reflexivity].
    apply singleRollback_iff in Hs. destruct Hs as [hd' [p' Hs]].
    rewrite Hr in Hs. apply (f_equal (@length Request)) in Hs.
    rewrite length_app in Hs. simpl in Hs.
    destruct post; [contradiction | simpl in Hs; lia]. }
  destruct (mu_finalErr h) as [fe|] eqn:Hfe.
  - unfold SendLocked. now rewrite Hfe, Hsr.
  - now apply (SendLocked_nonterminal_EndTransaction wrapped ba h e pre post hd c p).
Qed.

(** X5. While [finalErr] is unset, a batch without a transactional write
    and with no end-transaction request other than, possibly, its last
    request is forwarded as it is, whatever [needBeginTxn] says: the
    interceptor is left as it was (no begin transaction, no loop started,
    the record not marked as writing) and the answer of the wrapped sender
    is returned. *)
Theorem X5_batch_without_write_forwarded_as_is
    (ba : BatchRequest) (h : txnHeartbeater) (e : Env) :
  mu_finalErr h = None ->
  forallb notWrite (ba_Requests ba) = true ->
  forallb notEnd (removelast (ba_Requests ba)) = true ->
  SendLocked wrapped ba h e = Done (wrapped (wrappedLog e) ba) h (log_wrapped ba e).
Proof.
  intros Hfe Hnw Hne.
  apply SendLocked_plain with (i := -1).
  - now rewrite Hfe.
  - now apply firstWriteIndex_none_of_clean.
  - reflexivity.
Qed.

Lemma nth_error_insert_shifted {A : Type} (x : A) :
  forall (n : nat) (l : list A) (j : nat),
    (n <= length l)%nat ->
    nth_error (firstn n l ++ x :: skipn n l) (shifted n j) = nth_error l j.
Proof.
  induction n as [|n IH]; intros l j Hn.
  - reflexivity.
  - destruct l as [|a l]; [simpl in Hn; lia|].
    destruct j as [|j]; [reflexivity|].
    simpl in Hn. specialize (IH l j ltac:(lia)).
    unfold shifted in *. change (S j <? S n)%nat with (j <? n)%nat.
    simpl firstn. simpl skipn. simpl app.
    destruct (j <? n)%nat; exact IH.
Qed.

Lemma nth_error_remove_shifted {A : Type} :
  forall (n : nat) (l : list A) (j : nat),
    nth_error (firstn n l ++ skipn (S n) l) j = nth_error l (shifted n j).
Proof.
  induction n as [|n IH]; intros l j.
  - destruct l; [now destruct j | reflexivity].
  - destruct l as [|a l].
    { unfold shifted. destruct (j <? S n)%nat; now destruct j. }
    destruct j as [|j]; [reflexivity|].
    specialize (IH l j).
    unfold shifted in *. change (S j <? S n)%nat with (j <? n)%nat.
    simpl firstn. simpl skipn. simpl app.
    destruct (j <? n)%nat; exact IH.
Qed.

(** A qualifying write on an interceptor that is eager or runs without
    lazy records, whose loop, if needed, starts: the call forwards the
    batch with the begin transaction inserted at the first write. *)
Lemma SendLocked_injects (ba : BatchRequest) (h : txnHeartbeater) (e : Env) (i : Z) :
  mu_finalErr h = None ->
  mu_needBeginTxn h = true ->
  firstWriteIndex ba = (i, None) ->
  i <> -1 ->
  eagerRecord h || negb (VersionLazyTxnRecord_IsActive (st h)) = true ->
  (mu_txnEnd h = None -> GetArg_EndTransaction ba = None -> quiescing e = false) ->
  exists (h1 : txnHeartbeater) (e1 : Env) (fwd : BatchRequest),
    SendLocked wrapped ba h e = forwardBatch wrapped true i fwd h1 e1 /\
    wrappedLog e1 = wrappedLog e /\
    0 <= i < Z.of_nat (length (ba_Requests ba)) /\
    ba_Requests fwd
    = injectBeginTxn i (BeginTransactionRequest (mkRequestHeader (txn_Key (mu_txn h1))))
        (ba_Requests ba).
Proof.
  intros Hfe Hn Hfw Hi Heager Hloop.
  destruct (firstWriteIndex_found _ _ _ Hfw Hi) as [_ [Hrange [w [Hw Hww]]]].
  destruct (prepareBeginTxn_spec i ba h w Hw)
    as [h1 [fwd [Hp [_ [Hte [_ [_ [_ [_ [_ [Hkey [_ Hreqs]]]]]]]]]]]].
  rewrite Heager in Hp, Hreqs.
  pose proof (SendLocked_needBeginTxn wrapped ba h e i h1 fwd true Hfe Hn Hfw Hi Hp Hte)
    as Hsend.
  destruct (negb (isSome (mu_txnEnd h)) && negb (isSome (GetArg_EndTransaction ba)))
    eqn:Hstart.
  - apply andb_prop in Hstart. destruct Hstart as [Hte0 Hend0].
    assert (Hq : quiescing e = false).
    { apply Hloop.
      - destruct (mu_txnEnd h); [discriminate | reflexivity].
      - destruct (GetArg_EndTransaction ba); [discriminate | reflexivity]. }
    rewrite Hq in Hsend.
    exists (set_txnEnd (Some (nextChan e)) h1),
      (add_task HeartbeatLoopTask (snd (make_chan e))), fwd.
    repeat (split; [assumption || reflexivity|]). exact Hreqs.
  - exists h1, e, fwd.
    repeat (split; [assumption || reflexivity|]). exact Hreqs.
Qed.

(** X6. [SendLocked] never stops the process in [log.Fatal].  The only
    [log.Fatal] it can reach is the check of [startHeartbeatLoopLocked]
    against a second loop, which fails exactly when a loop is marked; and
    [SendLocked] starts the loop only behind its own check that none is. *)
Theorem X6_SendLocked_never_fatal (ba : BatchRequest) (h : txnHeartbeater) (e : Env) :
  (forall msg, SendLocked wrapped ba h e <> Fatal msg) /\
  ((exists msg, startHeartbeatLoopLocked h e = Fatal msg) <-> mu_txnEnd h <> None).
Proof.
  split.
  - assert (Hfb : forall added i fwd h1 e1 msg,
               forwardBatch wrapped added i fwd h1 e1 <> Fatal msg).
    { intros added i fwd h1 e1 msg.
      destruct (forwardBatch_outcome added i fwd h1 e1) as [[r Hr] | [Hp _]];
        [rewrite Hr | rewrite Hp]; discriminate. }
    intros msg.
    destruct (SendLocked_cases ba h e)
      as [[_ [_ H]] | [[_ H] | [H | [i [w [h1 [fwd
           [Hfe [Hn [Hfw [Hi [Hrange [Hw [Hww [Hp H]]]]]]]]]]]]]]];
      rewrite H; try discriminate.
    destruct (negb (isSome (mu_txnEnd h)) && negb (isSome (GetArg_EndTransaction ba)));
      [destruct (quiescing e); [discriminate|]|]; apply Hfb.
  - unfold startHeartbeatLoopLocked. destruct (mu_txnEnd h) as [c|].
    + split; [discriminate | intros _; eexists; reflexivity].
    + simpl. unfold RunAsyncTask. simpl. destruct (quiescing e); simpl;
        (split; [intros [msg Hc]; discriminate Hc | intros Hc; now contradiction Hc]).
Qed.

(** X7. A call that is not a qualifying write, because [needBeginTxn] is
    unset or because the scan finds no write in the batch, returns whatever
    the wrapped sender answers, and leaves the interceptor as it was: it
    has forwarded the batch as it is and returns the answer of the wrapped
    sender, or it has forwarded nothing and returns an error.  On these
    ways [SendLocked] reads the requests of the batch only; every index,
    slice and pointer expression that can fail lies on the way of a
    qualifying write. *)
Theorem X7_SendLocked_returns (ba : BatchRequest) (h : txnHeartbeater) (e : Env) :
  mu_needBeginTxn h = false \/ fst (firstWriteIndex ba) = -1 ->
  SendLocked wrapped ba h e = Done (wrapped (wrappedLog e) ba) h (log_wrapped ba e) \/
  exists err, SendLocked wrapped ba h e = Done (None, Some err) h e.
Proof.
  intros [Hn | Hnone].
  - now apply SendLocked_without_begin.
  - unfold SendLocked.
    destruct (isSome (mu_finalErr h) && negb (singleRollback ba)) eqn:Hrej.
    + right. destruct (mu_finalErr h) as [fe|]; [|discriminate]. now exists fe.
    + destruct (firstWriteIndex ba) as [i [err|]]; simpl in Hnone; subst i.
      * right. now exists err.
      * left. simpl. apply forwardBatch_plain.
Qed.

(** X8. When the begin transaction is inserted at [i], request [j] of the
    original batch is request [shifted i j] of the forwarded batch; and
    when the wrapped sender answers with one response slot per forwarded
    request, slot [j] of the response returned is the slot the wrapped
    sender filled for that same request: the caller gets, in order, the
    responses to its own requests, and the response to the begin
    transaction is the one dropped. *)
Theorem X8_responses_stay_aligned
    (ba : BatchRequest) (h : txnHeartbeater) (e : Env) (i : Z) :
  mu_finalErr h = None ->
  mu_needBeginTxn h = true ->
  firstWriteIndex ba = (i, None) ->
  i <> -1 ->
  eagerRecord h || negb (VersionLazyTxnRecord_IsActive (st h)) = true ->
  (mu_txnEnd h = None -> GetArg_EndTransaction ba = None -> quiescing e = false) ->
  exists (h1 : txnHeartbeater) (e1 : Env) (fwd : BatchRequest),
    (forall j, nth_error (ba_Requests fwd) (shifted (Z.to_nat i) j)
               = nth_error (ba_Requests ba) j) /\
    forall b rs pErr,
      wrapped (wrappedLog e) fwd = (Some b, pErr) ->
      br_Responses b = Some rs ->
      length rs = length (ba_Requests fwd) ->
      exists rs' pErr',
        SendLocked wrapped ba h e
        = Done (Some (mkBatchResponse (br_Txn b) (Some rs')), pErr') h1
            (log_wrapped fwd e1) /\
        (forall j, nth_error rs' j = nth_error rs (shifted (Z.to_nat i) j)) /\
        nth_error rs (Z.to_nat i) <> None.
Proof.
  intros Hfe Hn Hfw Hi Heager Hloop.
  destruct (SendLocked_injects ba h e i Hfe Hn Hfw Hi Heager Hloop)
    as [h1 [e1 [fwd [Hsend [Hlog [Hrange Hreqs]]]]]].
  exists h1, e1, fwd. split.
  - intros j. rewrite Hreqs. apply nth_error_insert_shifted. lia.
  - intros b rs pErr Hr Hrs Hl.
    rewrite Hreqs, injectBeginTxn_length in Hl.
    rewrite Hsend. unfold forwardBatch, wrapped_SendLocked.
    rewrite Hlog, Hr. unfold removeBeginTxnResponse. rewrite Hrs.
    destruct (Z.leb_spec (i + 1) (Z.of_nat (length rs))) as [_ | Hlt]; [|lia].
    eexists. eexists. split; [reflexivity|]. split.
    + intros j. replace (Z.to_nat (i + 1)) with (S (Z.to_nat i)) by lia.
      apply nth_error_remove_shifted.
    + apply nth_error_Some. lia.
Qed.

(** X9. When the begin transaction is inserted at [i], the forwarded batch
    is the original one with one request more, request [j] of the original
    being request [shifted i j] of the forwarded batch; and when the
    wrapped sender fails, with no response, with an error whose index
    [idx] points at a request of the forwarded batch: either [idx] is [i],
    the begin transaction, and the error returned has no index; or the
    error returned has an index that points, in the original batch, at the
    very request [idx] pointed at in the forwarded batch. *)
Theorem X9_error_index_points_at_same_request
    (ba : BatchRequest) (h : txnHeartbeater) (e : Env) (i : Z) :
  mu_finalErr h = None ->
  mu_needBeginTxn h = true ->
  firstWriteIndex ba = (i, None) ->
  i <> -1 ->
  eagerRecord h || negb (VersionLazyTxnRecord_IsActive (st h)) = true ->
  (mu_txnEnd h = None -> GetArg_EndTransaction ba = None -> quiescing e = false) ->
  Z.of_nat (length (ba_Requests ba)) <= 2 ^ 31 ->
  exists (fwd : BatchRequest),
    length (ba_Requests fwd) = S (length (ba_Requests ba)) /\
    (forall j, nth_error (ba_Requests fwd) (shifted (Z.to_nat i) j)
               = nth_error (ba_Requests ba) j) /\
    (exists hd, nth_error (ba_Requests fwd) (Z.to_nat i)
                = Some (BeginTransactionRequest hd)) /\
    forall pErr idx,
      wrapped (wrappedLog e) fwd = (None, Some pErr) ->
      err_Index pErr = Some idx ->
      0 <= idx < Z.of_nat (length (ba_Requests fwd)) ->
      exists pErr' h1 e1,
        SendLocked wrapped ba h e = Done (None, Some pErr') h1 e1 /\
        wrappedLog e1 = fwd :: wrappedLog e /\
        ((idx = i /\ err_Index pErr' = None) \/
         (exists j, err_Index pErr' = Some j /\ 0 <= j /\
                    nth_error (ba_Requests ba) (Z.to_nat j)
                    = nth_error (ba_Requests fwd) (Z.to_nat idx) /\
                    nth_error (ba_Requests ba) (Z.to_nat j) <> None)).
Proof.
  intros Hfe Hn Hfw Hi Heager Hloop Hsize.
  destruct (SendLocked_injects ba h e i Hfe Hn Hfw Hi Heager Hloop)
    as [h1 [e1 [fwd [Hsend [Hlog [Hrange Hreqs]]]]]].
  exists fwd.
  assert (Hlen : Z.of_nat (length (ba_Requests fwd))
                 = Z.of_nat (length (ba_Requests ba)) + 1).
  { rewrite Hreqs, injectBeginTxn_length. lia. }
  assert (Hshift : forall j, nth_error (ba_Requests fwd) (shifted (Z.to_nat i) j)
                             = nth_error (ba_Requests ba) j).
  { intros j. rewrite Hreqs. apply nth_error_insert_shifted. lia. }
  split; [lia|]. split; [exact Hshift|]. split.
  { eexists. rewrite Hreqs. apply injectBeginTxn_nth. lia. }
  intros pErr idx Hr Hidx Hin. rewrite Hlen in Hin.
  rewrite Hsend. unfold forwardBatch, wrapped_SendLocked.
  rewrite Hlog, Hr. simpl. rewrite Hidx, int32_small by lia.
  destruct (Z.eqb_spec idx i) as [Heq | Hne].
  - eexists. exists h1. eexists. split; [reflexivity|]. simpl.
    split; [now rewrite Hlog|]. left. now split.
  - destruct (Z.gtb_spec idx i) as [Hgt | Hle].
    + eexists. exists h1. eexists. split; [reflexivity|]. simpl.
      split; [now rewrite Hlog|]. right. exists (idx - 1). simpl.
      split; [reflexivity|]. split; [lia|]. split.
      * rewrite <- Hshift. unfold shifted.
        destruct (Nat.ltb_spec (Z.to_nat (idx - 1)) (Z.to_nat i)) as [Hlt | _]; [lia|].
        now replace (S (Z.to_nat (idx - 1))) with (Z.to_nat idx) by lia.
      * apply nth_error_Some. lia.
    + eexists. exists h1. eexists. split; [reflexivity|]. simpl.
      split; [now rewrite Hlog|]. right. exists idx.
      split; [assumption|]. split; [lia|]. split.
      * rewrite <- Hshift. unfold shifted.
        destruct (Nat.ltb_spec (Z.to_nat idx) (Z.to_nat i)) as [_ | Hge]; [reflexivity | lia].
      * apply nth_error_Some. lia.
Qed.

(** What a returning call has done to the interceptor and to its
    surroundings, in terms of the state before the call. *)
Lemma SendLocked_done_frame (ba : BatchRequest) (h h' : txnHeartbeater)
    (e e' : Env) (r : SendResult) :
  SendLocked wrapped ba h e = Done r h' e' ->
  eagerRecord h' = eagerRecord h /\ st h' = st h /\
  txn_Status (mu_txn h') = txn_Status (mu_txn h) /\
  txn_Epoch (mu_txn h') = txn_Epoch (mu_txn h) /\
  (txn_Key (mu_txn h') = txn_Key (mu_txn h) \/
   len_Key (txn_Key (mu_txn h)) = 0 /\
   exists w, nth_error (ba_Requests ba) (Z.to_nat (fst (firstWriteIndex ba))) = Some w /\
             IsTransactionWrite w = true /\
             txn_Key (mu_txn h') = hdr_Key (Header w)) /\
  (txn_Writing (mu_txn h') = txn_Writing (mu_txn h) \/
   txn_Writing (mu_txn h') = true /\ mu_needBeginTxn h = true) /\
  (mu_needBeginTxn h' = mu_needBeginTxn h \/ mu_needBeginTxn h' = false) /\
  gatekeeperLog e' = gatekeeperLog e /\
  asyncAbortCalls e' = asyncAbortCalls e /\
  quiescing e' = quiescing e /\ clock e' = clock e /\
  closedChans e' = closedChans e.
Proof.
  intros Hdone.
  destruct (SendLocked_done_cases ba h h' e e' r Hdone)
    as [[-> [-> _]] | [[-> [-> _]] | [i [w [h1 [fwd
         [Hfe [Hn [Hfw [Hrange [Hw [Hp Hways]]]]]]]]]]]].
  - repeat split; auto.
  - repeat split; auto.
  - destruct (prepareBeginTxn_spec i ba h w Hw)
      as [h1' [fwd' [Hp' [Hnb [Hte [Hfe1 [Heag [Hst [Hwr [Hstat [Hkey _]]]]]]]]]]].
    rewrite Hp in Hp'. inversion Hp'; subst h1' fwd'. clear Hp'.
    destruct (prepareBeginTxn_epoch i ba h h1 fwd _ Hp) as [Hep _].
    assert (Hk : txn_Key (mu_txn h1) = txn_Key (mu_txn h) \/
                 len_Key (txn_Key (mu_txn h)) = 0 /\
                 exists w0, nth_error (ba_Requests ba)
                              (Z.to_nat (fst (firstWriteIndex ba))) = Some w0 /\
                            IsTransactionWrite w0 = true /\
                            txn_Key (mu_txn h1) = hdr_Key (Header w0)).
    { assert (Hi : i <> -1) by lia.
      destruct (firstWriteIndex_found _ _ _ Hfw Hi) as [_ [_ [w' [Hw' Hww]]]].
      rewrite Hw in Hw'. inversion Hw'; subst w'.
      rewrite Hfw. simpl. rewrite Hkey.
      destruct (Z.eqb_spec (len_Key (txn_Key (mu_txn h))) 0) as [Hz | _]; [|now left].
      right. split; [assumption|]. now exists w. }
    destruct Hways as [[_ [_ [_ [-> [-> _]]]]] | [[_ [_ [_ [-> ->]]]] | [_ [-> ->]]]];
      simpl; repeat split; auto.
Qed.

(** X10. A call of [SendLocked] that returns never changes the status or
    the epoch of the transaction record, never replaces an anchor key that
    is set (an empty key is set to the key of the first write), never
    unmarks the record as writing, never sets [needBeginTxn], and never
    sends through the gatekeeper, calls the abort callback or closes a
    channel. *)
Theorem X10_SendLocked_frame (ba : BatchRequest) (h h' : txnHeartbeater)
    (e e' : Env) (r : SendResult) :
  SendLocked wrapped ba h e = Done r h' e' ->
  txn_Status (mu_txn h') = txn_Status (mu_txn h) /\
  txn_Epoch (mu_txn h') = txn_Epoch (mu_txn h) /\
  (len_Key (txn_Key (mu_txn h)) <> 0 -> txn_Key (mu_txn h') = txn_Key (mu_txn h)) /\
  (len_Key (txn_Key (mu_txn h)) = 0 ->
   txn_Key (mu_txn h') = txn_Key (mu_txn h) \/
   exists w, nth_error (ba_Requests ba) (Z.to_nat (fst (firstWriteIndex ba))) = Some w /\
             IsTransactionWrite w = true /\
             txn_Key (mu_txn h') = hdr_Key (Header w)) /\
  (txn_Writing (mu_txn h) = true -> txn_Writing (mu_txn h') = true) /\
  (mu_needBeginTxn h = false -> mu_needBeginTxn h' = false) /\
  eagerRecord h' = eagerRecord h /\ st h' = st h /\
  gatekeeperLog e' = gatekeeperLog e /\
  asyncAbortCalls e' = asyncAbortCalls e /\
  closedChans e' = closedChans e.
Proof.
  intros Hdone.
  destruct (SendLocked_done_frame ba h h' e e' r Hdone)
    as [Heag [Hst [Hstat [Hep [Hkey [Hwr [Hnb [Hgk [Hcb [_ [_ Hcl]]]]]]]]]]].
  repeat split; auto.
  - intros Hlen. destruct Hkey as [Hk | [Hz _]]; [exact Hk | contradiction].
  - intros _. destruct Hkey as [Hk | [_ Hk]]; [now left | now right].
  - intros Hw. destruct Hwr as [Heq | [Hw' _]]; [now rewrite Heq | exact Hw'].
  - intros Hn. destruct Hnb as [Heq | Hn']; [now rewrite Heq | exact Hn'].
Qed.

(** X11. A call of [SendLocked] that returns has either forwarded nothing,
    and then it returns no response and an error; or forwarded exactly one
    batch, which holds the requests of the original batch in their order,
    with at most a begin-transaction request inserted at the index of the
    first write. *)
Theorem X11_SendLocked_forwards_at_most_once (ba : BatchRequest)
    (h h' : txnHeartbeater) (e e' : Env) (r : SendResult) :
  SendLocked wrapped ba h e = Done r h' e' ->
  (wrappedLog e' = wrappedLog e /\ exists err, r = (None, Some err)) \/
  (exists fwd,
      wrappedLog e' = fwd :: wrappedLog e /\
      (ba_Requests fwd = ba_Requests ba \/
       exists k,
         ba_Requests fwd
         = injectBeginTxn (fst (firstWriteIndex ba))
             (BeginTransactionRequest (mkRequestHeader k)) (ba_Requests ba))).
Proof.
  intros Hdone.
  destruct (SendLocked_done_cases ba h h' e e' r Hdone)
    as [[_ [-> Herr]] | [[_ [-> _]] | [i [w [h1 [fwd
         [Hfe [Hn [Hfw [Hrange [Hw [Hp Hways]]]]]]]]]]]].
  - left. now split.
  - right. exists ba. split; [reflexivity | now left].
  - destruct (prepareBeginTxn_spec i ba h w Hw)
      as [h1' [fwd' [Hp' [_ [_ [_ [_ [_ [_ [_ [_ [_ Hreqs]]]]]]]]]]]].
    rewrite Hp in Hp'. inversion Hp'; subst h1' fwd'. clear Hp'.
    assert (Hfwd : ba_Requests fwd = ba_Requests ba \/
                   exists k,
                     ba_Requests fwd
                     = injectBeginTxn (fst (firstWriteIndex ba))
                         (BeginTransactionRequest (mkRequestHeader k)) (ba_Requests ba)).
    { rewrite Hfw. simpl.
      destruct (eagerRecord h || negb (VersionLazyTxnRecord_IsActive (st h)));
        [right; eexists; exact Hreqs | now left]. }
    destruct Hways as [[_ [_ [_ [_ [-> ->]]]]] | [[_ [_ [_ [_ ->]]]] | [_ [_ ->]]]].
    + left. split; [reflexivity|]. eexists. reflexivity.
    + right. exists fwd. split; [reflexivity | exact Hfwd].
    + right. exists fwd. split; [reflexivity | exact Hfwd].
Qed.

(** X12. A call of [SendLocked] that returns leaves [finalErr] as it was,
    except when it had to start the loop and the stopper refused: then
    [finalErr] was unset, it is set to the error of the stopper, that error
    is returned, and nothing is forwarded.  A call never clears
    [finalErr]. *)
Theorem X12_SendLocked_sets_finalErr_only_on_refusal (ba : BatchRequest)
    (h h' : txnHeartbeater) (e e' : Env) (r : SendResult) :
  SendLocked wrapped ba h e = Done r h' e' ->
  mu_finalErr h' = mu_finalErr h \/
  (mu_finalErr h = None /\ mu_txnEnd h = None /\ quiescing e = true /\
   mu_finalErr h' = Some (NewError ErrUnavailable) /\
   r = (None, Some (NewError ErrUnavailable)) /\
   wrappedLog e' = wrappedLog e).
Proof.
  intros Hdone.
  destruct (SendLocked_done_cases ba h h' e e' r Hdone)
    as [[-> _] | [[-> _] | [i [w [h1 [fwd
         [Hfe [Hn [Hfw [Hrange [Hw [Hp Hways]]]]]]]]]]]]; [now left | now left |].
  destruct (prepareBeginTxn_spec i ba h w Hw)
    as [h1' [fwd' [Hp' [_ [_ [Hfe1 _]]]]]].
  rewrite Hp in Hp'. inversion Hp'; subst h1' fwd'. clear Hp'.
  destruct Hways as [[Hte [_ [Hq [-> [-> ->]]]]] | [[_ [_ [_ [-> _]]]] | [_ [-> _]]]].
  - right. repeat split; assumption.
  - left. exact Hfe1.
  - left. exact Hfe1.
Qed.

(** X13. A call of [SendLocked] that returns never clears or replaces the
    marker of a running loop and never schedules a loop while one is
    marked.  It sets the marker, to a newly made channel, only when none
    was set; the loop task is then scheduled, unless the stopper is
    quiescing, in which case the marker stays set although no loop runs. *)
Theorem X13_SendLocked_loop_marker (ba : BatchRequest)
    (h h' : txnHeartbeater) (e e' : Env) (r : SendResult) :
  SendLocked wrapped ba h e = Done r h' e' ->
  (mu_txnEnd h' = mu_txnEnd h /\ asyncTasks e' = asyncTasks e /\
   nextChan e' = nextChan e) \/
  (mu_txnEnd h = None /\ mu_txnEnd h' = Some (nextChan e) /\
   nextChan e' = S (nextChan e) /\
   (quiescing e = false /\ asyncTasks e' = asyncTasks e ++ [HeartbeatLoopTask] \/
    quiescing e = true /\ asyncTasks e' = asyncTasks e)).
Proof.
  intros Hdone.
  destruct (SendLocked_done_cases ba h h' e e' r Hdone)
    as [[-> [-> _]] | [[-> [-> _]] | [i [w [h1 [fwd
         [Hfe [Hn [Hfw [Hrange [Hw [Hp Hways]]]]]]]]]]]];
    [left; now repeat split | left; now repeat split |].
  destruct (prepareBeginTxn_spec i ba h w Hw) as [h1' [fwd' [Hp' [_ [Hte1 _]]]]].
  rewrite Hp in Hp'. inversion Hp'; subst h1' fwd'. clear Hp'.
  destruct Hways as [[Hte [_ [Hq [-> [-> _]]]]] | [[Hte [_ [Hq [-> ->]]]] | [_ [-> ->]]]].
  - right. repeat split; try assumption. now right.
  - right. repeat split; try assumption. now left.
  - left. now repeat split.
Qed.

(** ** Every heartbeat *)

(** The ways of a heartbeat that returns: nothing to do for a record that
    is no longer pending; an error swallowed; an abort found and cleaned
    up; or a merge that leaves the record pending or committed. *)
Lemma heartbeat_done_cases (h h' : txnHeartbeater) (e e' : Env) (b : bool) :
  heartbeat gatekeeper Update h e = Done b h' e' ->
  (txn_Status (mu_txn h) <> PENDING /\ mu_txnEnd h = None /\
   b = false /\ h' = h /\ e' = e) \/
  (txn_Status (mu_txn h) = PENDING /\ txn_Key (mu_txn h) <> None /\
   ((b = true /\ h' = h /\ e' = log_gatekeeper (heartbeatBatch h e) e) \/
    (exists txn',
        txn_Status txn' = ABORTED /\ b = false /\ h' = set_txn txn' h /\
        e' = (if quiescing e
              then call_asyncAbortCallbackLocked
                     (log_gatekeeper (heartbeatBatch h e) e)
              else add_task (AbortTxnTask (rollbackOf txn'))
                     (call_asyncAbortCallbackLocked
                        (log_gatekeeper (heartbeatBatch h e) e)))) \/
    (exists txn',
        txn_Status txn' <> ABORTED /\
        b = TransactionStatus_eqb (txn_Status txn') PENDING /\
        h' = set_txn txn' h /\
        e' = log_gatekeeper (heartbeatBatch h e) e))).
Proof.
  assert (Hupd : forall o e1 b h' e',
             heartbeatUpdate Update o h e1 = Done b h' e' ->
             (exists txn',
                 txn_Status txn' = ABORTED /\ b = false /\ h' = set_txn txn' h /\
                 e' = (if quiescing e1
                       then call_asyncAbortCallbackLocked e1
                       else add_task (AbortTxnTask (rollbackOf txn'))
                              (call_asyncAbortCallbackLocked e1))) \/
             (exists txn',
                 txn_Status txn' <> ABORTED /\
                 b = TransactionStatus_eqb (txn_Status txn') PENDING /\
                 h' = set_txn txn' h /\ e' = e1)).
  { intros o e1 b0 h0 e0. unfold heartbeatUpdate.
    set (t := Update (mu_txn h) o). simpl.
    destruct (txn_Status t) eqn:Hs; simpl.
    - intros H. inversion H; subst. right. exists t. rewrite Hs.
      repeat split. discriminate.
    - intros H. inversion H; subst. right. exists t. rewrite Hs.
      repeat split. discriminate.
    - rewrite (abortTxnAsyncLocked_aborted (set_txn t h) e1 Hs).
      intros H. inversion H; subst. left. exists t. repeat split. exact Hs. }
  destruct (txn_Status (mu_txn h)) eqn:Hs.
  2,3: (unfold heartbeat; rewrite Hs; simpl;
        destruct (mu_txnEnd h); simpl; [discriminate|];
        intros H; inversion H; subst; left; repeat split; discriminate).
  destruct (txn_Key (mu_txn h)) as [k|] eqn:Hk.
  2: (unfold heartbeat, Clone; rewrite Hs, Hk; simpl; discriminate).
  rewrite (heartbeat_sends gatekeeper Update h e k Hs Hk). simpl.
  intros H. right. split; [reflexivity|]. split; [discriminate|].
  destruct (gatekeeper (gatekeeperLog e) (heartbeatBatch h e)) as [br [err|]].
  - destruct (err_Detail err) as [[msg [|]| | | |name]|];
      try (right; apply Hupd in H; simpl in H; exact H).
    + left. inversion H; subst. now repeat split.
    + rewrite abortTxnAsyncLocked_aborted in H by reflexivity.
      inversion H; subst. right. left.
      exists (set_txn_Status ABORTED (mu_txn h)). now repeat split.
  - destruct br as [bresp|]; [|discriminate].
    destruct (br_Responses bresp) as [[|[respTxn|m] rest]|]; try discriminate.
    right. apply Hupd in H. simpl in H. exact H.
Qed.

(** With nothing running during its send, [heartbeat_among] is
    [heartbeat]. *)
Lemma heartbeat_among_alone (h : txnHeartbeater) (e : Env) :
  heartbeat_among gatekeeper Update (fun s => s) h e = heartbeat gatekeeper Update h e.
Proof.
  unfold heartbeat_among, heartbeat, gatekeeper_SendLocked.
  destruct (negb (TransactionStatus_eqb (txn_Status (mu_txn h)) PENDING)); [reflexivity|].
  destruct (txn_Key (Clone (mu_txn h))); [|reflexivity].
  destruct (gatekeeper (gatekeeperLog e) (heartbeatBatch h e)) as [br pErr]. reflexivity.
Qed.

(** What a heartbeat that returns has done with the answer: swallowed the
    error of a record not found; found the record aborted and cleaned up;
    or merged the snapshot received into a record that is not aborted. *)
Lemma heartbeat_received_cases (r : SendResult) (h h' : txnHeartbeater)
    (e e' : Env) (b : bool) :
  heartbeat_received Update r h e = Done b h' e' ->
  (b = true /\ h' = h /\ e' = e /\
   exists br err msg,
     r = (br, Some err) /\
     err_Detail err = Some (TransactionStatusError msg REASON_TXN_NOT_FOUND)) \/
  (exists txn',
      txn_Status txn' = ABORTED /\ b = false /\ h' = set_txn txn' h /\
      e' = (if quiescing e
            then call_asyncAbortCallbackLocked e
            else add_task (AbortTxnTask (rollbackOf txn'))
                   (call_asyncAbortCallbackLocked e))) \/
  (exists txn',
      txn_Status txn' <> ABORTED /\
      b = TransactionStatus_eqb (txn_Status txn') PENDING /\
      h' = set_txn txn' h /\ e' = e).
Proof.
  assert (Hupd : forall o,
             heartbeatUpdate Update o h e = Done b h' e' ->
             (exists txn',
                 txn_Status txn' = ABORTED /\ b = false /\ h' = set_txn txn' h /\
                 e' = (if quiescing e
                       then call_asyncAbortCallbackLocked e
                       else add_task (AbortTxnTask (rollbackOf txn'))
                              (call_asyncAbortCallbackLocked e))) \/
             (exists txn',
                 txn_Status txn' <> ABORTED /\
                 b = TransactionStatus_eqb (txn_Status txn') PENDING /\
                 h' = set_txn txn' h /\ e' = e)).
  { intros o. unfold heartbeatUpdate.
    set (t := Update (mu_txn h) o). simpl.
    destruct (txn_Status t) eqn:Hs; simpl.
    - intros H. inversion H; subst. right. exists t. rewrite Hs.
      repeat split. discriminate.
    - intros H. inversion H; subst. right. exists t. rewrite Hs.
      repeat split. discriminate.
    - rewrite (abortTxnAsyncLocked_aborted (set_txn t h) e Hs).
      intros H. inversion H; subst. left. exists t. repeat split. exact Hs. }
  destruct r as [br [err|]]; simpl.
  - destruct (err_Detail err) as [[msg [|]| | | |name]|] eqn:Hd;
      try (intros H; right; now apply (Hupd (err_Txn err))).
    + intros H. inversion H; subst. left. repeat split. now exists br, err, msg.
    + rewrite abortTxnAsyncLocked_aborted by reflexivity.
      intros H. inversion H; subst. right. left.
      exists (set_txn_Status ABORTED (mu_txn h)). now repeat split.
  - destruct br as [bresp|]; [|discriminate].
    destruct (br_Responses bresp) as [[|[respTxn|m] rest]|]; try discriminate.
    intros H. right. now apply (Hupd respTxn).
Qed.

(** The two ways of a heartbeat that returns: there was nothing to
    heartbeat; or the heartbeat batch was sent, other critical sections
    ran, and the answer was handled in the state they left. *)
Lemma heartbeat_among_done_cases
    (meanwhile : txnHeartbeater * Env -> txnHeartbeater * Env)
    (h h' : txnHeartbeater) (e e' : Env) (b : bool) :
  heartbeat_among gatekeeper Update meanwhile h e = Done b h' e' ->
  (txn_Status (mu_txn h) <> PENDING /\ mu_txnEnd h = None /\
   b = false /\ h' = h /\ e' = e) \/
  (txn_Status (mu_txn h) = PENDING /\ txn_Key (mu_txn h) <> None /\
   heartbeat_received Update
     (gatekeeper (gatekeeperLog e) (heartbeatBatch h e))
     (fst (meanwhile (h, log_gatekeeper (heartbeatBatch h e) e)))
     (snd (meanwhile (h, log_gatekeeper (heartbeatBatch h e) e)))
   = Done b h' e').
Proof.
  unfold heartbeat_among, gatekeeper_SendLocked, Clone.
  destruct (txn_Status (mu_txn h)) eqn:Hs; simpl.
  2,3: (destruct (mu_txnEnd h); simpl; [discriminate|];
        intros H; inversion H; subst; left; repeat split; discriminate).
  destruct (txn_Key (mu_txn h)) as [k|] eqn:Hk; [|discriminate].
  destruct (meanwhile (h, log_gatekeeper (heartbeatBatch h e) e)) as [hm em].
  intros H. right. split; [reflexivity|]. split; [discriminate|]. exact H.
Qed.

(** X14. Whatever the other critical sections do while a heartbeat waits
    for its answer: a heartbeat that answers false leaves a record that is
    not PENDING; and one that answers true found the record PENDING at its
    start, and leaves it PENDING unless the gatekeeper answered that the
    transaction record was not found, the error that is swallowed without
    another look at the record. *)
Theorem X14_heartbeat_answer_and_status
    (meanwhile : txnHeartbeater * Env -> txnHeartbeater * Env)
    (h h' : txnHeartbeater) (e e' : Env) (b : bool) :
  heartbeat_among gatekeeper Update meanwhile h e = Done b h' e' ->
  (b = false -> txn_Status (mu_txn h') <> PENDING) /\
  (b = true ->
   txn_Status (mu_txn h) = PENDING /\
   (txn_Status (mu_txn h') = PENDING \/ answeredNotFound gatekeeper h e)).
Proof.
  intros H.
  destruct (heartbeat_among_done_cases meanwhile h h' e e' b H)
    as [[Hs [_ [-> [-> _]]]] | [Hs [_ Hrecv]]].
  - split; [intros _; exact Hs | discriminate].
  - destruct (heartbeat_received_cases _ _ _ _ _ _ Hrecv)
      as [[-> [_ [_ [br [err [msg [Hr Hd]]]]]]] | [[t [Ht [-> [-> _]]]] |
          [t [Ht [-> [-> _]]]]]].
    + split; [discriminate|]. intros _. split; [exact Hs|]. right.
      now exists br, err, msg.
    + split; [|discriminate]. intros _. simpl. rewrite Ht. discriminate.
    + simpl. destruct (txn_Status t) eqn:Hst; simpl.
      * split; [discriminate|]. intros _. split; [exact Hs | now left].
      * split; [intros _; discriminate | discriminate].
      * now contradiction Ht.
Qed.

(** X15. What a heartbeat that returns has written itself, the state
    being the one the other critical sections left when its answer was
    there.  Without a heartbeat sent it has changed nothing.  Unless it
    calls the abort callback, it has assigned nothing but the transaction
    record, and has sent, scheduled and closed nothing after its heartbeat
    batch.  It calls the abort callback only for a record it leaves
    ABORTED, once, and then answers false, sends nothing through either
    sender, and hands the stopper the rollback of that record and nothing
    else. *)
Theorem X15_heartbeat_own_writes
    (meanwhile : txnHeartbeater * Env -> txnHeartbeater * Env)
    (h h' : txnHeartbeater) (e e' : Env) (b : bool) :
  heartbeat_among gatekeeper Update meanwhile h e = Done b h' e' ->
  (txn_Status (mu_txn h) <> PENDING /\ b = false /\ h' = h /\ e' = e) \/
  (txn_Status (mu_txn h) = PENDING /\
   exists (hm : txnHeartbeater) (em : Env),
     meanwhile (h, log_gatekeeper (heartbeatBatch h e) e) = (hm, em) /\
     ((e' = em /\ exists txn', h' = set_txn txn' hm) \/
      (b = false /\ txn_Status (mu_txn h') = ABORTED /\
       asyncAbortCalls e' = S (asyncAbortCalls em) /\
       wrappedLog e' = wrappedLog em /\
       gatekeeperLog e' = gatekeeperLog em /\
       (quiescing em = true /\ asyncTasks e' = asyncTasks em \/
        quiescing em = false /\
        asyncTasks e' = asyncTasks em ++ [AbortTxnTask (rollbackOf (mu_txn h'))])))).
Proof.
  intros H.
  destruct (heartbeat_among_done_cases meanwhile h h' e e' b H)
    as [[Hs [_ [-> [-> ->]]]] | [Hs [_ Hrecv]]].
  - left. now repeat split.
  - right. split; [exact Hs|].
    destruct (meanwhile (h, log_gatekeeper (heartbeatBatch h e) e)) as [hm em].
    simpl in Hrecv. exists hm, em. split; [reflexivity|].
    destruct (heartbeat_received_cases _ _ _ _ _ _ Hrecv)
      as [[_ [-> [-> _]]] | [[t [Ht [-> [-> ->]]]] | [t [_ [_ [-> ->]]]]]].
    + left. split; [reflexivity|]. exists (mu_txn hm). now destruct hm.
    + right. split; [reflexivity|]. split; [exact Ht|].
      destruct (quiescing em) eqn:Hq; simpl; repeat split; [now left | now right].
    + left. split; [reflexivity|]. now exists t.
Qed.

(** X16. A heartbeat stops the process in [log.Fatal] only on one of its
    own two checks: the record is no longer pending while the loop is
    still marked, or the record is pending without an anchor key.  The
    check of [abortTxnAsyncLocked] never fails under it. *)
Theorem X16_heartbeat_fatal_only_on_its_checks (h : txnHeartbeater) (e : Env)
    (msg : string) :
  heartbeat gatekeeper Update h e = Fatal msg ->
  (txn_Status (mu_txn h) <> PENDING /\ mu_txnEnd h <> None /\
   msg = "txn committed or aborted but heartbeat loop hasn't been signaled to stop") \/
  (txn_Status (mu_txn h) = PENDING /\ txn_Key (mu_txn h) = None /\
   msg = "attempting to heartbeat txn without anchor key").
Proof.
  assert (Hupd : forall o e1 m, heartbeatUpdate Update o h e1 <> Fatal m).
  { intros o e1 m. unfold heartbeatUpdate.
    set (t := Update (mu_txn h) o). simpl.
    destruct (txn_Status t) eqn:Hs; simpl; try discriminate.
    rewrite (abortTxnAsyncLocked_aborted (set_txn t h) e1 Hs). discriminate. }
  destruct (txn_Status (mu_txn h)) eqn:Hs.
  2,3: (unfold heartbeat; rewrite Hs; simpl;
        destruct (mu_txnEnd h) eqn:Hte; simpl; [|discriminate];
        intros H; inversion H; left; repeat split; discriminate).
  destruct (txn_Key (mu_txn h)) as [k|] eqn:Hk.
  2: (unfold heartbeat, Clone; rewrite Hs, Hk; simpl;
      intros H; inversion H; right; now repeat split).
  rewrite (heartbeat_sends gatekeeper Update h e k Hs Hk). simpl.
  intros H. exfalso.
  destruct (gatekeeper (gatekeeperLog e) (heartbeatBatch h e)) as [br [err|]].
  - destruct (err_Detail err) as [[m [|]| | | |name]|];
      try (now apply Hupd in H); try discriminate.
    rewrite abortTxnAsyncLocked_aborted in H by reflexivity. discriminate.
  - destruct br as [bresp|]; [|discriminate].
    destruct (br_Responses bresp) as [[|[respTxn|m] rest]|]; try discriminate.
    now apply Hupd in H.
Qed.

(** ** The loop *)

Lemma heartbeatLoop_deferred_Some (err : Error) (h : txnHeartbeater) :
  heartbeatLoop_deferred (Some err) h = set_txnEnd None (set_finalErr (Some err) h).
Proof.
  unfold heartbeatLoop_deferred. simpl.
  destruct h as [s0 eg [c|] t f n]; reflexivity.
Qed.

(** One round of the [select]: either the loop goes on, and then the round
    was a heartbeat that answered true or an event that was not ready; or
    it returns, and then the deferred function has cleared the marker and
    set [finalErr] to the error of the event. *)
Lemma heartbeatLoop_select_cases (closer : Chan) (ev : LoopEvent)
    (h h' : txnHeartbeater) (e e' : Env) (s : LoopState) :
  heartbeatLoop_select gatekeeper Update closer ev h e = Done s h' e' ->
  (s = Looping closer /\
   ((ev = Tick /\ heartbeat gatekeeper Update h e = Done true h' e') \/
    (ev = CloserClosed /\ is_closed closer e = false /\ h' = h /\ e' = e) \/
    (ev = ShouldQuiesce /\ quiescing e = false /\ h' = h /\ e' = e))) \/
  (s = Returned /\
   ((ev = Tick /\
     exists h1, heartbeat gatekeeper Update h e = Done false h1 e' /\
                h' = set_txnEnd None
                       (set_finalErr (Some (NewErrorf "heartbeat failed fatally")) h1)) \/
    (ev = CloserClosed /\ is_closed closer e = true /\ e' = e /\
     h' = set_txnEnd None
            (set_finalErr (Some (NewErrorf "txnHeartbeater already closed")) h)) \/
    (ev = ShouldQuiesce /\ quiescing e = true /\ e' = e /\
     h' = set_txnEnd None
            (set_finalErr (Some (NewErrorf "node already quiescing")) h)))).
Proof.
  unfold heartbeatLoop_select. destruct ev.
  - destruct (heartbeat gatekeeper Update h e) as [b h1 e1| |]; try discriminate.
    destruct b; intros H; inversion H; subst.
    + left. split; [reflexivity|]. now left.
    + right. split; [reflexivity|]. left. split; [reflexivity|].
      exists h1. split; [reflexivity|]. apply heartbeatLoop_deferred_Some.
  - destruct (is_closed closer e); intros H; inversion H; subst.
    + right. split; [reflexivity|]. right. left.
      repeat split. apply heartbeatLoop_deferred_Some.
    + left. split; [reflexivity|]. right. left. now repeat split.
  - destruct (quiescing e); intros H; inversion H; subst.
    + right. split; [reflexivity|]. right. right.
      repeat split. apply heartbeatLoop_deferred_Some.
    + left. split; [reflexivity|]. right. right. now repeat split.
Qed.

Lemma heartbeatLoop_for_returned (evs : list LoopEvent) :
  forall (closer : Chan) (h h' : txnHeartbeater) (e e' : Env),
    heartbeatLoop_for gatekeeper Update closer evs h e = Done Returned h' e' ->
    mu_txnEnd h' = None /\
    exists err, In err loopErrors /\ mu_finalErr h' = Some err.
Proof.
  induction evs as [|ev evs IH]; intros closer h h' e e' H; simpl in H.
  - discriminate.
  - destruct (heartbeatLoop_select gatekeeper Update closer ev h e)
      as [s1 h1 e1| |] eqn:Hsel; try discriminate.
    destruct s1 as [c|].
    + now apply (IH c h1 h' e1 e').
    + inversion H; subst.
      destruct (heartbeatLoop_select_cases closer ev h h' e e' Returned Hsel)
        as [[Hc _] | [_ [[_ [h2 [_ ->]]] | [[_ [_ [_ ->]]] | [_ [_ [_ ->]]]]]]];
        [discriminate | | |]; (split; [reflexivity|]); eexists;
        (split; [|reflexivity]); simpl; auto.
Qed.


(** ** What goes through the gatekeeper *)

Lemma heartbeatsSent_none (e e' : Env) (n : nat) :
  gatekeeperLog e' = gatekeeperLog e -> heartbeatsSent n e e'.
Proof.
  intros Hl. exists []. split; [exact Hl|]. split; [constructor | simpl; lia].
Qed.

Lemma heartbeatsSent_trans (e e1 e2 : Env) (n m k : nat) :
  heartbeatsSent n e e1 -> heartbeatsSent m e1 e2 -> (n + m <= k)%nat ->
  heartbeatsSent k e e2.
Proof.
  intros [s1 [H1 [F1 L1]]] [s2 [H2 [F2 L2]]] Hk. exists (s2 ++ s1).
  split; [now rewrite H2, H1, app_assoc|].
  split; [apply Forall_app; now split|]. rewrite length_app. lia.
Qed.

(** A heartbeat sends nothing, or the heartbeat batch of the record it
    found, which is pending and has an anchor key. *)
Lemma heartbeat_heartbeatsSent (h h' : txnHeartbeater) (e e' : Env) (b : bool) :
  heartbeat gatekeeper Update h e = Done b h' e' -> heartbeatsSent 1 e e'.
Proof.
  intros H.
  destruct (heartbeat_done_cases h h' e e' b H)
    as [[_ [_ [_ [_ ->]]]] | [Hs [Hk Hways]]].
  - now apply heartbeatsSent_none.
  - exists [heartbeatBatch h e]. split.
    + destruct Hways as [[_ [_ ->]] | [[t [_ [_ [_ ->]]]] | [t [_ [_ [_ ->]]]]]];
        [reflexivity | destruct (quiescing e); reflexivity | reflexivity].
    + split; [|simpl; lia]. constructor; [|constructor].
      unfold isHeartbeatBatch, heartbeatBatch, Clone. simpl. split; [exact Hs|].
      destruct (txn_Key (mu_txn h)) as [k|]; [|now contradiction Hk].
      now exists k, (clock e).
Qed.

Lemma heartbeatLoop_select_heartbeatsSent (closer : Chan) (ev : LoopEvent)
    (h h' : txnHeartbeater) (e e' : Env) (s : LoopState) :
  heartbeatLoop_select gatekeeper Update closer ev h e = Done s h' e' ->
  heartbeatsSent (if isTick ev then 1 else 0) e e'.
Proof.
  intros H.
  destruct (heartbeatLoop_select_cases closer ev h h' e e' s H)
    as [[_ [[-> Hhb] | [[-> [_ [_ ->]]] | [-> [_ [_ ->]]]]]] |
        [_ [[-> [h1 [Hhb _]]] | [[-> [_ [-> _]]] | [-> [_ [-> _]]]]]]];
    try (now apply heartbeatsSent_none).
  - exact (heartbeat_heartbeatsSent h h' e e' true Hhb).
  - exact (heartbeat_heartbeatsSent h h1 e e' false Hhb).
Qed.

Lemma heartbeatLoop_for_heartbeatsSent (evs : list LoopEvent) :
  forall (closer : Chan) (h h' : txnHeartbeater) (e e' : Env) (s : LoopState),
    heartbeatLoop_for gatekeeper Update closer evs h e = Done s h' e' ->
    heartbeatsSent (length (filter isTick evs)) e e'.
Proof.
  induction evs as [|ev evs IH]; intros closer h h' e e' s H; simpl in H.
  - inversion H; subst. now apply heartbeatsSent_none.
  - destruct (heartbeatLoop_select gatekeeper Update closer ev h e)
      as [s1 h1 e1| |] eqn:Hsel; try discriminate.
    pose proof (heartbeatLoop_select_heartbeatsSent closer ev h h1 e e1 s1 Hsel) as H1.
    destruct s1 as [c|].
    + apply (heartbeatsSent_trans e e1 e' _ _ _ H1 (IH c h1 h' e1 e' s H)).
      simpl. destruct (isTick ev); simpl; lia.
    + inversion H; subst.
      apply (heartbeatsSent_trans e e' e' _ 0%nat _ H1);
        [now apply heartbeatsSent_none|].
      simpl. destruct (isTick ev); simpl; lia.
Qed.

Lemma step_heartbeatsSent (op : Op) (s s' : txnHeartbeater * Env) :
  step wrapped gatekeeper Update op s = Some s' ->
  heartbeatsSent (ticksOf op) (snd s) (snd s').
Proof.
  destruct s as [h e]. destruct s' as [h' e']. simpl.
  intros Hstep. destruct op; simpl in Hstep.
  - destruct (SendLocked wrapped ba h e) as [r h1 e1| |] eqn:Hs; try discriminate.
    simpl in Hstep. inversion Hstep; subst.
    apply heartbeatsSent_none.
    apply (SendLocked_done_frame ba h h' e e' r Hs).
  - inversion Hstep; subst. now apply heartbeatsSent_none.
  - unfold closeLocked in Hstep. destruct (mu_txnEnd h);
      inversion Hstep; subst; now apply heartbeatsSent_none.
  - unfold heartbeatLoop in Hstep. destruct (mu_txnEnd h) as [closer|] eqn:Hte.
    + destruct (heartbeatLoop_for gatekeeper Update closer evs h e)
        as [st0 h1 e1| |] eqn:Hl; try discriminate.
      simpl in Hstep. inversion Hstep; subst.
      exact (heartbeatLoop_for_heartbeatsSent evs closer h h' e e' st0 Hl).
    + simpl in Hstep. inversion Hstep; subst. now apply heartbeatsSent_none.
  - destruct (heartbeatLoop_select gatekeeper Update closer ev h e)
      as [st0 h1 e1| |] eqn:Hl; try discriminate.
    simpl in Hstep. inversion Hstep; subst.
    pose proof (heartbeatLoop_select_heartbeatsSent closer ev h h' e e' st0 Hl) as Hsent.
    now destruct ev.
  - inversion Hstep; subst. now apply heartbeatsSent_none.
  - inversion Hstep; subst. now apply heartbeatsSent_none.
Qed.

(** X18. Whatever the interceptor does, in whatever order (sends, epoch
    bumps, closes, rounds of the loop, abort tasks, quiescing): the only
    batches it hands to the gatekeeper itself are heartbeat batches, each
    one heartbeat request at the anchor key of the pending snapshot it is
    sent under, and it hands over no more of them than the loop has taken
    ticks.  Nothing else bypasses the wrapped sender. *)
Theorem X18_only_heartbeats_bypass_the_stack (ops : list Op)
    (h h' : txnHeartbeater) (e e' : Env) :
  run wrapped gatekeeper Update ops (h, e) = Some (h', e') ->
  exists sent : list BatchRequest,
    gatekeeperLog e' = sent ++ gatekeeperLog e /\
    (forall ba, In ba sent ->
       txn_Status (ba_Txn ba) = PENDING /\
       exists (k : string) (now : Timestamp),
         txn_Key (ba_Txn ba) = Some k /\
         ba_Requests ba = [HeartbeatTxnRequest (mkRequestHeader (Some k)) now]) /\
    (length sent <= list_sum (map ticksOf ops))%nat.
Proof.
  intros Hrun.
  assert (Hsent : heartbeatsSent (list_sum (map ticksOf ops)) e e').
  { revert h e Hrun.
    induction ops as [|op ops IH]; intros h e Hrun; cbn [run] in Hrun.
    - inversion Hrun; subst. now apply heartbeatsSent_none.
    - destruct (step wrapped gatekeeper Update op (h, e)) as [[h1 e1]|] eqn:Hstep;
        [|discriminate].
      apply (heartbeatsSent_trans e e1 e' (ticksOf op) (list_sum (map ticksOf ops)));
        [exact (step_heartbeatsSent op (h, e) (h1, e1) Hstep)
        | exact (IH h1 e1 Hrun) | simpl; lia]. }
  destruct Hsent as [sent [Hlog [Hall Hlen]]].
  exists sent. split; [exact Hlog|]. split; [|exact Hlen].
  intros ba Hin. exact (proj1 (Forall_forall _ _) Hall ba Hin).
Qed.

(** ** Closing the interceptor *)

(** X19. [closeLocked] is idempotent: a second call changes nothing.  The
    first call clears the loop marker and closes its channel, if there was
    one, and touches nothing else; without a marker it changes nothing. *)
Theorem X19_closeLocked_idempotent (h : txnHeartbeater) (e : Env) :
  closeLocked (fst (closeLocked h e)) (snd (closeLocked h e)) = closeLocked h e /\
  mu_txnEnd (fst (closeLocked h e)) = None /\
  fst (closeLocked h e) = set_txnEnd None h /\
  (forall c, mu_txnEnd h = Some c ->
             snd (closeLocked h e) = close_chan c e /\
             is_closed c (snd (closeLocked h e)) = true) /\
  (mu_txnEnd h = None -> closeLocked h e = (h, e)).
Proof.
  unfold closeLocked. destruct (mu_txnEnd h) as [c|] eqn:Hte; simpl.
  - split; [reflexivity|]. split; [reflexivity|]. split; [reflexivity|].
    split; [|discriminate].
    intros c0 Hc. inversion Hc; subst. split; [reflexivity|].
    unfold is_closed. simpl. now rewrite Nat.eqb_refl.
  - rewrite Hte. split; [reflexivity|]. split; [reflexivity|].
    split; [|split; [discriminate | reflexivity]].
    destruct h; simpl in *; now subst.
Qed.

(** X20. Closing the interceptor ends a running loop: once [closeLocked]
    has closed the channel the loop waits on, the loop's [select] on that
    channel returns, leaving [finalErr] set to "txnHeartbeater already
    closed" and the marker nil; before the close, that branch of the
    [select] is not ready and the loop goes on unchanged. *)
Theorem X20_close_ends_the_loop (h : txnHeartbeater) (e : Env) (c : Chan) :
  mu_txnEnd h = Some c ->
  heartbeatLoop_select gatekeeper Update c CloserClosed
    (fst (closeLocked h e)) (snd (closeLocked h e))
  = Done Returned
      (set_finalErr (Some (NewErrorf "txnHeartbeater already closed"))
         (set_txnEnd None h))
      (close_chan c e) /\
  (is_closed c e = false ->
   heartbeatLoop_select gatekeeper Update c CloserClosed h e = Done (Looping c) h e).
Proof.
  intros Hte. split.
  - unfold closeLocked. rewrite Hte. simpl.
    unfold is_closed. simpl. rewrite Nat.eqb_refl. simpl. reflexivity.
  - intros Hopen. simpl. now rewrite Hopen.
Qed.

(** ** Once [finalErr] is set *)

Lemma heartbeat_finalErr (h h' : txnHeartbeater) (e e' : Env) (b : bool) :
  heartbeat gatekeeper Update h e = Done b h' e' ->
  mu_finalErr h' = mu_finalErr h.
Proof.
  intros H.
  destruct (heartbeat_done_cases h h' e e' b H)
    as [[_ [_ [_ [-> _]]]] | [_ [_ [[_ [-> _]] | [[t [_ [_ [-> _]]]] |
         [t [_ [_ [-> _]]]]]]]]]; reflexivity.
Qed.

Lemma heartbeatLoop_select_finalErr (closer : Chan) (ev : LoopEvent)
    (h h' : txnHeartbeater) (e e' : Env) (s : LoopState) :
  heartbeatLoop_select gatekeeper Update closer ev h e = Done s h' e' ->
  mu_finalErr h <> None -> mu_finalErr h' <> None.
Proof.
  intros H Hfe.
  destruct (heartbeatLoop_select_cases closer ev h h' e e' s H)
    as [[_ [[_ Hhb] | [[_ [_ [-> _]]] | [_ [_ [-> _]]]]]] |
        [_ [[_ [h1 [_ ->]]] | [[_ [_ [_ ->]]] | [_ [_ [_ ->]]]]]]];
    try assumption; try discriminate.
  now rewrite (heartbeat_finalErr h h' e e' true Hhb).
Qed.

Lemma heartbeatLoop_for_finalErr (evs : list LoopEvent) :
  forall (closer : Chan) (h h' : txnHeartbeater) (e e' : Env) (s : LoopState),
    heartbeatLoop_for gatekeeper Update closer evs h e = Done s h' e' ->
    mu_finalErr h <> None -> mu_finalErr h' <> None.
Proof.
  induction evs as [|ev evs IH]; intros closer h h' e e' s H Hfe; simpl in H.
  - now inversion H; subst.
  - destruct (heartbeatLoop_select gatekeeper Update closer ev h e)
      as [s1 h1 e1| |] eqn:Hsel; try discriminate.
    pose proof (heartbeatLoop_select_finalErr closer ev h h1 e e1 s1 Hsel Hfe) as Hfe1.
    destruct s1 as [c|].
    + now apply (IH c h1 h' e1 e' s).
    + now inversion H; subst.
Qed.

Lemma step_finalErr (op : Op) (s s' : txnHeartbeater * Env) :
  step wrapped gatekeeper Update op s = Some s' ->
  mu_finalErr (fst s) <> None ->
  mu_finalErr (fst s') <> None.
Proof.
  destruct s as [h e]. destruct s' as [h' e']. simpl.
  intros Hstep Hfe. destruct op; simpl in Hstep.
  - destruct (SendLocked wrapped ba h e) as [r h1 e1| |] eqn:Hs; try discriminate.
    simpl in Hstep. inversion Hstep; subst.
    destruct (SendLocked_done_cases ba h h' e e' r Hs)
      as [[-> _] | [[-> _] | [i [w [h1 [fwd [Hnone _]]]]]]];
      [assumption | assumption | contradiction].
  - inversion Hstep; subst. exact Hfe.
  - unfold closeLocked in Hstep. destruct (mu_txnEnd h);
      inversion Hstep; subst; exact Hfe.
  - unfold heartbeatLoop in Hstep. destruct (mu_txnEnd h) as [closer|] eqn:Hte.
    + destruct (heartbeatLoop_for gatekeeper Update closer evs h e)
        as [st0 h1 e1| |] eqn:Hl; try discriminate.
      simpl in Hstep. inversion Hstep; subst.
      now apply (heartbeatLoop_for_finalErr evs closer h h' e e' st0).
    + simpl in Hstep. inversion Hstep; subst.
      unfold heartbeatLoop_deferred. now rewrite Hte.
  - destruct (heartbeatLoop_select gatekeeper Update closer ev h e)
      as [st0 h1 e1| |] eqn:Hl; try discriminate.
    simpl in Hstep. inversion Hstep; subst.
    now apply (heartbeatLoop_select_finalErr closer ev h h' e e' st0).
  - inversion Hstep; subst. exact Hfe.
  - inversion Hstep; subst. exact Hfe.
Qed.

Lemma SendLocked_rejects (ba : BatchRequest) (h : txnHeartbeater) (e : Env) :
  mu_finalErr h <> None ->
  (forall hd p, ba_Requests ba <> [EndTransactionRequest hd false p]) ->
  SendLocked wrapped ba h e = Done (None, mu_finalErr h) h e.
Proof.
  intros Hfe Hnot. unfold SendLocked.
  destruct (singleRollback ba) eqn:Hs.
  - apply singleRollback_iff in Hs. destruct Hs as [hd [p Hreq]].
    now destruct (Hnot hd p).
  - destruct (mu_finalErr h); [reflexivity | contradiction].
Qed.

(** X21. [finalErr] is never cleared: once it is set, it is set after any
    sequence of sends, epoch bumps, closes, loop rounds, abort tasks and
    quiescing that does not stop the process, and every batch that is not
    a single rollback is then rejected with it, without being forwarded. *)
Theorem X21_finalErr_is_never_cleared (ops : list Op)
    (h h' : txnHeartbeater) (e e' : Env) :
  mu_finalErr h <> None ->
  run wrapped gatekeeper Update ops (h, e) = Some (h', e') ->
  mu_finalErr h' <> None /\
  forall ba,
    (forall hd p, ba_Requests ba <> [EndTransactionRequest hd false p]) ->
    SendLocked wrapped ba h' e' = Done (None, mu_finalErr h') h' e'.
Proof.
  intros Hfe Hrun.
  assert (Hfe' : mu_finalErr h' <> None).
  { revert h e Hfe Hrun.
    induction ops as [|op ops IH]; intros h e Hfe Hrun; cbn [run] in Hrun.
    - now inversion Hrun; subst.
    - destruct (step wrapped gatekeeper Update op (h, e)) as [[h1 e1]|] eqn:Hstep;
        [|discriminate].
      apply (IH h1 e1); [|exact Hrun].
      exact (step_finalErr op (h, e) (h1, e1) Hstep Hfe). }
  split; [exact Hfe'|]. intros ba Hnot. now apply SendLocked_rejects.
Qed.

(** X22. After [heartbeatLoop] has returned from a loop that was marked,
    [SendLocked] rejects every batch that is not a single rollback with
    the error the loop left, and still forwards a single rollback as it
    is. *)
Theorem X22_after_the_loop_only_rollbacks (evs : list LoopEvent)
    (h h' : txnHeartbeater) (e e' : Env) :
  mu_txnEnd h <> None ->
  heartbeatLoop gatekeeper Update evs h e = Done Returned h' e' ->
  exists err,
    In err loopErrors /\ mu_finalErr h' = Some err /\
    (forall ba,
       (forall hd p, ba_Requests ba <> [EndTransactionRequest hd false p]) ->
       SendLocked wrapped ba h' e' = Done (None, Some err) h' e') /\
    (forall ba hd p,
       ba_Requests ba = [EndTransactionRequest hd false p] ->
       SendLocked wrapped ba h' e'
       = Done (wrapped (wrappedLog e') ba) h' (log_wrapped ba e')).
Proof.
  intros Hte H. unfold heartbeatLoop in H.
  destruct (mu_txnEnd h) as [closer|]; [|contradiction].
  destruct (heartbeatLoop_for_returned evs closer h h' e e' H) as [_ [err [Hin Hfe]]].
  exists err. split; [exact Hin|]. split; [exact Hfe|]. split.
  - intros ba Hnot. rewrite <- Hfe. apply SendLocked_rejects; [|exact Hnot].
    rewrite Hfe. discriminate.
  - intros ba hd p Hreq. apply SendLocked_plain with (i := -1).
    + assert (Hs : singleRollback ba = true).
      { apply singleRollback_iff. now exists hd, p. }
      rewrite Hs. apply andb_false_r.
    + unfold firstWriteIndex. rewrite Hreq. reflexivity.
    + reflexivity.
Qed.

(** X23. An epoch bump re-arms the begin transaction but not the loop:
    after [epochBumpedLocked], on an eager interceptor whose loop is
    running, a batch with a write is forwarded with a begin transaction
    inserted again at the first write, no second loop is started, the
    anchor key of the record, once set, is kept, and [needBeginTxn] is
    cleared again. *)
Theorem X23_epoch_bump_rearms_begin_only
    (ba : BatchRequest) (h : txnHeartbeater) (e : Env) (i : Z) (c : Chan) :
  mu_finalErr h = None ->
  mu_txnEnd h = Some c ->
  firstWriteIndex ba = (i, None) ->
  i <> -1 ->
  eagerRecord h || negb (VersionLazyTxnRecord_IsActive (st h)) = true ->
  exists (h1 : txnHeartbeater) (fwd : BatchRequest),
    SendLocked wrapped ba (epochBumpedLocked h) e = forwardBatch wrapped true i fwd h1 e /\
    mu_txnEnd h1 = Some c /\
    mu_needBeginTxn h1 = false /\
    ba_Requests fwd
    = injectBeginTxn i (BeginTransactionRequest (mkRequestHeader (txn_Key (mu_txn h1))))
        (ba_Requests ba) /\
    (len_Key (txn_Key (mu_txn h)) <> 0 -> txn_Key (mu_txn h1) = txn_Key (mu_txn h)).
Proof.
  intros Hfe Hte Hfw Hi Heager.
  destruct (firstWriteIndex_found _ _ _ Hfw Hi) as [_ [Hrange [w [Hw Hww]]]].
  destruct (prepareBeginTxn_spec i ba (epochBumpedLocked h) w Hw)
    as [h1 [fwd [Hp [Hnb [Hte1 [_ [_ [_ [_ [_ [Hkey [_ Hreqs]]]]]]]]]]]].
  simpl in Hp, Hreqs, Hte1, Hkey. rewrite Heager in Hp, Hreqs.
  exists h1, fwd.
  pose proof (SendLocked_needBeginTxn wrapped ba (epochBumpedLocked h) e i h1 fwd true
                Hfe eq_refl Hfw Hi Hp Hte1) as Hsend.
  simpl in Hsend. rewrite Hte in Hsend. simpl in Hsend.
  split; [exact Hsend|]. split; [now rewrite Hte1|]. split; [exact Hnb|].
  split; [exact Hreqs|].
  intros Hlen. rewrite Hkey.
  destruct (Z.eqb_spec (len_Key (txn_Key (mu_txn h))) 0); [contradiction | reflexivity].
Qed.

(** ** The abort tasks *)

Lemma abortTasksOK_same (e e' : Env) :
  asyncTasks e' = asyncTasks e ->
  (asyncAbortCalls e <= asyncAbortCalls e')%nat ->
  abortTasksOK e -> abortTasksOK e'.
Proof.
  intros Ht Hc [Hin Hlen]. unfold abortTasksOK. rewrite Ht. split; [exact Hin | lia].
Qed.

Lemma abortTasksOK_loop (e e' : Env) :
  asyncTasks e' = asyncTasks e ++ [HeartbeatLoopTask] ->
  asyncAbortCalls e' = asyncAbortCalls e ->
  abortTasksOK e -> abortTasksOK e'.
Proof.
  intros Ht Hc [Hin Hlen]. unfold abortTasksOK. rewrite Ht, Hc. split.
  - intros ba Hba. apply in_app_or in Hba. destruct Hba as [Hba | [Hba | []]];
      [now apply Hin | discriminate].
  - rewrite filter_app, length_app. simpl. lia.
Qed.

Lemma abortTasksOK_abort (e e' : Env) (txn : Transaction) :
  asyncTasks e' = asyncTasks e ++ [AbortTxnTask (rollbackOf txn)] ->
  txn_Status txn = ABORTED ->
  asyncAbortCalls e' = S (asyncAbortCalls e) ->
  abortTasksOK e -> abortTasksOK e'.
Proof.
  intros Ht Hs Hc [Hin Hlen]. unfold abortTasksOK. rewrite Ht, Hc. split.
  - intros ba Hba. apply in_app_or in Hba. destruct Hba as [Hba | [Hba | []]];
      [now apply Hin|]. inversion Hba; subst. now exists txn.
  - rewrite filter_app, length_app. simpl. lia.
Qed.

Lemma SendLocked_abortTasksOK (ba : BatchRequest) (h h' : txnHeartbeater)
    (e e' : Env) (r : SendResult) :
  SendLocked wrapped ba h e = Done r h' e' -> abortTasksOK e -> abortTasksOK e'.
Proof.
  intros Hdone Hok.
  destruct (SendLocked_done_cases ba h h' e e' r Hdone)
    as [[_ [-> _]] | [[_ [-> _]] | [i [w [h1 [fwd [_ [_ [_ [_ [_ [_ Hways]]]]]]]]]]]].
  - exact Hok.
  - now apply (abortTasksOK_same e).
  - destruct Hways as [[_ [_ [_ [_ [-> _]]]]] | [[_ [_ [_ [_ ->]]]] | [_ [_ ->]]]].
    + now apply (abortTasksOK_same e).
    + now apply (abortTasksOK_loop e).
    + now apply (abortTasksOK_same e).
Qed.

Lemma heartbeat_abortTasksOK (h h' : txnHeartbeater) (e e' : Env) (b : bool) :
  heartbeat gatekeeper Update h e = Done b h' e' -> abortTasksOK e -> abortTasksOK e'.
Proof.
  intros H Hok.
  destruct (heartbeat_done_cases h h' e e' b H)
    as [[_ [_ [_ [_ ->]]]] | [_ [_ [[_ [_ ->]] | [[t [Ht [_ [_ ->]]]] |
         [t [_ [_ [_ ->]]]]]]]]].
  - exact Hok.
  - now apply (abortTasksOK_same e).
  - destruct (quiescing e).
    + apply (abortTasksOK_same e); simpl; [reflexivity | lia | exact Hok].
    + now apply (abortTasksOK_abort e _ t).
  - now apply (abortTasksOK_same e).
Qed.

Lemma heartbeatLoop_select_abortTasksOK (closer : Chan) (ev : LoopEvent)
    (h h' : txnHeartbeater) (e e' : Env) (s : LoopState) :
  heartbeatLoop_select gatekeeper Update closer ev h e = Done s h' e' ->
  abortTasksOK e -> abortTasksOK e'.
Proof.
  intros H Hok.
  destruct (heartbeatLoop_select_cases closer ev h h' e e' s H)
    as [[_ [[_ Hhb] | [[_ [_ [_ ->]]] | [_ [_ [_ ->]]]]]] |
        [_ [[_ [h1 [Hhb _]]] | [[_ [_ [-> _]]] | [_ [_ [-> _]]]]]]];
    try exact Hok.
  - now apply (heartbeat_abortTasksOK h h' e e' true).
  - now apply (heartbeat_abortTasksOK h h1 e e' false).
Qed.

Lemma heartbeatLoop_for_abortTasksOK (evs : list LoopEvent) :
  forall (closer : Chan) (h h' : txnHeartbeater) (e e' : Env) (s : LoopState),
    heartbeatLoop_for gatekeeper Update closer evs h e = Done s h' e' ->
    abortTasksOK e -> abortTasksOK e'.
Proof.
  induction evs as [|ev evs IH]; intros closer h h' e e' s H Hok; simpl in H.
  - now inversion H; subst.
  - destruct (heartbeatLoop_select gatekeeper Update closer ev h e)
      as [s1 h1 e1| |] eqn:Hsel; try discriminate.
    pose proof (heartbeatLoop_select_abortTasksOK closer ev h h1 e e1 s1 Hsel Hok) as Hok1.
    destruct s1 as [c|].
    + now apply (IH c h1 h' e1 e' s).
    + now inversion H; subst.
Qed.

Lemma step_abortTasksOK (op : Op) (s s' : txnHeartbeater * Env) :
  step wrapped gatekeeper Update op s = Some s' ->
  abortTasksOK (snd s) -> abortTasksOK (snd s').
Proof.
  destruct s as [h e]. destruct s' as [h' e']. simpl.
  intros Hstep Hok. destruct op; simpl in Hstep.
  - destruct (SendLocked wrapped ba h e) as [r h1 e1| |] eqn:Hs; try discriminate.
    simpl in Hstep. inversion Hstep; subst.
    now apply (SendLocked_abortTasksOK ba h h' e e' r).
  - inversion Hstep; subst. exact Hok.
  - unfold closeLocked in Hstep. destruct (mu_txnEnd h);
      inversion Hstep; subst; [|exact Hok].
    now apply (abortTasksOK_same e).
  - unfold heartbeatLoop in Hstep. destruct (mu_txnEnd h) as [closer|] eqn:Hte.
    + destruct (heartbeatLoop_for gatekeeper Update closer evs h e)
        as [st0 h1 e1| |] eqn:Hl; try discriminate.
      simpl in Hstep. inversion Hstep; subst.
      now apply (heartbeatLoop_for_abortTasksOK evs closer h h' e e' st0).
    + simpl in Hstep. inversion Hstep; subst. exact Hok.
  - destruct (heartbeatLoop_select gatekeeper Update closer ev h e)
      as [st0 h1 e1| |] eqn:Hl; try discriminate.
    simpl in Hstep. inversion Hstep; subst.
    now apply (heartbeatLoop_select_abortTasksOK closer ev h h' e e' st0).
  - inversion Hstep; subst. now apply (abortTasksOK_same e).
  - inversion Hstep; subst. now apply (abortTasksOK_same e).
Qed.

(** X24. Whatever the interceptor does (sends, epoch bumps, closes, loop
    rounds, abort tasks, quiescing), every abort task it has handed to the
    stopper carries the rollback (commit=false, poison=true) of a record
    that was ABORTED, and it has scheduled no more abort tasks than it has
    called the abort callback. *)
Theorem X24_abort_tasks_are_rollbacks (ops : list Op)
    (h h' : txnHeartbeater) (e e' : Env) :
  abortTasksOK e ->
  run wrapped gatekeeper Update ops (h, e) = Some (h', e') ->
  (forall ba, In (AbortTxnTask ba) (asyncTasks e') ->
              exists txn,
                ba = mkBatchRequest txn
                       [EndTransactionRequest (mkRequestHeader None) false true] /\
                txn_Status txn = ABORTED) /\
  (length (filter isAbortTask (asyncTasks e')) <= asyncAbortCalls e')%nat.
Proof.
  intros Hok Hrun.
  assert (Hok' : abortTasksOK e').
  { revert h e Hok Hrun.
    induction ops as [|op ops IH]; intros h e Hok Hrun; cbn [run] in Hrun.
    - now inversion Hrun; subst.
    - destruct (step wrapped gatekeeper Update op (h, e)) as [[h1 e1]|] eqn:Hstep;
        [|discriminate].
      apply (IH h1 e1); [|exact Hrun].
      exact (step_abortTasksOK op (h, e) (h1, e1) Hstep Hok). }
  exact Hok'.
Qed.

(** ** Initialisation *)

(** X25. [init] installs the record and the settings and re-arms
    [needBeginTxn], but resets neither [finalErr] nor the loop marker: an
    interceptor whose [finalErr] is set still rejects, after [init], every
    batch that is not a single rollback; and one whose marker is set
    starts no loop for a qualifying write. *)
Theorem X25_init_rearms_but_does_not_reset
    (txn : Transaction) (st0 : Settings) (h : txnHeartbeater) (e : Env) :
  mu_needBeginTxn (init txn st0 h) = true /\
  mu_txn (init txn st0 h) = txn /\
  st (init txn st0 h) = st0 /\
  mu_finalErr (init txn st0 h) = mu_finalErr h /\
  mu_txnEnd (init txn st0 h) = mu_txnEnd h /\
  (mu_finalErr h <> None ->
   forall ba,
     (forall hd p, ba_Requests ba <> [EndTransactionRequest hd false p]) ->
     SendLocked wrapped ba (init txn st0 h) e
     = Done (None, mu_finalErr h) (init txn st0 h) e) /\
  (mu_finalErr h = None -> mu_txnEnd h <> None ->
   forall ba r h' e',
     SendLocked wrapped ba (init txn st0 h) e = Done r h' e' ->
     mu_txnEnd h' = mu_txnEnd h /\ asyncTasks e' = asyncTasks e).
Proof.
  repeat (split; [reflexivity|]). split.
  - intros Hfe ba Hnot. now apply (SendLocked_rejects ba (init txn st0 h) e).
  - intros Hfe Hte ba r h' e' Hdone.
    destruct (SendLocked_done_cases ba (init txn st0 h) h' e e' r Hdone)
      as [[-> [-> _]] | [[-> [-> _]] | [i [w [h1 [fwd
           [_ [_ [_ [_ [Hw [Hp Hways]]]]]]]]]]]]; [now split | now split |].
    destruct (prepareBeginTxn_spec i ba (init txn st0 h) w Hw)
      as [h1' [fwd' [Hp' [_ [Hte1 _]]]]].
    rewrite Hp in Hp'. inversion Hp'; subst h1' fwd'. clear Hp'.
    simpl in Hways, Hte1.
    destruct Hways as [[Hn _] | [[Hn _] | [_ [-> ->]]]];
      [contradiction | contradiction | now split].
Qed.

End MoreProperties.

(** * Scenarios *)

(** Two writes on a fresh eager interceptor: the begin transaction at the
    anchor key goes first, the response has the two entries of the writes,
    and the loop is started. *)
Example scenario_two_writes :
  SendLocked sender_ok ba_writes h_init e_init
  = Done
      (Some (mkBatchResponse None (Some [OtherResponse "Put"; OtherResponse "Put"])), None)
      h_running e_after_writes.
Proof. reflexivity. Qed.

(** The same batch while the stopper is quiescing: the loop cannot start,
    [finalErr] is set and nothing is forwarded. *)
Example scenario_loop_refused :
  SendLocked sender_ok ba_writes h_init (set_quiescing true e_init)
  = Done (None, Some (NewError ErrUnavailable))
      (mkTxnHeartbeater (mkSettings true) true (Some 0%nat) txn1
         (Some (NewError ErrUnavailable)) false)
      (mkEnv [] [] 0%nat [] true 100 1%nat []).
Proof. reflexivity. Qed.

(** An error at the index of the begin transaction loses its index; an
    error ahead of it keeps it. *)
Example scenario_error_at_begin :
  SendLocked (sender_fails_at 1) ba_read_write h_init e_init
  = Done (None, Some (mkError "boom" (Some TransactionRetryError) None None))
      h_running
      (mkEnv
         [mkBatchRequest txn1
            [GetRequest (hdr "k0"); BeginTransactionRequest (hdr "k1");
             PutRequest (hdr "k1") "a"; GetRequest (hdr "k2")]]
         [] 0%nat [HeartbeatLoopTask] false 100 1%nat []).
Proof. reflexivity. Qed.

Example scenario_error_before_begin :
  SendLocked (sender_fails_at 0) ba_read_write h_init e_init
  = Done (None, Some (mkError "boom" (Some TransactionRetryError) None (Some 0)))
      h_running
      (mkEnv
         [mkBatchRequest txn1
            [GetRequest (hdr "k0"); BeginTransactionRequest (hdr "k1");
             PutRequest (hdr "k1") "a"; GetRequest (hdr "k2")]]
         [] 0%nat [HeartbeatLoopTask] false 100 1%nat []).
Proof. reflexivity. Qed.

(** An end-transaction request ahead of the write fails the batch. *)
Example scenario_end_before_write :
  SendLocked sender_ok
    (mkBatchRequest txn0
       [EndTransactionRequest (mkRequestHeader None) true false; PutRequest (hdr "k1") "a"])
    h_init e_init
  = Done (None, Some (NewErrorf "EndTransaction sent as non-terminal call")) h_init e_init.
Proof. reflexivity. Qed.

(** A heartbeat that finds the transaction aborted, then the loop's exit
    and the abort task: the rollback reaches the wrapped sender. *)
Example scenario_abort :
  run sender_ok gatekeeper_aborted update_status
    [OpLoopSelect 0%nat Tick;
     OpAbortTxnTask
       (mkBatchRequest (set_txn_Status ABORTED txn1)
          [EndTransactionRequest (mkRequestHeader None) false true])]
    (h_running, e_running)
  = Some
      (mkTxnHeartbeater (mkSettings true) true None (set_txn_Status ABORTED txn1)
         (Some (NewErrorf "heartbeat failed fatally")) false,
       mkEnv
         [mkBatchRequest (set_txn_Status ABORTED txn1)
            [EndTransactionRequest (mkRequestHeader None) false true]]
         [heartbeatBatch h_running e_running] 1%nat
         [HeartbeatLoopTask;
          AbortTxnTask
            (mkBatchRequest (set_txn_Status ABORTED txn1)
               [EndTransactionRequest (mkRequestHeader None) false true])]
         false 100 1%nat []).
Proof. reflexivity. Qed.


(** * The claims on concrete inputs *)

(** C1 on a failed interceptor: the rollback goes through, the commit is
    rejected with [finalErr]. *)
Lemma C1_witness :
  mu_finalErr h_failed = Some (NewErrorf "heartbeat failed fatally") /\
  SendLocked sender_ok ba_rollback h_failed e_init
  = Done (sender_ok (wrappedLog e_init) ba_rollback) h_failed
      (log_wrapped ba_rollback e_init) /\
  SendLocked sender_ok ba_commit h_failed e_init
  = Done (None, Some (NewErrorf "heartbeat failed fatally")) h_failed e_init.
Proof.
  split; [reflexivity|]. split.
  - apply (proj1 (C1_finalErr_rejects_all_but_rollback
                    sender_ok ba_rollback h_failed e_init _ eq_refl)).
    exists (mkRequestHeader None), false. reflexivity.
  - apply (proj2 (C1_finalErr_rejects_all_but_rollback
                    sender_ok ba_commit h_failed e_init _ eq_refl)).
    intros hd p H. discriminate H.
Defined.

(** C9 as stated fails once [finalErr] is set: the single commit has no
    write, yet it is rejected with [finalErr] and the wrapped sender
    receives nothing. *)
Lemma C9_counterexample :
  ba_Requests ba_commit = [EndTransactionRequest (mkRequestHeader None) true false] /\
  firstWriteIndex ba_commit = (-1, None) /\
  SendLocked sender_ok ba_commit h_failed e_init
  = Done (None, mu_finalErr h_failed) h_failed e_init /\
  ~ (exists r h' e',
       SendLocked sender_ok ba_commit h_failed e_init = Done r h' e' /\
       wrappedLog e' = ba_commit :: wrappedLog e_init).
Proof.
  repeat (split; [reflexivity|]).
  intros [r [h' [e' [Hsend Hlog]]]].
  inversion Hsend; subst. discriminate Hlog.
Defined.

(** C9 (amended) on a fresh interceptor. *)
Lemma C9_witness :
  mu_finalErr h_init = None /\
  ba_Requests ba_commit = [EndTransactionRequest (mkRequestHeader None) true false] /\
  SendLocked sender_ok ba_commit h_init e_init
  = Done (sender_ok (wrappedLog e_init) ba_commit) h_init (log_wrapped ba_commit e_init).
Proof.
  repeat (split; [reflexivity|]).
  apply (C9_single_commit_forwarded_unchanged
           sender_ok ba_commit h_init e_init (mkRequestHeader None) false);
    reflexivity.
Defined.

(** C3 as stated fails on an interceptor with lazy transaction records:
    the batch with one write is forwarded with one request, not two. *)
Lemma C3_counterexample :
  mu_finalErr h_lazy = None /\
  mu_needBeginTxn h_lazy = true /\
  length (filter IsTransactionWrite (ba_Requests ba_put)) = 1%nat /\
  SendLocked sender_ok ba_put h_lazy e_init
  = Done (sender_ok [] (mkBatchRequest txn1 [PutRequest (hdr "k1") "a"]))
      (mkTxnHeartbeater (mkSettings true) false (Some 0%nat) txn1 None false)
      (mkEnv [mkBatchRequest txn1 [PutRequest (hdr "k1") "a"]]
         [] 0%nat [HeartbeatLoopTask] false 100 1%nat []) /\
  ~ (exists r h' e' fwd,
       SendLocked sender_ok ba_put h_lazy e_init = Done r h' e' /\
       wrappedLog e' = fwd :: wrappedLog e_init /\
       length (ba_Requests fwd) = S (length (ba_Requests ba_put))).
Proof.
  repeat (split; [reflexivity|]).
  intros [r [h' [e' [fwd [Hsend [Hlog Hlen]]]]]].
  inversion Hsend; subst. inversion Hlog; subst. discriminate Hlen.
Defined.

(** C3 (amended) on a fresh eager interceptor, with a read ahead of the
    write. *)
Lemma C3_witness :
  mu_finalErr h_init = None /\
  mu_needBeginTxn h_init = true /\
  length (filter IsTransactionWrite (ba_Requests ba_read_write)) = 1%nat /\
  firstWriteIndex ba_read_write = (1, None) /\
  eagerRecord h_init || negb (VersionLazyTxnRecord_IsActive (st h_init)) = true /\
  (mu_txnEnd h_init = None -> GetArg_EndTransaction ba_read_write = None ->
   quiescing e_init = false) /\
  exists (w : Request) (h1 : txnHeartbeater) (e1 : Env) (fwd : BatchRequest),
    nth_error (ba_Requests ba_read_write) (Z.to_nat 1) = Some w /\
    IsTransactionWrite w = true /\
    forallb (fun r => negb (IsTransactionWrite r))
      (firstn (Z.to_nat 1) (ba_Requests ba_read_write)) = true /\
    SendLocked sender_ok ba_read_write h_init e_init
    = forwardBatch sender_ok true 1 fwd h1 e1 /\
    wrappedLog e1 = wrappedLog e_init /\
    txn_Key (mu_txn h1)
    = (if len_Key (txn_Key (mu_txn h_init)) =? 0 then hdr_Key (Header w)
       else txn_Key (mu_txn h_init)) /\
    ba_Requests fwd
    = firstn (Z.to_nat 1) (ba_Requests ba_read_write)
      ++ BeginTransactionRequest (mkRequestHeader (txn_Key (mu_txn h1)))
         :: skipn (Z.to_nat 1) (ba_Requests ba_read_write) /\
    length (ba_Requests fwd) = S (length (ba_Requests ba_read_write)) /\
    (forall r h' e',
       SendLocked sender_ok ba_read_write h_init e_init = Done r h' e' ->
       h' = h1 /\ wrappedLog e' = fwd :: wrappedLog e_init) /\
    forall b rs pErr,
      sender_ok (wrappedLog e_init) fwd = (Some b, pErr) ->
      br_Responses b = Some rs ->
      length rs = length (ba_Requests fwd) ->
      exists b' rs' pErr',
        SendLocked sender_ok ba_read_write h_init e_init
        = Done (Some b', pErr') h1 (log_wrapped fwd e1) /\
        br_Responses b' = Some rs' /\
        length rs' = length (ba_Requests ba_read_write).
Proof.
  premises.
  apply (C3_single_write_one_begin_marker sender_ok ba_read_write h_init e_init 1);
    premise.
Defined.

(** C4 on a fresh eager interceptor: the begin transaction is at index 1,
    the wrapped sender fails at index 2. *)
Lemma C4_witness :
  mu_finalErr h_init = None /\
  mu_needBeginTxn h_init = true /\
  firstWriteIndex ba_read_write = (1, None) /\
  1 <> -1 /\
  eagerRecord h_init || negb (VersionLazyTxnRecord_IsActive (st h_init)) = true /\
  (mu_txnEnd h_init = None -> GetArg_EndTransaction ba_read_write = None ->
   quiescing e_init = false) /\
  Z.of_nat (length (ba_Requests ba_read_write)) <= 2 ^ 31 /\
  exists (h1 : txnHeartbeater) (e1 : Env) (fwd : BatchRequest),
    SendLocked (sender_fails_at 2) ba_read_write h_init e_init
    = forwardBatch (sender_fails_at 2) true 1 fwd h1 e1 /\
    wrappedLog e1 = wrappedLog e_init /\
    nth_error (ba_Requests fwd) (Z.to_nat 1)
    = Some (BeginTransactionRequest (mkRequestHeader (txn_Key (mu_txn h1)))) /\
    forall br pErr idx,
      sender_fails_at 2 (wrappedLog e_init) fwd = (br, Some pErr) ->
      err_Index pErr = Some idx ->
      (forall b rs, br = Some b -> br_Responses b = Some rs ->
                    length rs = length (ba_Requests fwd)) ->
      exists br' pErr',
        SendLocked (sender_fails_at 2) ba_read_write h_init e_init
        = Done (br', Some pErr') h1 (log_wrapped fwd e1) /\
        (idx = 1 -> err_Index pErr' = None) /\
        (1 < idx -> err_Index pErr' = Some (idx - 1)) /\
        (idx < 1 -> err_Index pErr' = Some idx) /\
        err_Message pErr' = err_Message pErr /\
        err_Detail pErr' = err_Detail pErr /\
        err_Txn pErr' = err_Txn pErr.
Proof.
  premises.
  apply (C4_error_index_adjusted (sender_fails_at 2) ba_read_write h_init e_init 1);
    premise.
Defined.

(** C6 on a running loop whose gatekeeper finds no record. *)
Lemma C6_witness :
  txn_Status (mu_txn h_running) = PENDING /\
  txn_Key (mu_txn h_running) = Some "k1" /\
  gatekeeper_not_found (gatekeeperLog e_running) (heartbeatBatch h_running e_running)
  = (None,
     Some (mkError "" (Some (TransactionStatusError "not found" REASON_TXN_NOT_FOUND))
             None None)) /\
  err_Detail
    (mkError "" (Some (TransactionStatusError "not found" REASON_TXN_NOT_FOUND)) None None)
  = Some (TransactionStatusError "not found" REASON_TXN_NOT_FOUND) /\
  heartbeat gatekeeper_not_found update_status h_running e_running
  = Done true h_running (log_gatekeeper (heartbeatBatch h_running e_running) e_running) /\
  (forall closer,
     heartbeatLoop_select gatekeeper_not_found update_status closer Tick h_running e_running
     = Done (Looping closer) h_running
         (log_gatekeeper (heartbeatBatch h_running e_running) e_running)) /\
  (forall closer evs,
     heartbeatLoop_for gatekeeper_not_found update_status closer (Tick :: evs)
       h_running e_running
     = heartbeatLoop_for gatekeeper_not_found update_status closer evs h_running
         (log_gatekeeper (heartbeatBatch h_running e_running) e_running)).
Proof.
  do 4 (split; [reflexivity|]).
  apply (C6_record_not_found_is_swallowed gatekeeper_not_found update_status
           h_running e_running "k1" None
           (mkError "" (Some (TransactionStatusError "not found" REASON_TXN_NOT_FOUND))
              None None)
           "not found");
    reflexivity.
Defined.

(** C2 as stated fails while the stopper is quiescing: the heartbeat sees
    the abort, marks the record and calls the callback, but the stopper
    refuses the task, so no rollback is scheduled and none reaches the
    wrapped sender. *)
Lemma C2_counterexample :
  txn_Status (mu_txn h_running) = PENDING /\
  err_Detail (mkError "" (Some TransactionAbortedError) None None)
  = Some TransactionAbortedError /\
  heartbeat gatekeeper_aborted update_status h_running e_quiescing
  = Done false
      (set_txn (set_txn_Status ABORTED txn1) h_running)
      (mkEnv [] [heartbeatBatch h_running e_quiescing] 1%nat [HeartbeatLoopTask]
         true 100 1%nat []) /\
  ~ (exists h' e' rollback,
       heartbeat gatekeeper_aborted update_status h_running e_quiescing
       = Done false h' e' /\
       (In (AbortTxnTask rollback) (asyncTasks e') \/ In rollback (wrappedLog e'))).
Proof.
  repeat (split; [reflexivity|]).
  intros [h' [e' [rollback [Hhb Hin]]]].
  inversion Hhb; subst. simpl in Hin.
  destruct Hin as [[Hc | []] | []]. discriminate Hc.
Defined.

(** C2 (amended) on a running loop whose gatekeeper finds the transaction
    aborted. *)
Lemma C2_witness :
  txn_Status (mu_txn h_running) = PENDING /\
  txn_Key (mu_txn h_running) = Some "k1" /\
  ObservesAbort update_status (mu_txn h_running)
    (gatekeeper_aborted (gatekeeperLog e_running) (heartbeatBatch h_running e_running)) /\
  exists (h' : txnHeartbeater) (e' : Env) (rollback : BatchRequest),
    heartbeat gatekeeper_aborted update_status h_running e_running = Done false h' e' /\
    txn_Status (mu_txn h') = ABORTED /\
    asyncAbortCalls e' = S (asyncAbortCalls e_running) /\
    gatekeeperLog e' = heartbeatBatch h_running e_running :: gatekeeperLog e_running /\
    wrappedLog e' = wrappedLog e_running /\
    isRollbackBatch rollback /\
    ba_Txn rollback = mu_txn h' /\
    (quiescing e_running = false ->
     asyncTasks e' = asyncTasks e_running ++ [AbortTxnTask rollback] /\
     wrappedLog (snd (runAbortTxnTask sender_ok rollback h' e'))
     = rollback :: wrappedLog e_running /\
     gatekeeperLog (snd (runAbortTxnTask sender_ok rollback h' e')) = gatekeeperLog e') /\
    (quiescing e_running = true -> asyncTasks e' = asyncTasks e_running).
Proof.
  do 2 (split; [reflexivity|]).
  assert (Hobs : ObservesAbort update_status (mu_txn h_running)
                   (gatekeeper_aborted (gatekeeperLog e_running)
                      (heartbeatBatch h_running e_running))).
  { apply ObservesAbortedError. reflexivity. }
  split; [exact Hobs|].
  apply (C2_abort_observed_by_heartbeat sender_ok gatekeeper_aborted update_status
           h_running e_running "k1" eq_refl eq_refl Hobs).
Defined.

(** C7 on a fresh eager interceptor that has sent [ba_writes]. *)
Lemma C7_witness :
  mu_finalErr h_init = None /\
  mu_needBeginTxn h_init = true /\
  firstWriteIndex ba_writes = (0, None) /\
  0 <> -1 /\
  SendLocked sender_ok ba_writes h_init e_init
  = Done
      (Some (mkBatchResponse None (Some [OtherResponse "Put"; OtherResponse "Put"])), None)
      h_running e_after_writes /\
  (mu_needBeginTxn h_running = false /\
   forall (ops : list Op) (h2 : txnHeartbeater) (e2 : Env) (ba' : BatchRequest),
     forallb (fun op => negb (isEpochBump op)) ops = true ->
     run sender_ok gatekeeper_not_found update_status ops (h_running, e_after_writes)
     = Some (h2, e2) ->
     mu_needBeginTxn h2 = false /\
     (SendLocked sender_ok ba' h2 e2
      = Done (sender_ok (wrappedLog e2) ba') h2 (log_wrapped ba' e2) \/
      exists pErr, SendLocked sender_ok ba' h2 e2 = Done (None, Some pErr) h2 e2)).
Proof.
  do 3 (split; [reflexivity|]).
  split; [discriminate|].
  split; [reflexivity|].
  apply (C7_begin_sent_once_per_epoch sender_ok gatekeeper_not_found update_status
           ba_writes h_init h_running e_init e_after_writes 0
           (Some (mkBatchResponse None (Some [OtherResponse "Put"; OtherResponse "Put"])),
            None));
    premise.
Defined.

(** The start of the loop on a fresh eager interceptor. *)
Lemma SendLocked_loop_start_fresh :
  mu_finalErr h_init = None /\
  mu_needBeginTxn h_init = true /\
  firstWriteIndex ba_writes = (0, None) /\
  0 <> -1 /\
  exists (h1 : txnHeartbeater) (fwd : BatchRequest) (added : bool),
    prepareBeginTxn 0 ba_writes h_init = Some (h1, fwd, added) /\
    mu_txnEnd h1 = mu_txnEnd h_init /\
    (mu_txnEnd h_init = None -> GetArg_EndTransaction ba_writes = None ->
     quiescing e_init = false ->
     exists h2 e2,
       SendLocked sender_ok ba_writes h_init e_init
       = forwardBatch sender_ok added 0 fwd h2 e2 /\
       mu_txnEnd h2 = Some (nextChan e_init) /\
       asyncTasks e2 = asyncTasks e_init ++ [HeartbeatLoopTask] /\
       wrappedLog e2 = wrappedLog e_init) /\
    (mu_txnEnd h_init = None -> GetArg_EndTransaction ba_writes = None ->
     quiescing e_init = true ->
     exists h2 e2,
       SendLocked sender_ok ba_writes h_init e_init
       = Done (None, Some (NewError ErrUnavailable)) h2 e2 /\
       mu_finalErr h2 = Some (NewError ErrUnavailable) /\
       asyncTasks e2 = asyncTasks e_init /\
       wrappedLog e2 = wrappedLog e_init) /\
    (mu_txnEnd h_init <> None \/ GetArg_EndTransaction ba_writes <> None ->
     SendLocked sender_ok ba_writes h_init e_init
     = forwardBatch sender_ok added 0 fwd h1 e_init).
Proof.
  premises.
  apply (SendLocked_loop_start sender_ok ba_writes h_init e_init 0); premise.
Defined.

(** * The further properties on concrete inputs *)

Lemma e_running_abortTasksOK : abortTasksOK e_running.
Proof.
  split.
  - intros ba [Hba | []]. discriminate Hba.
  - simpl. lia.
Qed.

(** X4 on a fresh interceptor, with an end-transaction request ahead of a write. *)
Lemma X4_witness :
  (ba_Requests ba_end_write = (@nil Request) ++ EndTransactionRequest (mkRequestHeader None) true false :: [PutRequest (hdr "k1") "a"]) /\
  ([PutRequest (hdr "k1") "a"] <> []) /\
  (forallb notWrite (@nil Request) = true) /\
  (SendLocked sender_ok ba_end_write h_init e_init
 
    = Done (None,
          Some (match mu_finalErr h_init with
                | Some fe => fe
                | None => errNonTerminal
                end)) h_init e_init).
Proof.
  split; [premise|].
  split; [premise|].
  split; [premise|].
  refine (X4_nonterminal_EndTransaction_never_forwarded
            sender_ok ba_end_write h_init e_init (@nil Request) [PutRequest (hdr "k1") "a"] (mkRequestHeader None) true false _ _ _);
    [premise | premise | premise].
Defined.

(** X5 on a fresh interceptor and a batch of reads. *)
Lemma X5_witness :
  (mu_finalErr h_init = None) /\
  (forallb notWrite (ba_Requests ba_reads) = true) /\
  (forallb notEnd (removelast (ba_Requests ba_reads)) = true) /\
  (SendLocked sender_ok ba_reads h_init e_init
    = Done (sender_ok (wrappedLog e_init) ba_reads) h_init (log_wrapped ba_reads e_init)).
Proof.
  split; [premise|].
  split; [premise|].
  split; [premise|].
  refine (X5_batch_without_write_forwarded_as_is
            sender_ok ba_reads h_init e_init _ _ _);
    [premise | premise | premise].
Defined.

(** X7 on an interceptor that has sent its begin transaction. *)
Lemma X7_witness :
  (mu_needBeginTxn h_running = false \/ fst (firstWriteIndex ba_writes) = -1) /\
  (SendLocked sender_ok ba_writes h_running e_running
   = Done (sender_ok (wrappedLog e_running) ba_writes) h_running
       (log_wrapped ba_writes e_running) \/
   exists err,
     SendLocked sender_ok ba_writes h_running e_running = Done (None, Some err) h_running e_running).
Proof.
  split; [left; reflexivity|].
  refine (X7_SendLocked_returns sender_ok ba_writes h_running e_running _).
  left; reflexivity.
Defined.

(** X8 on a fresh eager interceptor, with a read ahead of the write. *)
Lemma X8_witness :
  (mu_finalErr h_init = None) /\
  (mu_needBeginTxn h_init = true) /\
  (firstWriteIndex ba_read_write = (1, None)) /\
  (1 <> -1) /\
  (eagerRecord h_init || negb (VersionLazyTxnRecord_IsActive (st h_init)) = true) /\
  ((mu_txnEnd h_init = None -> GetArg_EndTransaction ba_read_write = None -> quiescing e_init = false)) /\
  (exists (h1 : txnHeartbeater) (e1 : Env) (fwd : BatchRequest),
    (forall j, nth_error (ba_Requests fwd) (shifted (Z.to_nat 1) j)
               = nth_error (ba_Requests ba_read_write) j) /\
    forall b rs pErr,
      sender_ok (wrappedLog e_init) fwd = (Some b, pErr) ->
      br_Responses b = Some rs ->
      length rs = length (ba_Requests fwd) ->
      exists rs' pErr',
        SendLocked sender_ok ba_read_write h_init e_init
       
    = Done (Some (mkBatchResponse (br_Txn b) (Some rs')), pErr') h1
            (log_wrapped fwd e1) /\
        (forall j, nth_error rs' j = nth_error rs (shifted (Z.to_nat 1) j)) /\
        nth_error rs (Z.to_nat 1) <> None).
Proof.
  split; [premise|].
  split; [premise|].
  split; [premise|].
  split; [premise|].
  split; [premise|].
  split; [premise|].
  refine (X8_responses_stay_aligned
            sender_ok ba_read_write h_init e_init 1 _ _ _ _ _ _);
    [premise | premise | premise | premise | premise | premise].
Defined.

(** X9 on a fresh eager interceptor whose wrapped sender fails at index 2. *)
Lemma X9_witness :
  (mu_finalErr h_init = None) /\
  (mu_needBeginTxn h_init = true) /\
  (firstWriteIndex ba_read_write = (1, None)) /\
  (1 <> -1) /\
  (eagerRecord h_init || negb (VersionLazyTxnRecord_IsActive (st h_init)) = true) /\
  ((mu_txnEnd h_init = None -> GetArg_EndTransaction ba_read_write = None ->
    quiescing e_init = false)) /\
  (Z.of_nat (length (ba_Requests ba_read_write)) <= 2 ^ 31) /\
  (exists (fwd : BatchRequest),
    length (ba_Requests fwd) = S (length (ba_Requests ba_read_write)) /\
    (forall j, nth_error (ba_Requests fwd) (shifted (Z.to_nat 1) j)
               = nth_error (ba_Requests ba_read_write) j) /\
    (exists hd, nth_error (ba_Requests fwd) (Z.to_nat 1)
                = Some (BeginTransactionRequest hd)) /\
    forall pErr idx,
      (sender_fails_at 2) (wrappedLog e_init) fwd = (None, Some pErr) ->
      err_Index pErr = Some idx ->
      0 <= idx < Z.of_nat (length (ba_Requests fwd)) ->
      exists pErr' h1 e1,
        SendLocked (sender_fails_at 2) ba_read_write h_init e_init
        = Done (None, Some pErr') h1 e1 /\
        wrappedLog e1 = fwd :: wrappedLog e_init /\
        ((idx = 1 /\ err_Index pErr' = None) \/
         (exists j, err_Index pErr' = Some j /\ 0 <= j /\
                    nth_error (ba_Requests ba_read_write) (Z.to_nat j)
                    = nth_error (ba_Requests fwd) (Z.to_nat idx) /\
                    nth_error (ba_Requests ba_read_write) (Z.to_nat j) <> None))).
Proof.
  split; [premise|].
  split; [premise|].
  split; [premise|].
  split; [premise|].
  split; [premise|].
  split; [premise|].
  split; [premise|].
  refine (X9_error_index_points_at_same_request
            (sender_fails_at 2) ba_read_write h_init e_init 1 _ _ _ _ _ _ _);
    [premise | premise | premise | premise | premise | premise | premise].
Defined.

(** X10 on the two writes of a fresh eager interceptor. *)
Lemma X10_witness :
  (SendLocked sender_ok ba_writes h_init e_init = Done r_writes h_running e_after_writes) /\
  (txn_Status (mu_txn h_running) = txn_Status (mu_txn h_init) /\
  txn_Epoch (mu_txn h_running) = txn_Epoch (mu_txn h_init) /\
  (len_Key (txn_Key (mu_txn h_init)) <> 0 -> txn_Key (mu_txn h_running) = txn_Key (mu_txn h_init)) /\
  (len_Key (txn_Key (mu_txn h_init)) = 0 ->
   txn_Key (mu_txn h_running) = txn_Key (mu_txn h_init) \/
   exists w, nth_error (ba_Requests ba_writes) (Z.to_nat (fst (firstWriteIndex ba_writes))) = Some w /\
             IsTransactionWrite w = true /\
             txn_Key (mu_txn h_running) = hdr_Key (Header w)) /\
  (txn_Writing (mu_txn h_init) = true -> txn_Writing (mu_txn h_running) = true) /\
  (mu_needBeginTxn h_init = false -> mu_needBeginTxn h_running = false) /\
  eagerRecord h_running = eagerRecord h_init /\ st h_running = st h_init /\
  gatekeeperLog e_after_writes = gatekeeperLog e_init /\
  asyncAbortCalls e_after_writes = asyncAbortCalls e_init /\
  closedChans e_after_writes = closedChans e_init).
Proof.
  split; [premise|].
  refine (X10_SendLocked_frame
            sender_ok ba_writes h_init h_running e_init e_after_writes r_writes _);
    premise.
Defined.

(** X11 on the two writes of a fresh eager interceptor. *)
Lemma X11_witness :
  (SendLocked sender_ok ba_writes h_init e_init = Done r_writes h_running e_after_writes) /\
  ((wrappedLog e_after_writes = wrappedLog e_init /\ exists err, r_writes = (None, Some err)) \/
  (exists fwd,
      wrappedLog e_after_writes = fwd :: wrappedLog e_init /\
      (ba_Requests fwd = ba_Requests ba_writes \/
       exists k,
         ba_Requests fwd
         = injectBeginTxn (fst (firstWriteIndex ba_writes))
             (BeginTransactionRequest (mkRequestHeader k)) (ba_Requests ba_writes)))).
Proof.
  split; [premise|].
  refine (X11_SendLocked_forwards_at_most_once
            sender_ok ba_writes h_init h_running e_init e_after_writes r_writes _);
    premise.
Defined.

(** X12 while the stopper is quiescing: the loop start is refused. *)
Lemma X12_witness :
  (SendLocked sender_ok ba_writes h_init e_init_quiescing
    = Done r_refused h_refused e_refused) /\
  (mu_finalErr h_refused = mu_finalErr h_init \/
  (mu_finalErr h_init = None /\ mu_txnEnd h_init = None /\ quiescing e_init_quiescing = true /\
   mu_finalErr h_refused = Some (NewError ErrUnavailable) /\
   r_refused = (None, Some (NewError ErrUnavailable)) /\
   wrappedLog e_refused = wrappedLog e_init_quiescing)).
Proof.
  split; [premise|].
  refine (X12_SendLocked_sets_finalErr_only_on_refusal
            sender_ok ba_writes h_init h_refused e_init_quiescing e_refused r_refused _);
    premise.
Defined.

(** X13 on the two writes of a fresh eager interceptor. *)
Lemma X13_witness :
  (SendLocked sender_ok ba_writes h_init e_init = Done r_writes h_running e_after_writes) /\
  ((mu_txnEnd h_running = mu_txnEnd h_init /\ asyncTasks e_after_writes = asyncTasks e_init /\
   nextChan e_after_writes = nextChan e_init) \/
  (mu_txnEnd h_init = None /\ mu_txnEnd h_running = Some (nextChan e_init) /\
   nextChan e_after_writes = S (nextChan e_init) /\
   (quiescing e_init = false /\ asyncTasks e_after_writes = asyncTasks e_init ++ [HeartbeatLoopTask] \/
    quiescing e_init = true /\ asyncTasks e_after_writes = asyncTasks e_init))).
Proof.
  split; [premise|].
  refine (X13_SendLocked_loop_marker
            sender_ok ba_writes h_init h_running e_init e_after_writes r_writes _);
    premise.
Defined.

(** X14 on a heartbeat that is answered that the record was not found,
    while a response to the client has marked the record aborted: it
    answers true over a record that is ABORTED. *)
Lemma X14_witness :
  (heartbeat_among gatekeeper_not_found update_status meanwhile_aborted
     h_running e_running
   = Done true h_aborted e_one_heartbeat) /\
  ((true = false -> txn_Status (mu_txn h_aborted) <> PENDING) /\
   (true = true ->
    txn_Status (mu_txn h_running) = PENDING /\
    (txn_Status (mu_txn h_aborted) = PENDING \/
     answeredNotFound gatekeeper_not_found h_running e_running))).
Proof.
  split; [premise|].
  refine (X14_heartbeat_answer_and_status
            gatekeeper_not_found update_status meanwhile_aborted
            h_running h_aborted e_running e_one_heartbeat true _);
    premise.
Defined.

(** X15 on a heartbeat that finds the transaction aborted, the
    coordinator having closed the interceptor in the meantime. *)
Lemma X15_witness :
  (heartbeat_among gatekeeper_aborted update_status meanwhile_closed
     h_running e_running
   = Done false h_closed_aborted e_closed_aborted) /\
  ((txn_Status (mu_txn h_running) <> PENDING /\ false = false /\
    h_closed_aborted = h_running /\ e_closed_aborted = e_running) \/
   (txn_Status (mu_txn h_running) = PENDING /\
    exists (hm : txnHeartbeater) (em : Env),
      meanwhile_closed (h_running, log_gatekeeper (heartbeatBatch h_running e_running) e_running)
      = (hm, em) /\
      ((e_closed_aborted = em /\ exists txn', h_closed_aborted = set_txn txn' hm) \/
       (false = false /\ txn_Status (mu_txn h_closed_aborted) = ABORTED /\
        asyncAbortCalls e_closed_aborted = S (asyncAbortCalls em) /\
        wrappedLog e_closed_aborted = wrappedLog em /\
        gatekeeperLog e_closed_aborted = gatekeeperLog em /\
        (quiescing em = true /\ asyncTasks e_closed_aborted = asyncTasks em \/
         quiescing em = false /\
         asyncTasks e_closed_aborted
         = asyncTasks em ++ [AbortTxnTask (rollbackOf (mu_txn h_closed_aborted))]))))).
Proof.
  split; [premise|].
  refine (X15_heartbeat_own_writes
            gatekeeper_aborted update_status meanwhile_closed
            h_running h_closed_aborted e_running e_closed_aborted false _);
    premise.
Defined.

(** X16 on a record without an anchor key. *)
Lemma X16_witness :
  (heartbeat gatekeeper_not_found update_status h_init e_init = Fatal "attempting to heartbeat txn without anchor key") /\
  ((txn_Status (mu_txn h_init) <> PENDING /\ mu_txnEnd h_init <> None /\
   "attempting to heartbeat txn without anchor key" = "txn committed or aborted but heartbeat loop hasn't been signaled to stop") \/
  (txn_Status (mu_txn h_init) = PENDING /\ txn_Key (mu_txn h_init) = None /\
   "attempting to heartbeat txn without anchor key" = "attempting to heartbeat txn without anchor key")).
Proof.
  split; [premise|].
  refine (X16_heartbeat_fatal_only_on_its_checks
            gatekeeper_not_found update_status h_init e_init "attempting to heartbeat txn without anchor key" _);
    premise.
Defined.


(** X18 on an interceptor that sends two writes and whose loop ticks
    twice, the second time after the interceptor was closed. *)
Lemma X18_witness :
  (run sender_ok gatekeeper_not_found update_status ops_write_tick_close_tick
     (h_init, e_init)
   = Some (h_closed, e_ticked_closed_ticked)) /\
  (exists sent : list BatchRequest,
     gatekeeperLog e_ticked_closed_ticked = sent ++ gatekeeperLog e_init /\
     (forall ba, In ba sent ->
        txn_Status (ba_Txn ba) = PENDING /\
        exists (k : string) (now : Timestamp),
          txn_Key (ba_Txn ba) = Some k /\
          ba_Requests ba = [HeartbeatTxnRequest (mkRequestHeader (Some k)) now]) /\
     (length sent <= list_sum (map ticksOf ops_write_tick_close_tick))%nat).
Proof.
  split; [premise|].
  refine (X18_only_heartbeats_bypass_the_stack
            sender_ok gatekeeper_not_found update_status ops_write_tick_close_tick
            h_init h_closed e_init e_ticked_closed_ticked _);
    premise.
Defined.

(** X20 on a running loop. *)
Lemma X20_witness :
  (mu_txnEnd h_running = Some 0%nat) /\
  (heartbeatLoop_select gatekeeper_not_found update_status 0%nat CloserClosed
    (fst (closeLocked h_running e_running)) (snd (closeLocked h_running e_running))
 
    = Done Returned
      (set_finalErr (Some (NewErrorf "txnHeartbeater already closed"))
         (set_txnEnd None h_running))
      (close_chan 0%nat e_running) /\
  (is_closed 0%nat e_running = false ->
   heartbeatLoop_select gatekeeper_not_found update_status 0%nat CloserClosed h_running e_running = Done (Looping 0%nat) h_running e_running)).
Proof.
  split; [premise|].
  refine (X20_close_ends_the_loop
            gatekeeper_not_found update_status h_running e_running 0%nat _);
    premise.
Defined.

(** X21 on a failed interceptor that rolls back, bumps its epoch and sees the stopper quiesce. *)
Lemma X21_witness :
  (mu_finalErr h_failed <> None) /\
  (run sender_ok gatekeeper_not_found update_status ops_rollback_bump_quiesce (h_failed, e_init) = Some (h_failed, e_rolled_back)) /\
  (mu_finalErr h_failed <> None /\
  forall ba,
    (forall hd p, ba_Requests ba <> [EndTransactionRequest hd false p]) ->
    SendLocked sender_ok ba h_failed e_rolled_back
    = Done (None, mu_finalErr h_failed) h_failed e_rolled_back).
Proof.
  split; [premise|].
  split; [premise|].
  refine (X21_finalErr_is_never_cleared
            sender_ok gatekeeper_not_found update_status ops_rollback_bump_quiesce h_failed h_failed e_init e_rolled_back _ _);
    [premise | premise].
Defined.

(** X22 on a loop whose first heartbeat finds the transaction aborted. *)
Lemma X22_witness :
  (mu_txnEnd h_running <> None) /\
  (heartbeatLoop gatekeeper_aborted update_status [Tick] h_running e_running
    = Done Returned h_loop_failed e_aborted) /\
  (exists err,
    In err loopErrors /\ mu_finalErr h_loop_failed = Some err /\
    (forall ba,
       (forall hd p, ba_Requests ba <> [EndTransactionRequest hd false p]) ->
       SendLocked sender_ok ba h_loop_failed e_aborted
    = Done (None, Some err) h_loop_failed e_aborted) /\
    (forall ba hd p,
       ba_Requests ba = [EndTransactionRequest hd false p] ->
       SendLocked sender_ok ba h_loop_failed e_aborted
       = Done (sender_ok (wrappedLog e_aborted) ba) h_loop_failed (log_wrapped ba e_aborted))).
Proof.
  split; [premise|].
  split; [premise|].
  refine (X22_after_the_loop_only_rollbacks
            sender_ok gatekeeper_aborted update_status [Tick] h_running h_loop_failed e_running e_aborted _ _);
    [premise | premise].
Defined.

(** X23 on an interceptor whose loop is running. *)
Lemma X23_witness :
  (mu_finalErr h_running = None) /\
  (mu_txnEnd h_running = Some 0%nat) /\
  (firstWriteIndex ba_writes = (0, None)) /\
  (0 <> -1) /\
  (eagerRecord h_running || negb (VersionLazyTxnRecord_IsActive (st h_running)) = true) /\
  (exists (h1 : txnHeartbeater) (fwd : BatchRequest),
    SendLocked sender_ok ba_writes (epochBumpedLocked h_running) e_running = forwardBatch sender_ok true 0 fwd h1 e_running /\
    mu_txnEnd h1 = Some 0%nat /\
    mu_needBeginTxn h1 = false /\
    ba_Requests fwd
    = injectBeginTxn 0 (BeginTransactionRequest (mkRequestHeader (txn_Key (mu_txn h1))))
        (ba_Requests ba_writes) /\
    (len_Key (txn_Key (mu_txn h_running)) <> 0 -> txn_Key (mu_txn h1) = txn_Key (mu_txn h_running))).
Proof.
  split; [premise|].
  split; [premise|].
  split; [premise|].
  split; [premise|].
  split; [premise|].
  refine (X23_epoch_bump_rearms_begin_only
            sender_ok ba_writes h_running e_running 0 0%nat _ _ _ _ _);
    [premise | premise | premise | premise | premise].
Defined.

(** X24 on a loop round that finds the transaction aborted. *)
Lemma X24_witness :
  (abortTasksOK e_running) /\
  (run sender_ok gatekeeper_aborted update_status [OpLoopSelect 0%nat Tick] (h_running, e_running) = Some (h_loop_failed, e_aborted)) /\
  ((forall ba, In (AbortTxnTask ba) (asyncTasks e_aborted) ->
              exists txn,
                ba = mkBatchRequest txn
                       [EndTransactionRequest (mkRequestHeader None) false true] /\
                txn_Status txn = ABORTED) /\
  (length (filter isAbortTask (asyncTasks e_aborted)) <= asyncAbortCalls e_aborted)%nat).
Proof.
  split; [exact e_running_abortTasksOK|].
  split; [premise|].
  refine (X24_abort_tasks_are_rollbacks
            sender_ok gatekeeper_aborted update_status [OpLoopSelect 0%nat Tick] h_running h_loop_failed e_running e_aborted _ _);
    [exact e_running_abortTasksOK | premise].
Defined.
